(** * Sports-Schedule-Tracker: the MLB schedule job ([mlb_fetch_schedule.py])

    A shallow embedding of [MLBAPI] and [main]: Python values and
    exceptions, the parts of [datetime], [_strptime] and [pytz] that the
    job calls, the functions of the job, and the properties its
    specification states about them. *)

From Stdlib Require Import ZArith String Ascii Lia.
From stdpp Require Import gmap strings list fin_maps.

Open Scope string_scope.
Open Scope Z_scope.

(** ** Python exceptions and results *)

Module Py.

(** The exception classes the job can meet.  [ExceptionSub] stands for any
    other class derived from [Exception] (the [requests] and [boto3]
    hierarchies); [BaseExceptionSub] for a class derived from
    [BaseException] only. *)
Inductive exn_class : Type :=
| KeyboardInterrupt
| SystemExit
| GeneratorExit
| BaseExceptionSub (name : string)
| Exception
| IndexError
| KeyError
| TypeError
| AttributeError
| ValueError
| OverflowError
| ExceptionSub (name : string).

(** [issubclass(c, Exception)] *)
Definition is_Exception (c : exn_class) : bool :=
  match c with
  | KeyboardInterrupt | SystemExit | GeneratorExit | BaseExceptionSub _ => false
  | _ => true
  end.

(** A raised exception: its class and [str(e)]. *)
Record exn : Type := mk_exn { exn_cls : exn_class; exn_str : string }.

Inductive result (A : Type) : Type :=
| Ok (a : A)
| Raise (e : exn).
Arguments Ok {A} a.
Arguments Raise {A} e.

#[export] Instance result_ret : MRet result := fun A a => Ok a.
#[export] Instance result_bind : MBind result := fun A B f m =>
  match m with
  | Ok a => f a
  | Raise e => Raise e
  end.

Definition raise {A} (c : exn_class) (msg : string) : result A :=
  Raise (mk_exn c msg).

Definition is_ok {A} (r : result A) : bool :=
  match r with Ok _ => true | Raise _ => false end.

(** ** Python values, as [json.loads] builds them *)

(** A JSON number with a fraction or an exponent is kept by its literal:
    the job never computes with one, it only meets its type.  A string is
    a sequence of code points below 256. *)
#[warnings="-register-all"]
Inductive pyval : Type :=
| PNone
| PBool (b : bool)
| PInt (z : Z)
| PFloat (literal : string)
| PStr (s : string)
| PList (l : list pyval)
| PDict (m : gmap string pyval).

Definition type_name (v : pyval) : string :=
  match v with
  | PNone => "NoneType"
  | PBool _ => "bool"
  | PInt _ => "int"
  | PFloat _ => "float"
  | PStr _ => "str"
  | PList _ => "list"
  | PDict _ => "dict"
  end.

(** [repr] of a string of code points below 256.  The quote is the
    double one when the string holds a single quote and no double one;
    the quote in use and the backslash are escaped, and so is every code
    point that is not printable: the controls, U+007F to U+00A0 and the
    soft hyphen U+00AD. *)
Definition hex_digit (n : nat) : ascii :=
  if (n <? 10)%nat then ascii_of_nat (48 + n) else ascii_of_nat (87 + n).

Definition repr_char (quote c : ascii) : string :=
  let n := nat_of_ascii c in
  let backslash := ascii_of_nat 92 in
  if Ascii.eqb c quote || Ascii.eqb c backslash then
    String backslash (String c EmptyString)
  else if (n =? 9)%nat then String backslash "t"
  else if (n =? 10)%nat then String backslash "n"
  else if (n =? 13)%nat then String backslash "r"
  else if ((n <? 32) || ((127 <=? n) && (n <=? 160)) || (n =? 173))%nat then
    String backslash
      (String "x" (String (hex_digit (n / 16))
                     (String (hex_digit (n mod 16)) EmptyString)))
  else String c EmptyString.

Fixpoint holds_char (c : ascii) (s : string) : bool :=
  match s with
  | EmptyString => false
  | String c' s' => Ascii.eqb c c' || holds_char c s'
  end.

Fixpoint repr_body (quote : ascii) (s : string) : string :=
  match s with
  | EmptyString => EmptyString
  | String c s' => repr_char quote c +:+ repr_body quote s'
  end.

Definition repr (s : string) : string :=
  let single := ascii_of_nat 39 in
  let double := ascii_of_nat 34 in
  let quote :=
    if holds_char single s && negb (holds_char double s) then double
    else single in
  String quote (repr_body quote s +:+ String quote EmptyString).

Definition not_subscriptable {A} (v : pyval) : result A :=
  raise TypeError ("'" +:+ type_name v +:+ "' object is not subscriptable").

(** [v.get(k, default)] *)
Definition get (v : pyval) (k : string) (dflt : pyval) : result pyval :=
  match v with
  | PDict m => Ok (default dflt (m !! k))
  | _ => raise AttributeError
           ("'" +:+ type_name v +:+ "' object has no attribute 'get'")
  end.

(** [v[0]] *)
Definition index0 (v : pyval) : result pyval :=
  match v with
  | PList (x :: _) => Ok x
  | PList [] => raise IndexError "list index out of range"
  | PStr (String c _) => Ok (PStr (String c EmptyString))
  | PStr EmptyString => raise IndexError "string index out of range"
  | PDict _ => raise KeyError "0"
  | _ => not_subscriptable v
  end.

(** [v[k]] for a string key [k] *)
Definition getitem (v : pyval) (k : string) : result pyval :=
  match v with
  | PDict m =>
      match m !! k with
      | Some x => Ok x
      | None => raise KeyError (repr k)
      end
  | PList _ => raise TypeError "list indices must be integers or slices, not str"
  | PStr _ => raise TypeError "string indices must be integers, not 'str'"
  | _ => not_subscriptable v
  end.

Fixpoint chars (s : string) : list pyval :=
  match s with
  | EmptyString => []
  | String c s' => PStr (String c EmptyString) :: chars s'
  end.

(** The items a [for] loop over [v] visits.  A dict yields its keys; the
    job indexes every item by a string key, which fails alike on each
    key, so the order of the keys is not observable here. *)
Definition iter (v : pyval) : result (list pyval) :=
  match v with
  | PList l => Ok l
  | PStr s => Ok (chars s)
  | PDict m => Ok (PStr <$> (map_to_list m).*1)
  | _ => raise TypeError ("'" +:+ type_name v +:+ "' object is not iterable")
  end.

(** [str.lower] on one code point below 256: the ASCII capitals and the
    Latin-1 capitals (U+00C0..U+00DE but the multiplication sign). *)
Definition lower_char (c : ascii) : ascii :=
  let n := nat_of_ascii c in
  if ((65 <=? n) && (n <=? 90))%nat then ascii_of_nat (n + 32)
  else if ((192 <=? n) && (n <=? 222) && negb (n =? 215))%nat
       then ascii_of_nat (n + 32)
  else c.

Fixpoint lower_str (s : string) : string :=
  match s with
  | EmptyString => EmptyString
  | String c s' => String (lower_char c) (lower_str s')
  end.

(** [v.lower()] *)
Definition lower (v : pyval) : result string :=
  match v with
  | PStr s => Ok (lower_str s)
  | _ => raise AttributeError
           ("'" +:+ type_name v +:+ "' object has no attribute 'lower'")
  end.

End Py.
Import Py.

(** ** Decimal printing *)

Definition digit_char (d : Z) : ascii := ascii_of_nat (48 + Z.to_nat d).

(** ["%02d" % n] for [0 <= n < 100] *)
Definition fmt2 (n : Z) : string :=
  String (digit_char (n / 10)) (String (digit_char (n mod 10)) EmptyString).

(** ["%d" % n] for [0 <= n < 10000]: no padding, as glibc prints [%Y] *)
Definition fmt_year (n : Z) : string :=
  if n <? 10 then String (digit_char n) EmptyString
  else if n <? 100 then fmt2 n
  else if n <? 1000 then String (digit_char (n / 100)) (fmt2 (n mod 100))
  else fmt2 (n / 100) +:+ fmt2 (n mod 100).

(** ["%d" % n] for any integer *)
Fixpoint fmt_pos_fuel (fuel : nat) (n : Z) (acc : string) : string :=
  match fuel with
  | O => acc
  | S fuel' =>
      let acc' := String (digit_char (n mod 10)) acc in
      if n <? 10 then acc' else fmt_pos_fuel fuel' (n / 10) acc'
  end.

Definition fmt_int (n : Z) : string :=
  if n <? 0 then "-" +:+ fmt_pos_fuel (Z.to_nat (Z.log2 (- n)) + 1) (- n) ""
  else fmt_pos_fuel (Z.to_nat (Z.log2 n) + 1) n "".

(** ** [datetime]: the proleptic Gregorian calendar *)

Module Datetime.

Definition MINYEAR : Z := 1.
Definition MAXYEAR : Z := 9999.
(** [date.max.toordinal()] *)
Definition MAXORDINAL : Z := 3652059.

Definition DAYS_IN_MONTH (month : Z) : Z :=
  match month with
  | 1 => 31 | 2 => 28 | 3 => 31 | 4 => 30 | 5 => 31 | 6 => 30
  | 7 => 31 | 8 => 31 | 9 => 30 | 10 => 31 | 11 => 30 | 12 => 31
  | _ => -1
  end.

Definition DAYS_BEFORE_MONTH (month : Z) : Z :=
  match month with
  | 1 => 0 | 2 => 31 | 3 => 59 | 4 => 90 | 5 => 120 | 6 => 151
  | 7 => 181 | 8 => 212 | 9 => 243 | 10 => 273 | 11 => 304 | 12 => 334
  | _ => -1
  end.

Definition is_leap (year : Z) : bool :=
  (year mod 4 =? 0) && (negb (year mod 100 =? 0) || (year mod 400 =? 0)).

Definition days_before_year (year : Z) : Z :=
  let y := year - 1 in
  y * 365 + y / 4 - y / 100 + y / 400.

Definition days_in_month (year month : Z) : Z :=
  if (month =? 2) && is_leap year then 29 else DAYS_IN_MONTH month.

Definition days_before_month (year month : Z) : Z :=
  DAYS_BEFORE_MONTH month + (if (2 <? month) && is_leap year then 1 else 0).

Definition ymd2ord (year month day : Z) : Z :=
  days_before_year year + days_before_month year month + day.

Definition DI400Y : Z := 146097.
Definition DI100Y : Z := 36524.
Definition DI4Y : Z := 1461.

(** [_ord2ymd]: ordinal to (year, month, day), 1 January of year 1 being
    day 1. *)
Definition ord2ymd (n : Z) : Z * Z * Z :=
  let n := n - 1 in
  let n400 := n / DI400Y in
  let n := n mod DI400Y in
  let year := n400 * 400 + 1 in
  let n100 := n / DI100Y in
  let n := n mod DI100Y in
  let n4 := n / DI4Y in
  let n := n mod DI4Y in
  let n1 := n / 365 in
  let n := n mod 365 in
  let year := year + (n100 * 100 + n4 * 4 + n1) in
  if (n1 =? 4) || (n100 =? 4) then (year - 1, 12, 31)
  else
    let leapyear := (n1 =? 3) && (negb (n4 =? 24) || (n100 =? 3)) in
    let month := Z.shiftr (n + 50) 5 in
    let preceding :=
      DAYS_BEFORE_MONTH month + (if (2 <? month) && leapyear then 1 else 0) in
    if n <? preceding then
      let month := month - 1 in
      let preceding :=
        preceding
        - (DAYS_IN_MONTH month + (if (month =? 2) && leapyear then 1 else 0)) in
      (year, month, n - preceding + 1)
    else (year, month, n - preceding + 1).

(** A [datetime] object; the time zone it carries is tracked by the code
    that uses it. *)
Record datetime : Type := mk_datetime {
  year : Z; month : Z; day : Z;
  hour : Z; minute : Z; second : Z; microsecond : Z
}.

(** The fields a [datetime] object can hold. *)
Definition valid_datetime (dt : datetime) : Prop :=
  MINYEAR <= year dt <= MAXYEAR /\ 1 <= month dt <= 12 /\
  1 <= day dt <= days_in_month (year dt) (month dt) /\
  0 <= hour dt <= 23 /\ 0 <= minute dt <= 59 /\ 0 <= second dt <= 59 /\
  0 <= microsecond dt <= 999999.

(** [_check_date_fields], with the messages of the C implementation *)
Definition check_date_fields (y m d : Z) : result unit :=
  if negb ((MINYEAR <=? y) && (y <=? MAXYEAR)) then
    raise ValueError ("year " +:+ fmt_int y +:+ " is out of range")
  else if negb ((1 <=? m) && (m <=? 12)) then
    raise ValueError "month must be in 1..12"
  else if negb ((1 <=? d) && (d <=? days_in_month y m)) then
    raise ValueError "day is out of range for month"
  else Ok tt.

(** [_check_time_fields] *)
Definition check_time_fields (hh mm ss us : Z) : result unit :=
  if negb ((0 <=? hh) && (hh <=? 23)) then
    raise ValueError "hour must be in 0..23"
  else if negb ((0 <=? mm) && (mm <=? 59)) then
    raise ValueError "minute must be in 0..59"
  else if negb ((0 <=? ss) && (ss <=? 59)) then
    raise ValueError "second must be in 0..59"
  else if negb ((0 <=? us) && (us <=? 999999)) then
    raise ValueError "microsecond must be in 0..999999"
  else Ok tt.

(** [datetime(y, m, d, hh, mm, ss, us)] *)
Definition new (y m d hh mm ss us : Z) : result datetime :=
  _ ← check_date_fields y m d;
  _ ← check_time_fields hh mm ss us;
  Ok (mk_datetime y m d hh mm ss us).

Definition toordinal (dt : datetime) : Z :=
  ymd2ord (year dt) (month dt) (day dt).

(** A [timedelta], normalised as the constructor leaves it:
    [0 <= seconds < 86400], [0 <= microseconds < 1000000]. *)
Record timedelta : Type := mk_timedelta {
  td_days : Z; td_seconds : Z; td_microseconds : Z
}.

(** [timedelta(days, seconds, microseconds, hours=.., minutes=..)] *)
Definition new_timedelta (days hours minutes seconds microseconds : Z)
  : timedelta :=
  let us := microseconds mod 1000000 in
  let s := hours * 3600 + minutes * 60 + seconds + microseconds / 1000000 in
  mk_timedelta (days + s / 86400) (s mod 86400) us.

(** [timedelta.__add__] *)
Definition td_add (a b : timedelta) : timedelta :=
  new_timedelta (td_days a + td_days b) 0 0
    (td_seconds a + td_seconds b) (td_microseconds a + td_microseconds b).

(** [datetime.__add__(self, other)] for a timedelta [other] *)
Definition add (self : datetime) (other : timedelta) : result datetime :=
  let delta :=
    td_add (new_timedelta (toordinal self) (hour self) (minute self)
              (second self) (microsecond self)) other in
  let hh := td_seconds delta / 3600 in
  let rem := td_seconds delta mod 3600 in
  let mm := rem / 60 in
  let ss := rem mod 60 in
  if (0 <? td_days delta) && (td_days delta <=? MAXORDINAL) then
    let '(y, m, d) := ord2ymd (td_days delta) in
    Ok (mk_datetime y m d hh mm ss (td_microseconds delta))
  else raise OverflowError "date value out of range".

(** [self.replace(hour=0, minute=0, second=0, microsecond=0)] *)
Definition replace_midnight (self : datetime) : datetime :=
  mk_datetime (year self) (month self) (day self) 0 0 0 0.

(** The order of [datetime] objects of one zone: field by field. *)
Definition cmp (a b : datetime) : comparison :=
  match year a ?= year b with
  | Eq =>
    match month a ?= month b with
    | Eq =>
      match day a ?= day b with
      | Eq =>
        match hour a ?= hour b with
        | Eq =>
          match minute a ?= minute b with
          | Eq =>
            match second a ?= second b with
            | Eq => microsecond a ?= microsecond b
            | c => c
            end
          | c => c
          end
        | c => c
        end
      | c => c
      end
    | c => c
    end
  | c => c
  end.

(** [a < b] *)
Definition lt (a b : datetime) : bool :=
  match cmp a b with Lt => true | _ => false end.

(** [strftime('%Y-%m-%dT%H:%M:%SZ')] *)
Definition strftime_iso_z (dt : datetime) : string :=
  fmt_year (year dt) +:+ "-" +:+ fmt2 (month dt) +:+ "-" +:+ fmt2 (day dt)
  +:+ "T" +:+ fmt2 (hour dt) +:+ ":" +:+ fmt2 (minute dt) +:+ ":"
  +:+ fmt2 (second dt) +:+ "Z".

(** [strftime('%Y-%m-%d')] *)
Definition strftime_date (dt : datetime) : string :=
  fmt_year (year dt) +:+ "-" +:+ fmt2 (month dt) +:+ "-" +:+ fmt2 (day dt).

(** [strftime("EST %H:%M")] *)
Definition strftime_est (dt : datetime) : string :=
  "EST " +:+ fmt2 (hour dt) +:+ ":" +:+ fmt2 (minute dt).

End Datetime.

(** ** [_strptime]: the regular expression of a format, and its matching *)

Module Strptime.

(** The fragment of [re] patterns that [TimeRE] builds for the directives
    of the job's format. *)
Inductive regex : Type :=
| Eps
| Lit (c : ascii)
| Digit
| Range (lo hi : ascii)
| Cat (r1 r2 : regex)
| Alt (r1 r2 : regex)
| Group (name : string) (r : regex).

Definition is_digit (c : ascii) : bool :=
  ((48 <=? nat_of_ascii c) && (nat_of_ascii c <=? 57))%nat.

Definition in_range (lo hi c : ascii) : bool :=
  ((nat_of_ascii lo <=? nat_of_ascii c) && (nat_of_ascii c <=? nat_of_ascii hi))%nat.

(** The part of [s] that was consumed when [rest] is left of it. *)
Definition consumed (s rest : string) : string :=
  substring 0 (String.length s - String.length rest) s.

(** Backtracking matching, as [re.match] does it: alternatives are tried
    from left to right and the first way to complete the match wins.  The
    pattern is compiled with [IGNORECASE], so a literal matches up to
    case.  [k] is what remains to be matched. *)
Fixpoint rmatch {X} (r : regex) (s : string) (g : gmap string string)
    (k : string → gmap string string → option X) : option X :=
  match r with
  | Eps => k s g
  | Lit c =>
      match s with
      | String a s' =>
          if Ascii.eqb (lower_char a) (lower_char c) then k s' g else None
      | EmptyString => None
      end
  | Digit =>
      match s with
      | String a s' => if is_digit a then k s' g else None
      | EmptyString => None
      end
  | Range lo hi =>
      match s with
      | String a s' => if in_range lo hi a then k s' g else None
      | EmptyString => None
      end
  | Cat r1 r2 => rmatch r1 s g (fun s' g' => rmatch r2 s' g' k)
  | Alt r1 r2 =>
      match rmatch r1 s g k with
      | Some x => Some x
      | None => rmatch r2 s g k
      end
  | Group name r1 =>
      rmatch r1 s g (fun s' g' => k s' (<[name := consumed s s']> g'))
  end.

(** [format_regex.match(data_string)]: the text left after the match and
    [found.groupdict()]. *)
Definition re_match (r : regex) (s : string)
  : option (string * gmap string string) :=
  rmatch r s ∅ (fun rest g => Some (rest, g)).

Definition alts (rs : list regex) : regex :=
  match rs with
  | [] => Eps
  | r :: rs' => foldl Alt r rs'
  end.

(** The entries of [TimeRE] for the directives of the format. *)
Definition directive (c : ascii) : option regex :=
  if Ascii.eqb c "Y" then
    Some (Group "Y" (Cat Digit (Cat Digit (Cat Digit Digit))))
  else if Ascii.eqb c "m" then
    Some (Group "m" (alts [Cat (Lit "1") (Range "0" "2");
                           Cat (Lit "0") (Range "1" "9");
                           Range "1" "9"]))
  else if Ascii.eqb c "d" then
    Some (Group "d" (alts [Cat (Lit "3") (Range "0" "1");
                           Cat (Range "1" "2") Digit;
                           Cat (Lit "0") (Range "1" "9");
                           Range "1" "9";
                           Cat (Lit " ") (Range "1" "9")]))
  else if Ascii.eqb c "H" then
    Some (Group "H" (alts [Cat (Lit "2") (Range "0" "3");
                           Cat (Range "0" "1") Digit;
                           Digit]))
  else if Ascii.eqb c "M" then
    Some (Group "M" (alts [Cat (Range "0" "5") Digit; Digit]))
  else if Ascii.eqb c "S" then
    Some (Group "S" (alts [Cat (Lit "6") (Range "0" "1");
                           Cat (Range "0" "5") Digit;
                           Digit]))
  else None.

(** [TimeRE.pattern]: the text of the format is matched literally, each
    directive by its entry.  (The format of the job holds no white space
    and no character of the [re] syntax.) *)
Fixpoint pattern (format : string) : option regex :=
  match format with
  | EmptyString => Some Eps
  | String "%" (String c format') =>
      d ← directive c; r ← pattern format'; Some (Cat d r)
  | String c format' => r ← pattern format'; Some (Cat (Lit c) r)
  end.

Definition strip_spaces_left (s : string) : string :=
  (fix go (s : string) : string :=
     match s with
     | String " " s' => go s'
     | _ => s
     end) s.

Fixpoint digits_value (s : string) (acc : Z) : option Z :=
  match s with
  | EmptyString => Some acc
  | String c s' =>
      if is_digit c
      then digits_value s' (acc * 10 + (Z.of_nat (nat_of_ascii c) - 48))
      else None
  end.

(** [int(s)] for the texts a group of the pattern can capture: decimal
    digits after optional blanks. *)
Definition int (s : string) : result Z :=
  match strip_spaces_left s with
  | EmptyString =>
      raise ValueError ("invalid literal for int() with base 10: " +:+ repr s)
  | s' =>
      match digits_value s' 0 with
      | Some z => Ok z
      | None =>
          raise ValueError
            ("invalid literal for int() with base 10: " +:+ repr s)
      end
  end.

(** [found_dict[key]] *)
Definition group (g : gmap string string) (key : string) : result string :=
  match g !! key with
  | Some s => Ok s
  | None => raise KeyError (repr key)
  end.

(** [datetime.strptime(data_string, format)] for a format made of the
    directives above. *)
Definition strptime (data_string format : string) : result Datetime.datetime :=
  match pattern format with
  | None => raise ValueError ("bad directive in format " +:+ repr format)
  | Some format_regex =>
      match re_match format_regex data_string with
      | None =>
          raise ValueError ("time data " +:+ repr data_string
                            +:+ " does not match format " +:+ repr format)
      | Some (String c rest, _) =>
          raise ValueError ("unconverted data remains: " +:+ String c rest)
      | Some (EmptyString, found_dict) =>
          year ← group found_dict "Y" ≫= int;
          month ← group found_dict "m" ≫= int;
          day ← group found_dict "d" ≫= int;
          hour ← group found_dict "H" ≫= int;
          minute ← group found_dict "M" ≫= int;
          second ← group found_dict "S" ≫= int;
          _ ← Datetime.check_date_fields year month day;
          Datetime.new year month day hour minute second 0
      end
  end.

End Strptime.

(** ** [pytz]: a zone as its table of transitions *)

Module Pytz.

(** An entry of [_transition_info]: the offset from UTC in seconds, which
    [pytz] rounds to whole minutes, and the abbreviation of the zone.  (The
    third component, the daylight-saving part of the offset, is not used
    by the job.) *)
Record ttinfo : Type := mk_ttinfo { utcoffset : Z; tzname : string }.

(** A [DstTzInfo]: [_utc_transition_times] and [_transition_info], two
    lists of one length. *)
Record tzinfo : Type := mk_tzinfo {
  utc_transition_times : list Datetime.datetime;
  transition_info : list ttinfo
}.

Fixpoint bisect_loop (fuel : nat) (a : list Datetime.datetime)
    (x : Datetime.datetime) (lo hi : nat) : nat :=
  match fuel with
  | O => lo
  | S fuel' =>
      if (lo <? hi)%nat then
        let mid := ((lo + hi) / 2)%nat in
        match a !! mid with
        | Some y =>
            if Datetime.lt x y then bisect_loop fuel' a x lo mid
            else bisect_loop fuel' a x (mid + 1)%nat hi
        | None => lo
        end
      else lo
  end.

(** [bisect.bisect_right(a, x)]: the interval [lo, hi) halves at each
    turn, so [length a] turns are enough. *)
Definition bisect_right (a : list Datetime.datetime) (x : Datetime.datetime)
  : nat :=
  bisect_loop (S (length a)) a x 0%nat (length a).

(** [DstTzInfo.fromutc]: the local time of the UTC time [dt] and the
    entry in effect. *)
Definition fromutc (tz : tzinfo) (dt : Datetime.datetime)
  : result (Datetime.datetime * ttinfo) :=
  let idx := Z.max 0 (Z.of_nat (bisect_right (utc_transition_times tz) dt) - 1) in
  match transition_info tz !! Z.to_nat idx with
  | Some inf =>
      local ← Datetime.add dt (Datetime.new_timedelta 0 0 0 (utcoffset inf) 0);
      Ok (local, inf)
  | None => raise IndexError "list index out of range"
  end.

(** The transitions of [US/Eastern] as [pytz] loads them from its zone
    file: the first row stands for [datetime.min] and local mean time, the
    others are the transitions from 1901 to 2037.  A row holds the UTC
    time of the transition (year, month, day, hour, minute, second), the
    offset from then on and the abbreviation. *)
Definition US_Eastern_table : list (Z * Z * Z * Z * Z * Z * Z * string) := [
  (1, 1, 1, 0, 0, 0, -17760, "LMT");
  (1901, 12, 13, 20, 45, 52, -18000, "EST");
  (1918, 3, 31, 7, 0, 0, -14400, "EDT");
  (1918, 10, 27, 6, 0, 0, -18000, "EST");
  (1919, 3, 30, 7, 0, 0, -14400, "EDT");
  (1919, 10, 26, 6, 0, 0, -18000, "EST");
  (1920, 3, 28, 7, 0, 0, -14400, "EDT");
  (1920, 10, 31, 6, 0, 0, -18000, "EST");
  (1921, 4, 24, 7, 0, 0, -14400, "EDT");
  (1921, 9, 25, 6, 0, 0, -18000, "EST");
  (1922, 4, 30, 7, 0, 0, -14400, "EDT");
  (1922, 9, 24, 6, 0, 0, -18000, "EST");
  (1923, 4, 29, 7, 0, 0, -14400, "EDT");
  (1923, 9, 30, 6, 0, 0, -18000, "EST");
  (1924, 4, 27, 7, 0, 0, -14400, "EDT");
  (1924, 9, 28, 6, 0, 0, -18000, "EST");
  (1925, 4, 26, 7, 0, 0, -14400, "EDT");
  (1925, 9, 27, 6, 0, 0, -18000, "EST");
  (1926, 4, 25, 7, 0, 0, -14400, "EDT");
  (1926, 9, 26, 6, 0, 0, -18000, "EST");
  (1927, 4, 24, 7, 0, 0, -14400, "EDT");
  (1927, 9, 25, 6, 0, 0, -18000, "EST");
  (1928, 4, 29, 7, 0, 0, -14400, "EDT");
  (1928, 9, 30, 6, 0, 0, -18000, "EST");
  (1929, 4, 28, 7, 0, 0, -14400, "EDT");
  (1929, 9, 29, 6, 0, 0, -18000, "EST");
  (1930, 4, 27, 7, 0, 0, -14400, "EDT");
  (1930, 9, 28, 6, 0, 0, -18000, "EST");
  (1931, 4, 26, 7, 0, 0, -14400, "EDT");
  (1931, 9, 27, 6, 0, 0, -18000, "EST");
  (1932, 4, 24, 7, 0, 0, -14400, "EDT");
  (1932, 9, 25, 6, 0, 0, -18000, "EST");
  (1933, 4, 30, 7, 0, 0, -14400, "EDT");
  (1933, 9, 24, 6, 0, 0, -18000, "EST");
  (1934, 4, 29, 7, 0, 0, -14400, "EDT");
  (1934, 9, 30, 6, 0, 0, -18000, "EST");
  (1935, 4, 28, 7, 0, 0, -14400, "EDT");
  (1935, 9, 29, 6, 0, 0, -18000, "EST");
  (1936, 4, 26, 7, 0, 0, -14400, "EDT");
  (1936, 9, 27, 6, 0, 0, -18000, "EST");
  (1937, 4, 25, 7, 0, 0, -14400, "EDT");
  (1937, 9, 26, 6, 0, 0, -18000, "EST");
  (1938, 4, 24, 7, 0, 0, -14400, "EDT");
  (1938, 9, 25, 6, 0, 0, -18000, "EST");
  (1939, 4, 30, 7, 0, 0, -14400, "EDT");
  (1939, 9, 24, 6, 0, 0, -18000, "EST");
  (1940, 4, 28, 7, 0, 0, -14400, "EDT");
  (1940, 9, 29, 6, 0, 0, -18000, "EST");
  (1941, 4, 27, 7, 0, 0, -14400, "EDT");
  (1941, 9, 28, 6, 0, 0, -18000, "EST");
  (1942, 2, 9, 7, 0, 0, -14400, "EWT");
  (1945, 8, 14, 23, 0, 0, -14400, "EPT");
  (1945, 9, 30, 6, 0, 0, -18000, "EST");
  (1946, 4, 28, 7, 0, 0, -14400, "EDT");
  (1946, 9, 29, 6, 0, 0, -18000, "EST");
  (1947, 4, 27, 7, 0, 0, -14400, "EDT");
  (1947, 9, 28, 6, 0, 0, -18000, "EST");
  (1948, 4, 25, 7, 0, 0, -14400, "EDT");
  (1948, 9, 26, 6, 0, 0, -18000, "EST");
  (1949, 4, 24, 7, 0, 0, -14400, "EDT");
  (1949, 9, 25, 6, 0, 0, -18000, "EST");
  (1950, 4, 30, 7, 0, 0, -14400, "EDT");
  (1950, 9, 24, 6, 0, 0, -18000, "EST");
  (1951, 4, 29, 7, 0, 0, -14400, "EDT");
  (1951, 9, 30, 6, 0, 0, -18000, "EST");
  (1952, 4, 27, 7, 0, 0, -14400, "EDT");
  (1952, 9, 28, 6, 0, 0, -18000, "EST");
  (1953, 4, 26, 7, 0, 0, -14400, "EDT");
  (1953, 9, 27, 6, 0, 0, -18000, "EST");
  (1954, 4, 25, 7, 0, 0, -14400, "EDT");
  (1954, 9, 26, 6, 0, 0, -18000, "EST");
  (1955, 4, 24, 7, 0, 0, -14400, "EDT");
  (1955, 10, 30, 6, 0, 0, -18000, "EST");
  (1956, 4, 29, 7, 0, 0, -14400, "EDT");
  (1956, 10, 28, 6, 0, 0, -18000, "EST");
  (1957, 4, 28, 7, 0, 0, -14400, "EDT");
  (1957, 10, 27, 6, 0, 0, -18000, "EST");
  (1958, 4, 27, 7, 0, 0, -14400, "EDT");
  (1958, 10, 26, 6, 0, 0, -18000, "EST");
  (1959, 4, 26, 7, 0, 0, -14400, "EDT");
  (1959, 10, 25, 6, 0, 0, -18000, "EST");
  (1960, 4, 24, 7, 0, 0, -14400, "EDT");
  (1960, 10, 30, 6, 0, 0, -18000, "EST");
  (1961, 4, 30, 7, 0, 0, -14400, "EDT");
  (1961, 10, 29, 6, 0, 0, -18000, "EST");
  (1962, 4, 29, 7, 0, 0, -14400, "EDT");
  (1962, 10, 28, 6, 0, 0, -18000, "EST");
  (1963, 4, 28, 7, 0, 0, -14400, "EDT");
  (1963, 10, 27, 6, 0, 0, -18000, "EST");
  (1964, 4, 26, 7, 0, 0, -14400, "EDT");
  (1964, 10, 25, 6, 0, 0, -18000, "EST");
  (1965, 4, 25, 7, 0, 0, -14400, "EDT");
  (1965, 10, 31, 6, 0, 0, -18000, "EST");
  (1966, 4, 24, 7, 0, 0, -14400, "EDT");
  (1966, 10, 30, 6, 0, 0, -18000, "EST");
  (1967, 4, 30, 7, 0, 0, -14400, "EDT");
  (1967, 10, 29, 6, 0, 0, -18000, "EST");
  (1968, 4, 28, 7, 0, 0, -14400, "EDT");
  (1968, 10, 27, 6, 0, 0, -18000, "EST");
  (1969, 4, 27, 7, 0, 0, -14400, "EDT");
  (1969, 10, 26, 6, 0, 0, -18000, "EST");
  (1970, 4, 26, 7, 0, 0, -14400, "EDT");
  (1970, 10, 25, 6, 0, 0, -18000, "EST");
  (1971, 4, 25, 7, 0, 0, -14400, "EDT");
  (1971, 10, 31, 6, 0, 0, -18000, "EST");
  (1972, 4, 30, 7, 0, 0, -14400, "EDT");
  (1972, 10, 29, 6, 0, 0, -18000, "EST");
  (1973, 4, 29, 7, 0, 0, -14400, "EDT");
  (1973, 10, 28, 6, 0, 0, -18000, "EST");
  (1974, 1, 6, 7, 0, 0, -14400, "EDT");
  (1974, 10, 27, 6, 0, 0, -18000, "EST");
  (1975, 2, 23, 7, 0, 0, -14400, "EDT");
  (1975, 10, 26, 6, 0, 0, -18000, "EST");
  (1976, 4, 25, 7, 0, 0, -14400, "EDT");
  (1976, 10, 31, 6, 0, 0, -18000, "EST");
  (1977, 4, 24, 7, 0, 0, -14400, "EDT");
  (1977, 10, 30, 6, 0, 0, -18000, "EST");
  (1978, 4, 30, 7, 0, 0, -14400, "EDT");
  (1978, 10, 29, 6, 0, 0, -18000, "EST");
  (1979, 4, 29, 7, 0, 0, -14400, "EDT");
  (1979, 10, 28, 6, 0, 0, -18000, "EST");
  (1980, 4, 27, 7, 0, 0, -14400, "EDT");
  (1980, 10, 26, 6, 0, 0, -18000, "EST");
  (1981, 4, 26, 7, 0, 0, -14400, "EDT");
  (1981, 10, 25, 6, 0, 0, -18000, "EST");
  (1982, 4, 25, 7, 0, 0, -14400, "EDT");
  (1982, 10, 31, 6, 0, 0, -18000, "EST");
  (1983, 4, 24, 7, 0, 0, -14400, "EDT");
  (1983, 10, 30, 6, 0, 0, -18000, "EST");
  (1984, 4, 29, 7, 0, 0, -14400, "EDT");
  (1984, 10, 28, 6, 0, 0, -18000, "EST");
  (1985, 4, 28, 7, 0, 0, -14400, "EDT");
  (1985, 10, 27, 6, 0, 0, -18000, "EST");
  (1986, 4, 27, 7, 0, 0, -14400, "EDT");
  (1986, 10, 26, 6, 0, 0, -18000, "EST");
  (1987, 4, 5, 7, 0, 0, -14400, "EDT");
  (1987, 10, 25, 6, 0, 0, -18000, "EST");
  (1988, 4, 3, 7, 0, 0, -14400, "EDT");
  (1988, 10, 30, 6, 0, 0, -18000, "EST");
  (1989, 4, 2, 7, 0, 0, -14400, "EDT");
  (1989, 10, 29, 6, 0, 0, -18000, "EST");
  (1990, 4, 1, 7, 0, 0, -14400, "EDT");
  (1990, 10, 28, 6, 0, 0, -18000, "EST");
  (1991, 4, 7, 7, 0, 0, -14400, "EDT");
  (1991, 10, 27, 6, 0, 0, -18000, "EST");
  (1992, 4, 5, 7, 0, 0, -14400, "EDT");
  (1992, 10, 25, 6, 0, 0, -18000, "EST");
  (1993, 4, 4, 7, 0, 0, -14400, "EDT");
  (1993, 10, 31, 6, 0, 0, -18000, "EST");
  (1994, 4, 3, 7, 0, 0, -14400, "EDT");
  (1994, 10, 30, 6, 0, 0, -18000, "EST");
  (1995, 4, 2, 7, 0, 0, -14400, "EDT");
  (1995, 10, 29, 6, 0, 0, -18000, "EST");
  (1996, 4, 7, 7, 0, 0, -14400, "EDT");
  (1996, 10, 27, 6, 0, 0, -18000, "EST");
  (1997, 4, 6, 7, 0, 0, -14400, "EDT");
  (1997, 10, 26, 6, 0, 0, -18000, "EST");
  (1998, 4, 5, 7, 0, 0, -14400, "EDT");
  (1998, 10, 25, 6, 0, 0, -18000, "EST");
  (1999, 4, 4, 7, 0, 0, -14400, "EDT");
  (1999, 10, 31, 6, 0, 0, -18000, "EST");
  (2000, 4, 2, 7, 0, 0, -14400, "EDT");
  (2000, 10, 29, 6, 0, 0, -18000, "EST");
  (2001, 4, 1, 7, 0, 0, -14400, "EDT");
  (2001, 10, 28, 6, 0, 0, -18000, "EST");
  (2002, 4, 7, 7, 0, 0, -14400, "EDT");
  (2002, 10, 27, 6, 0, 0, -18000, "EST");
  (2003, 4, 6, 7, 0, 0, -14400, "EDT");
  (2003, 10, 26, 6, 0, 0, -18000, "EST");
  (2004, 4, 4, 7, 0, 0, -14400, "EDT");
  (2004, 10, 31, 6, 0, 0, -18000, "EST");
  (2005, 4, 3, 7, 0, 0, -14400, "EDT");
  (2005, 10, 30, 6, 0, 0, -18000, "EST");
  (2006, 4, 2, 7, 0, 0, -14400, "EDT");
  (2006, 10, 29, 6, 0, 0, -18000, "EST");
  (2007, 3, 11, 7, 0, 0, -14400, "EDT");
  (2007, 11, 4, 6, 0, 0, -18000, "EST");
  (2008, 3, 9, 7, 0, 0, -14400, "EDT");
  (2008, 11, 2, 6, 0, 0, -18000, "EST");
  (2009, 3, 8, 7, 0, 0, -14400, "EDT");
  (2009, 11, 1, 6, 0, 0, -18000, "EST");
  (2010, 3, 14, 7, 0, 0, -14400, "EDT");
  (2010, 11, 7, 6, 0, 0, -18000, "EST");
  (2011, 3, 13, 7, 0, 0, -14400, "EDT");
  (2011, 11, 6, 6, 0, 0, -18000, "EST");
  (2012, 3, 11, 7, 0, 0, -14400, "EDT");
  (2012, 11, 4, 6, 0, 0, -18000, "EST");
  (2013, 3, 10, 7, 0, 0, -14400, "EDT");
  (2013, 11, 3, 6, 0, 0, -18000, "EST");
  (2014, 3, 9, 7, 0, 0, -14400, "EDT");
  (2014, 11, 2, 6, 0, 0, -18000, "EST");
  (2015, 3, 8, 7, 0, 0, -14400, "EDT");
  (2015, 11, 1, 6, 0, 0, -18000, "EST");
  (2016, 3, 13, 7, 0, 0, -14400, "EDT");
  (2016, 11, 6, 6, 0, 0, -18000, "EST");
  (2017, 3, 12, 7, 0, 0, -14400, "EDT");
  (2017, 11, 5, 6, 0, 0, -18000, "EST");
  (2018, 3, 11, 7, 0, 0, -14400, "EDT");
  (2018, 11, 4, 6, 0, 0, -18000, "EST");
  (2019, 3, 10, 7, 0, 0, -14400, "EDT");
  (2019, 11, 3, 6, 0, 0, -18000, "EST");
  (2020, 3, 8, 7, 0, 0, -14400, "EDT");
  (2020, 11, 1, 6, 0, 0, -18000, "EST");
  (2021, 3, 14, 7, 0, 0, -14400, "EDT");
  (2021, 11, 7, 6, 0, 0, -18000, "EST");
  (2022, 3, 13, 7, 0, 0, -14400, "EDT");
  (2022, 11, 6, 6, 0, 0, -18000, "EST");
  (2023, 3, 12, 7, 0, 0, -14400, "EDT");
  (2023, 11, 5, 6, 0, 0, -18000, "EST");
  (2024, 3, 10, 7, 0, 0, -14400, "EDT");
  (2024, 11, 3, 6, 0, 0, -18000, "EST");
  (2025, 3, 9, 7, 0, 0, -14400, "EDT");
  (2025, 11, 2, 6, 0, 0, -18000, "EST");
  (2026, 3, 8, 7, 0, 0, -14400, "EDT");
  (2026, 11, 1, 6, 0, 0, -18000, "EST");
  (2027, 3, 14, 7, 0, 0, -14400, "EDT");
  (2027, 11, 7, 6, 0, 0, -18000, "EST");
  (2028, 3, 12, 7, 0, 0, -14400, "EDT");
  (2028, 11, 5, 6, 0, 0, -18000, "EST");
  (2029, 3, 11, 7, 0, 0, -14400, "EDT");
  (2029, 11, 4, 6, 0, 0, -18000, "EST");
  (2030, 3, 10, 7, 0, 0, -14400, "EDT");
  (2030, 11, 3, 6, 0, 0, -18000, "EST");
  (2031, 3, 9, 7, 0, 0, -14400, "EDT");
  (2031, 11, 2, 6, 0, 0, -18000, "EST");
  (2032, 3, 14, 7, 0, 0, -14400, "EDT");
  (2032, 11, 7, 6, 0, 0, -18000, "EST");
  (2033, 3, 13, 7, 0, 0, -14400, "EDT");
  (2033, 11, 6, 6, 0, 0, -18000, "EST");
  (2034, 3, 12, 7, 0, 0, -14400, "EDT");
  (2034, 11, 5, 6, 0, 0, -18000, "EST");
  (2035, 3, 11, 7, 0, 0, -14400, "EDT");
  (2035, 11, 4, 6, 0, 0, -18000, "EST");
  (2036, 3, 9, 7, 0, 0, -14400, "EDT");
  (2036, 11, 2, 6, 0, 0, -18000, "EST");
  (2037, 3, 8, 7, 0, 0, -14400, "EDT");
  (2037, 11, 1, 6, 0, 0, -18000, "EST")
].

Definition row_time (r : Z * Z * Z * Z * Z * Z * Z * string)
  : Datetime.datetime :=
  let '(y, m, d, hh, mm, ss, _, _) := r in Datetime.mk_datetime y m d hh mm ss 0.

Definition row_info (r : Z * Z * Z * Z * Z * Z * Z * string) : ttinfo :=
  let '(_, _, _, _, _, _, off, name) := r in mk_ttinfo off name.

(** [pytz.timezone('US/Eastern')] *)
Definition US_Eastern : tzinfo :=
  mk_tzinfo (row_time <$> US_Eastern_table) (row_info <$> US_Eastern_table).

End Pytz.

(** ** The world of one run: clock, network, file system, object store *)

Module Http.

(** A [requests.Response]: [json] is what [response.json()] does. *)
Record response : Type := mk_response {
  status_code : Z;
  reason : string;
  text : string;
  json : result pyval
}.

(** [response.raise_for_status()] *)
Definition raise_for_status (url : string) (r : response) : result unit :=
  if (400 <=? status_code r) && (status_code r <? 500) then
    raise (ExceptionSub "HTTPError")
      (fmt_int (status_code r) +:+ " Client Error: " +:+ reason r
       +:+ " for url: " +:+ url)
  else if (500 <=? status_code r) && (status_code r <? 600) then
    raise (ExceptionSub "HTTPError")
      (fmt_int (status_code r) +:+ " Server Error: " +:+ reason r
       +:+ " for url: " +:+ url)
  else Ok tt.

End Http.

(** [config.py]: the two names the job imports from it. *)
Record config : Type := mk_config { API_KEY : string; SPORT : string }.

(** A record of the published list: the dict [game_info]. *)
Abbreviation game_record := (gmap string pyval).

(** What a run meets outside the program.  The clock is read twice, by
    [get_current_est_date] and by [get_utc_start_and_end]; each reading is
    the UTC time [datetime.now] starts from.  [delete_from_s3] and
    [upload_to_s3] are the functions of [s3_uploader]; [file_write] is
    [open] and [json.dump] in [save_schedule]; [stdout_write] is what
    [print] does with a line on [sys.stdout]: it raises
    [UnicodeEncodeError] on a text the encoding of the stream cannot
    take, [ValueError] on a closed stream, [OSError] on a broken one. *)
Record world : Type := mk_world {
  clock_est : Datetime.datetime;
  clock_utc : Datetime.datetime;
  http_get : string → list (string * string) → result Http.response;
  delete_from_s3 : string → string → result unit;
  upload_to_s3 : string → string → string → result unit;
  file_write : string → list game_record → result unit;
  stdout_write : string → result unit
}.

(** ** [class MLBAPI] *)

Module MLBAPI.

Definition BASE_URL : string := "https://statsapi.mlb.com/api/v1/".
Definition BUCKET_NAME : string := "timjimmymlbdata".

(** [datetime.astimezone(tz)] of a time that carries [pytz.utc]: the
    offset of UTC, zero, is taken off and [tz.fromutc] does the rest. *)
Definition astimezone_from_utc (self : Datetime.datetime) (tz : Pytz.tzinfo)
  : result (Datetime.datetime * Pytz.ttinfo) :=
  utc ← Datetime.add self (Datetime.new_timedelta 0 0 0 0 0);
  Pytz.fromutc tz utc.

Definition convert_utc_to_est (utc_time_str : pyval) : result string :=
  let est := Pytz.US_Eastern in
  match utc_time_str with
  | PStr s =>
      utc_time ← Strptime.strptime s "%Y-%m-%dT%H:%M:%SZ";
      est_time ← astimezone_from_utc utc_time est;
      Ok (Datetime.strftime_est est_time.1)
  | v =>
      raise TypeError
        ("strptime() argument 1 must be str, not "
         +:+ match v with PNone => "None" | _ => type_name v end)
  end.

Definition get_utc_start_and_end (w : world) : result (string * string) :=
  let now_utc := clock_utc w in
  let now_utc := Datetime.replace_midnight now_utc in
  end_of_today_utc ← Datetime.add now_utc (Datetime.new_timedelta 1 2 0 0 0);
  let today_str := Datetime.strftime_iso_z now_utc in
  let end_str := Datetime.strftime_iso_z end_of_today_utc in
  Ok (today_str, end_str).

Definition get_current_est_date (w : world) : result string :=
  let est := Pytz.US_Eastern in
  now_est ← Pytz.fromutc est (clock_est w);
  Ok (Datetime.strftime_date now_est.1).

Definition get_schedule (w : world) (sport_id : Z) : result pyval :=
  current_date ← get_current_est_date w;
  let url := BASE_URL +:+ "/schedule/games/?sportId=" +:+ fmt_int sport_id
             +:+ "&startDate=" +:+ current_date
             +:+ "&endDate=" +:+ current_date in
  response ← http_get w url [];
  _ ← Http.raise_for_status url response;
  Http.json response.

Definition fetch_events (cfg : config) (w : world) : result pyval :=
  '(today_str, tomorrow_str) ← get_utc_start_and_end w;
  response ← http_get w
    ("https://api.the-odds-api.com/v4/sports/" +:+ SPORT cfg +:+ "/events")
    [("apiKey", API_KEY cfg); ("commenceTimeFrom", today_str);
     ("commenceTimeTo", tomorrow_str); ("dateFormat", "iso")];
  if negb (Http.status_code response =? 200) then
    raise Exception ("Failed to fetch odds: "
                     +:+ fmt_int (Http.status_code response) +:+ ", "
                     +:+ Http.text response)
  else Http.json response.

(** [v[k1][k2]...] *)
Fixpoint subscripts (v : pyval) (keys : list string) : result pyval :=
  match keys with
  | [] => Ok v
  | k :: keys' => x ← getitem v k; subscripts x keys'
  end.

(** One turn of the inner loop of [process_game_data]: [event] against
    the record built so far. *)
Definition match_event (game_info : game_record) (event : pyval)
  : result game_record :=
  event_home ← getitem event "home_team" ≫= lower;
  game_home ← getitem (PDict game_info) "home_team" ≫= lower;
  if String.eqb event_home game_home then
    id ← getitem event "id";
    Ok (<["id" := id]> game_info)
  else Ok game_info.

(** [for event in events: ...] *)
Fixpoint match_events (events : list pyval) (game_info : game_record)
  : result game_record :=
  match events with
  | [] => Ok game_info
  | event :: events' =>
      game_info' ← match_event game_info event;
      match_events events' game_info'
  end.

(** The body of the outer loop: the record of [game]. *)
Definition build_game_info (events : pyval) (game : pyval)
  : result game_record :=
  game_time_est ← getitem game "gameDate" ≫= convert_utc_to_est;
  date ← getitem game "gameDate";
  away_team ← subscripts game ["teams"; "away"; "team"; "name"];
  home_team ← subscripts game ["teams"; "home"; "team"; "name"];
  venue ← subscripts game ["venue"; "name"];
  let game_info : game_record :=
    <["venue" := venue]> (<["home_team" := home_team]>
      (<["away_team" := away_team]> (<["time" := PStr game_time_est]>
        (<["date" := date]> ∅)))) in
  event_list ← iter events;
  match_events event_list game_info.

(** [for game in games: ...; game_info_list.append(game_info)] *)
Fixpoint build_all (events : pyval) (games : list pyval)
  : result (list game_record) :=
  match games with
  | [] => Ok []
  | game :: games' =>
      game_info ← build_game_info events game;
      game_info_list ← build_all events games';
      Ok (game_info :: game_info_list)
  end.

(** [data.get("dates", [])[0].get("games", [])] *)
Definition first_date_games (data : pyval) : result pyval :=
  dates ← get data "dates" (PList []);
  first ← index0 dates;
  get first "games" (PList []).

Definition process_game_data (cfg : config) (w : world) (data : pyval)
  : result (list game_record) :=
  games ← first_date_games data;
  events ← fetch_events cfg w;
  game_list ← iter games;
  build_all events game_list.

End MLBAPI.

(** ** [main] *)

(** What a run did to the outside, in order. *)
Inductive action : Type :=
| Deleted (bucket key : string)
| Saved (filename : string) (data : list game_record)
| Uploaded (filename bucket key : string)
| Printed (line : string).

(** A statement: from the actions done so far to the actions done after
    it and its outcome. *)
Definition stmt (A : Type) : Type := list action → list action * result A.

Definition seq {A B} (c : stmt A) (k : A → stmt B) : stmt B :=
  fun tr =>
    match c tr with
    | (tr', Ok a) => k a tr'
    | (tr', Raise e) => (tr', Raise e)
    end.

(** A computation without effect on the outside *)
Definition pure {A} (r : result A) : stmt A := fun tr => (tr, r).

(** A call to the outside: its action is recorded when it succeeds. *)
Definition perform (r : result unit) (a : action) : stmt unit :=
  fun tr =>
    match r with
    | Ok _ => ((tr ++ [a])%list, Ok tt)
    | Raise e => (tr, Raise e)
    end.

(** [print(line)]: the line is on the stream when the write succeeds. *)
Definition print (w : world) (line : string) : stmt unit :=
  perform (stdout_write w line) (Printed line).

(** [try: body  except Exception as e: handler(e)] *)
Definition try_except_Exception (body : stmt unit) (handler : exn → stmt unit)
  : stmt unit :=
  fun tr =>
    match body tr with
    | (tr', Ok _) => (tr', Ok tt)
    | (tr', Raise e) =>
        if is_Exception (exn_cls e) then handler e tr' else (tr', Raise e)
    end.

(** [MLBAPI.save_schedule(data)], with the default file name *)
Definition save_schedule (w : world) (data : list game_record) : stmt unit :=
  perform (file_write w "/tmp/mlb_schedule.json" data)
    (Saved "/tmp/mlb_schedule.json" data).

(** The [try] block of [main] *)
Definition main_try (cfg : config) (w : world) : stmt unit :=
  seq (perform (delete_from_s3 w MLBAPI.BUCKET_NAME "mlb_schedule.json")
         (Deleted MLBAPI.BUCKET_NAME "mlb_schedule.json")) (fun _ =>
  seq (pure (MLBAPI.get_schedule w 1)) (fun schedule_data =>
  seq (pure (MLBAPI.process_game_data cfg w schedule_data)) (fun games =>
  seq (save_schedule w games) (fun _ =>
  seq (perform (upload_to_s3 w "/tmp/mlb_schedule.json" MLBAPI.BUCKET_NAME
                  "mlb_schedule.json")
         (Uploaded "/tmp/mlb_schedule.json" MLBAPI.BUCKET_NAME
            "mlb_schedule.json")) (fun _ =>
  print w "Schedule fetched and saved successfully."))))).

(** The [except Exception as e] block of [main]: an exception of its
    [print] is raised from the block, and leaves [main]. *)
Definition main_except (w : world) (e : exn) : stmt unit :=
  print w ("An error occurred: " +:+ exn_str e).

(** [main(event, lambda_context)]: the two arguments are not used. *)
Definition main (cfg : config) (w : world) : stmt unit :=
  try_except_Exception (main_try cfg w) (main_except w).

(** ** The data model of the specification, read off a parsed response *)

Module Spec.

(** The [home_team] of an odds event, when it is an object that holds one
    as a string. *)
Definition event_home (event : pyval) : option string :=
  match event with
  | PDict m =>
      match m !! "home_team" with
      | Some (PStr s) => Some s
      | _ => None
      end
  | _ => None
  end.

(** The identifier of an odds event, when it holds one. *)
Definition event_id (event : pyval) : option pyval :=
  match event with
  | PDict m => m !! "id"
  | _ => None
  end.

(** [event] is for the home team [home], letter case apart. *)
Definition home_matches (home : string) (event : pyval) : bool :=
  match event_home event with
  | Some s => String.eqb (lower_str s) (lower_str home)
  | None => false
  end.

(** An OddsEvent: an object with a string [home_team] and an [id]. *)
Definition is_odds_event (event : pyval) : bool :=
  match event_home event, event_id event with
  | Some _, Some _ => true
  | _, _ => false
  end.

(** An object with a string [home_team]; its [id] may be missing. *)
Definition has_home_team (event : pyval) : bool :=
  match event_home event with
  | Some _ => true
  | None => false
  end.

(** An event the inner loop can handle for the home team [home]: it names
    its home team, and holds an [id] if it matches. *)
Definition event_ok_for (home : string) (event : pyval) : bool :=
  has_home_team event
  && (negb (home_matches home event)
      || match event_id event with Some _ => true | None => false end).

(** The last event of the list that matches [home], if one does. *)
Fixpoint last_match (home : string) (events : list pyval) : option pyval :=
  match events with
  | [] => None
  | event :: events' =>
      match last_match home events' with
      | Some e => Some e
      | None => if home_matches home event then Some event else None
      end
  end.

(** A ScheduleGame: the four fields the job reads off a game. *)
Record schedule_game : Type := mk_schedule_game {
  gameDate : string;
  away_name : pyval;
  home_name : string;
  venue_name : pyval
}.

Definition game_view (game : pyval) : option schedule_game :=
  match getitem game "gameDate",
        MLBAPI.subscripts game ["teams"; "away"; "team"; "name"],
        MLBAPI.subscripts game ["teams"; "home"; "team"; "name"],
        MLBAPI.subscripts game ["venue"; "name"] with
  | Ok (PStr d), Ok a, Ok (PStr h), Ok v => Some (mk_schedule_game d a h v)
  | _, _, _, _ => None
  end.

(** The display time of a game, when its [gameDate] converts. *)
Definition game_time (g : schedule_game) : option string :=
  match MLBAPI.convert_utc_to_est (PStr (gameDate g)) with
  | Ok t => Some t
  | Raise _ => None
  end.

(** A game of a valid schedule response: the four fields are there and
    the time converts. *)
Definition valid_game (game : pyval) : bool :=
  match game_view game with
  | Some g => match game_time g with Some _ => true | None => false end
  | None => false
  end.

(** The home team of a game. *)
Definition game_home (game : pyval) : option string :=
  home_name <$> game_view game.

(** The games of the first date entry of a schedule response, when the
    response holds a list of date entries, the first entry is an object
    and its [games] is a list. *)
Definition schedule_games (data : pyval) : option (list pyval) :=
  match data with
  | PDict dm =>
      match dm !! "dates" with
      | Some (PList (PDict first :: _)) =>
          match first !! "games" with
          | Some (PList games) => Some games
          | _ => None
          end
      | _ => None
      end
  | _ => None
  end.

(** Two odds events that agree on [home_team] and on [id], whatever else
    they hold. *)
Definition events_agree (e1 e2 : pyval) : Prop :=
  ∃ m1 m2 : gmap string pyval,
    e1 = PDict m1 ∧ e2 = PDict m2 ∧
    m1 !! "home_team" = m2 !! "home_team" ∧ m1 !! "id" = m2 !! "id".

(** The record of a game, as the data model describes it: the five
    fields of the game, and the [id] of the last matching event if an
    event matches. *)
Definition expected_record (events : list pyval) (g : schedule_game)
    (time : string) : game_record :=
  let fields : game_record :=
    list_to_map [("date", PStr (gameDate g)); ("time", PStr time);
                 ("away_team", away_name g); ("home_team", PStr (home_name g));
                 ("venue", venue_name g)] in
  match last_match (home_name g) events ≫= event_id with
  | Some id => <["id" := id]> fields
  | None => fields
  end.

(** [r] is the record of [game] against [events]. *)
Definition is_record_of (events : list pyval) (game : pyval) (r : game_record)
  : Prop :=
  ∃ g t, game_view game = Some g ∧ game_time g = Some t
         ∧ r = expected_record events g t.

(** [event] is for the home team of [game], letter case apart. *)
Definition matches_game (game event : pyval) : bool :=
  match game_home game with
  | Some home => home_matches home event
  | None => false
  end.

(** No event of the list matches a game of the list. *)
Definition no_match (games events : list pyval) : bool :=
  forallb (λ game, forallb (λ event, negb (matches_game game event)) events)
    games.

(** The error kinds of the specification; the program defines no class
    for any of them. *)
Definition classified (c : exn_class) : bool :=
  match c with
  | ExceptionSub name =>
      bool_decide (name ∈ ["UpstreamError"; "ParseError";
                           "EmptyScheduleError"; "PublishError"])
  | _ => false
  end.

(** An outcome that is a value or an exception of class [Exception]. *)
Definition only_Exception {A} (r : result A) : Prop :=
  match r with
  | Ok _ => True
  | Raise e => is_Exception (exn_cls e) = true
  end.

(** The calls to the outside raise exceptions of class [Exception] only:
    no [KeyboardInterrupt], no [SystemExit]. *)
Record outside_raises_Exception (w : world) : Prop := {
  http_get_raises : ∀ url params, only_Exception (http_get w url params);
  json_raises : ∀ url params r,
    http_get w url params = Ok r → only_Exception (Http.json r);
  delete_raises : ∀ bucket key, only_Exception (delete_from_s3 w bucket key);
  upload_raises : ∀ filename bucket key,
    only_Exception (upload_to_s3 w filename bucket key);
  file_write_raises : ∀ filename data,
    only_Exception (file_write w filename data);
  stdout_raises : ∀ line, only_Exception (stdout_write w line)
}.

(** What [main] makes of the exception [e] that its [try] block raises
    after the actions [done]: an exception of class [Exception] is
    caught and its line is printed, after which the run ends as after a
    success; when that [print] raises, its exception leaves [main]; an
    exception of another class is not caught. *)
Definition reported (w : world) (done : list action) (e : exn)
    (out : list action * result unit) : Prop :=
  let line := "An error occurred: " +:+ exn_str e in
  (is_Exception (exn_cls e) = true ∧ stdout_write w line = Ok tt
   ∧ out = ((done ++ [Printed line])%list, Ok tt))
  ∨ (is_Exception (exn_cls e) = true
     ∧ ∃ e', stdout_write w line = Raise e' ∧ out = (done, Raise e'))
  ∨ (is_Exception (exn_cls e) = false ∧ out = (done, Raise e)).

End Spec.

(** ** The calendar of the specification *)

Module Cal.

(** The day after [(y, m, d)] *)
Definition next_day (y m d : Z) : Z * Z * Z :=
  if d <? Datetime.days_in_month y m then (y, m, d + 1)
  else if m <? 12 then (y, m + 1, 1)
  else (y + 1, 1, 1).

(** The seconds from 0001-01-01T00:00:00 to [dt] *)
Definition instant (dt : Datetime.datetime) : Z :=
  (Datetime.toordinal dt - 1) * 86400
  + Datetime.hour dt * 3600 + Datetime.minute dt * 60 + Datetime.second dt.

(** Month and day of the day [n] of a year, counted from 0: the last
    part of [_ord2ymd]. *)
Definition month_day (n : Z) (leapyear : bool) : Z * Z :=
  let month := Z.shiftr (n + 50) 5 in
  let preceding :=
    Datetime.DAYS_BEFORE_MONTH month
    + (if (2 <? month) && leapyear then 1 else 0) in
  if n <? preceding then
    let month := month - 1 in
    let preceding :=
      preceding
      - (Datetime.DAYS_IN_MONTH month
         + (if (month =? 2) && leapyear then 1 else 0)) in
    (month, n - preceding + 1)
  else (month, n - preceding + 1).

(** [month_day] inverts the count of the days before a date, for every
    date of a year that is leap or not. *)
Definition month_day_check (leapyear : bool) : bool :=
  forallb (λ m,
    forallb (λ d,
      let dim := Datetime.DAYS_IN_MONTH m
                 + (if (m =? 2) && leapyear then 1 else 0) in
      let before := Datetime.DAYS_BEFORE_MONTH m
                    + (if (2 <? m) && leapyear then 1 else 0) in
      negb (d <=? dim)
      || (let '(m', d') := month_day (before + d - 1) leapyear in
          (m' =? m) && (d' =? d)))
      (seqZ 1 31))
    (seqZ 1 12).

(** Four decimal digits, zero-padded: [YYYY] *)
Definition pad4 (n : Z) : string :=
  String (digit_char (n / 1000)) (String (digit_char (n / 100 mod 10))
    (String (digit_char (n / 10 mod 10))
       (String (digit_char (n mod 10)) EmptyString))).

(** The text [YYYY-MM-DDTHH:MM:SSZ] of a date and a time *)
Definition iso_z (dt : Datetime.datetime) : string :=
  pad4 (Datetime.year dt) +:+ "-" +:+ fmt2 (Datetime.month dt) +:+ "-"
  +:+ fmt2 (Datetime.day dt) +:+ "T" +:+ fmt2 (Datetime.hour dt) +:+ ":"
  +:+ fmt2 (Datetime.minute dt) +:+ ":" +:+ fmt2 (Datetime.second dt) +:+ "Z".

(** The day before [(y, m, d)] *)
Definition prev_day (y m d : Z) : Z * Z * Z :=
  if 1 <? d then (y, m, d - 1)
  else if 1 <? m then (y, m - 1, Datetime.days_in_month y (m - 1))
  else (y - 1, 12, 31).

(** The text [YYYY-MM-DD] of a date *)
Definition date_text (ymd : Z * Z * Z) : string :=
  let '(y, m, d) := ymd in pad4 y +:+ "-" +:+ fmt2 m +:+ "-" +:+ fmt2 d.

(** Midnight of the day of [now] *)
Definition day_start (now : Datetime.datetime) : Datetime.datetime :=
  Datetime.mk_datetime (Datetime.year now) (Datetime.month now)
    (Datetime.day now) 0 0 0 0.

(** Two o'clock of the day after the day of [now] *)
Definition window_end (now : Datetime.datetime) : Datetime.datetime :=
  let '(y, m, d) :=
    next_day (Datetime.year now) (Datetime.month now) (Datetime.day now) in
  Datetime.mk_datetime y m d 2 0 0 0.

End Cal.

(** ** The timestamps of the specification *)

Module Lang.

Import Strptime.

(** The strings of a pattern: the language it denotes, with literals up
    to letter case. *)
Inductive matches : regex → string → Prop :=
| matches_Eps : matches Eps ""
| matches_Lit c a :
    lower_char a = lower_char c → matches (Lit c) (String a "")
| matches_Digit a : is_digit a = true → matches Digit (String a "")
| matches_Range lo hi a :
    in_range lo hi a = true → matches (Range lo hi) (String a "")
| matches_Cat r1 r2 s1 s2 :
    matches r1 s1 → matches r2 s2 → matches (Cat r1 r2) (s1 +:+ s2)
| matches_Alt_l r1 r2 s : matches r1 s → matches (Alt r1 r2) s
| matches_Alt_r r1 r2 s : matches r2 s → matches (Alt r1 r2) s
| matches_Group name r s : matches r s → matches (Group name r) s.

(** The pattern of [%Y-%m-%dT%H:%M:%SZ], written out:
    [\d\d\d\d-(1[0-2]|0[1-9]|[1-9])-(3[0-1]|[1-2]\d|0[1-9]|[1-9]| [1-9])]
    [T(2[0-3]|[0-1]\d|\d):([0-5]\d|\d):(6[0-1]|[0-5]\d|\d)Z]. *)
Definition iso_pattern : regex :=
  Cat (Group "Y" (Cat Digit (Cat Digit (Cat Digit Digit))))
 (Cat (Lit "-")
 (Cat (Group "m"
         (Alt (Alt (Cat (Lit "1") (Range "0" "2"))
                   (Cat (Lit "0") (Range "1" "9")))
              (Range "1" "9")))
 (Cat (Lit "-")
 (Cat (Group "d"
         (Alt (Alt (Alt (Alt (Cat (Lit "3") (Range "0" "1"))
                             (Cat (Range "1" "2") Digit))
                        (Cat (Lit "0") (Range "1" "9")))
                   (Range "1" "9"))
              (Cat (Lit " ") (Range "1" "9"))))
 (Cat (Lit "T")
 (Cat (Group "H"
         (Alt (Alt (Cat (Lit "2") (Range "0" "3"))
                   (Cat (Range "0" "1") Digit))
              Digit))
 (Cat (Lit ":")
 (Cat (Group "M" (Alt (Cat (Range "0" "5") Digit) Digit))
 (Cat (Lit ":")
 (Cat (Group "S"
         (Alt (Alt (Cat (Lit "6") (Range "0" "1"))
                   (Cat (Range "0" "5") Digit))
              Digit))
 (Cat (Lit "Z") Eps))))))))))).

(** The characters a string of the pattern can hold. *)
Fixpoint alphabet (r : regex) (c : ascii) : bool :=
  match r with
  | Eps => false
  | Lit c' => Ascii.eqb (lower_char c) (lower_char c')
  | Digit => is_digit c
  | Range lo hi => in_range lo hi c
  | Cat r1 r2 | Alt r1 r2 => alphabet r1 c || alphabet r2 c
  | Group _ r1 => alphabet r1 c
  end.

(** The greatest length of a string of the pattern. *)
Fixpoint max_length (r : regex) : nat :=
  match r with
  | Eps => 0
  | Lit _ | Digit | Range _ _ => 1
  | Cat r1 r2 => max_length r1 + max_length r2
  | Alt r1 r2 => Nat.max (max_length r1) (max_length r2)
  | Group _ r1 => max_length r1
  end.

Fixpoint holds (c : ascii) (s : string) : bool :=
  match s with
  | EmptyString => false
  | String a s' => Ascii.eqb a c || holds c s'
  end.

(** The strict form [YYYY-MM-DDTHH:MM:SSZ]: twenty characters, digits
    but for the six marks. *)
Definition is_strict (s : string) : bool :=
  match list_ascii_of_string s with
  | [y1; y2; y3; y4; h1; m1; m2; h2; d1; d2; t; hh1; hh2; c1; mm1; mm2; c2;
     ss1; ss2; z] =>
      forallb is_digit [y1; y2; y3; y4; m1; m2; d1; d2; hh1; hh2; mm1; mm2;
                        ss1; ss2]
      && Ascii.eqb h1 "-" && Ascii.eqb h2 "-" && Ascii.eqb t "T"
      && Ascii.eqb c1 ":" && Ascii.eqb c2 ":" && Ascii.eqb z "Z"
  | _ => false
  end.

End Lang.

(** ** The zone of the specification *)

Module Zone.

(** The entry in effect at [dt], reading the transitions in order: the
    last one at or before [dt], and [current] before the first. *)
Fixpoint scan (times : list Datetime.datetime) (infos : list Pytz.ttinfo)
    (dt : Datetime.datetime) (current : Pytz.ttinfo) : Pytz.ttinfo :=
  match times, infos with
  | t :: times', inf :: infos' =>
      if Datetime.lt dt t then current else scan times' infos' dt inf
  | _, _ => current
  end.

(** The entry of US/Eastern in effect at the UTC time [dt]: local mean
    time before the first transition. *)
Definition in_effect (dt : Datetime.datetime) : Pytz.ttinfo :=
  scan (tail (Pytz.utc_transition_times Pytz.US_Eastern))
    (tail (Pytz.transition_info Pytz.US_Eastern)) dt
    (Pytz.mk_ttinfo (-17760) "LMT").

(** The date of the wall clock in US/Eastern at the UTC time [dt]: the
    zone is west of Greenwich, so it is the date of [dt] or, early in the
    UTC day, the day before. *)
Definition local_date (dt : Datetime.datetime) : Z * Z * Z :=
  if Datetime.hour dt * 3600 + Datetime.minute dt * 60 + Datetime.second dt
     + Pytz.utcoffset (in_effect dt) <? 0
  then Cal.prev_day (Datetime.year dt) (Datetime.month dt) (Datetime.day dt)
  else (Datetime.year dt, Datetime.month dt, Datetime.day dt).

(** The wall-clock minute of the day in US/Eastern at the UTC time [dt] *)
Definition local_minute (dt : Datetime.datetime) : Z :=
  (Datetime.hour dt * 60 + Datetime.minute dt
   + Pytz.utcoffset (in_effect dt) / 60) mod 1440.

(** The display time of the UTC time [dt]: hours and minutes of the wall
    clock in US/Eastern after the word EST. *)
Definition est_display (dt : Datetime.datetime) : string :=
  "EST " +:+ fmt2 (local_minute dt / 60) +:+ ":"
  +:+ fmt2 (local_minute dt mod 60).

(** The number of transitions at or before [dt], from the first one on. *)
Fixpoint prefix_le (times : list Datetime.datetime) (dt : Datetime.datetime)
  : nat :=
  match times with
  | [] => 0
  | t :: times' => if Datetime.lt dt t then 0 else S (prefix_le times' dt)
  end.

(** The table is in the order of time, and its offsets are whole minutes
    west of Greenwich, less than a day. *)
Definition sorted_times (times : list Datetime.datetime) : bool :=
  forallb (λ p : Datetime.datetime * Datetime.datetime, Datetime.lt p.1 p.2)
    (zip times (tail times)).

Definition offset_ok (inf : Pytz.ttinfo) : bool :=
  (-86400 <? Pytz.utcoffset inf) && (Pytz.utcoffset inf <=? 0)
  && (Pytz.utcoffset inf mod 60 =? 0).

(** The fields of a time are in the ranges of the clock (the day at most
    31, whatever the month). *)
Definition in_clock_ranges (dt : Datetime.datetime) : bool :=
  (1 <=? Datetime.month dt) && (Datetime.month dt <=? 12)
  && (1 <=? Datetime.day dt) && (Datetime.day dt <=? 31)
  && (0 <=? Datetime.hour dt) && (Datetime.hour dt <=? 23)
  && (0 <=? Datetime.minute dt) && (Datetime.minute dt <=? 59)
  && (0 <=? Datetime.second dt) && (Datetime.second dt <=? 59)
  && (0 <=? Datetime.microsecond dt) && (Datetime.microsecond dt <=? 999999).

(** The day of the month of the [n]-th Sunday of month [m] of year [y]:
    the ordinal of a Sunday is a multiple of 7. *)
Definition nth_sunday (y m n : Z) : Z :=
  let first := Datetime.ymd2ord y m 1 in
  1 + (- first) mod 7 + 7 * (n - 1).

Definition has_row (r : Z * Z * Z * Z * Z * Z * Z * string) : bool :=
  existsb (λ r' : Z * Z * Z * Z * Z * Z * Z * string,
             let '(y, m, d, hh, mm, ss, off, name) := r in
             let '(y', m', d', hh', mm', ss', off', name') := r' in
             (y =? y') && (m =? m') && (d =? d') && (hh =? hh') && (mm =? mm')
             && (ss =? ss') && (off =? off') && String.eqb name name')
    Pytz.US_Eastern_table.

(** The rule in force since 2007, as the table has it for the year [y]:
    daylight time from 2 a.m. standard time (07:00 UTC) of the second
    Sunday of March to 2 a.m. daylight time (06:00 UTC) of the first
    Sunday of November. *)
Definition rule_2007 (y : Z) : bool :=
  has_row (y, 3, nth_sunday y 3 2, 7, 0, 0, -14400, "EDT")
  && has_row (y, 11, nth_sunday y 11 1, 6, 0, 0, -18000, "EST").

(** A time as one number, in the order of time. *)
Definition key (dt : Datetime.datetime) : Z :=
  (((((Datetime.year dt * 13 + Datetime.month dt) * 32 + Datetime.day dt) * 24
     + Datetime.hour dt) * 60 + Datetime.minute dt) * 60
   + Datetime.second dt) * 1000000 + Datetime.microsecond dt.

(** The UTC times at which daylight time starts and ends in the year
    [y], by the rule in force since 2007. *)
Definition summer_start (y : Z) : Datetime.datetime :=
  Datetime.mk_datetime y 3 (nth_sunday y 3 2) 7 0 0 0.

Definition summer_end (y : Z) : Datetime.datetime :=
  Datetime.mk_datetime y 11 (nth_sunday y 11 1) 6 0 0 0.

(** The UTC time [dt] falls in the daylight time of its year. *)
Definition daylight (dt : Datetime.datetime) : bool :=
  negb (Datetime.lt dt (summer_start (Datetime.year dt)))
  && Datetime.lt dt (summer_end (Datetime.year dt)).

(** The rows of the table around the year [y], from 2007 on: the last
    row of an earlier year, standard time; the start and the end of the
    daylight time of [y]; and then nothing, or a row of a later year. *)
Definition rows_of_year (y : Z) : bool :=
  let times := tail (Pytz.utc_transition_times Pytz.US_Eastern) in
  let infos := tail (Pytz.transition_info Pytz.US_Eastern) in
  let i := Z.to_nat (173 + 2 * (y - 2007)) in
  match times !! i, times !! S i, times !! S (S i),
        infos !! i, infos !! S i, infos !! S (S i) with
  | Some t0, Some t1, Some t2, Some i0, Some i1, Some i2 =>
      (Datetime.year t0 <? y)
      && (key t1 =? key (summer_start y)) && (key t2 =? key (summer_end y))
      && (Pytz.utcoffset i0 =? -18000) && (Pytz.utcoffset i1 =? -14400)
      && (Pytz.utcoffset i2 =? -18000)
      && match times !! S (S (S i)) with
         | Some t3 => y <? Datetime.year t3
         | None => true
         end
  | _, _, _, _, _, _ => false
  end.

End Zone.

(** ** Sample inputs *)

Module Sample.

Definition cfg : config := mk_config "k3y" "baseball_mlb".

Definition response_of (body : pyval) : Http.response :=
  Http.mk_response 200 "OK" "" (Ok body).

(** A world in which every call to the outside succeeds: the schedule
    request (the one without parameters) answers [schedule], the odds
    request answers [events]. *)
Definition world_of (schedule events : pyval) : world :=
  mk_world
    (Datetime.mk_datetime 2024 7 4 15 0 0 0)
    (Datetime.mk_datetime 2024 7 4 15 0 1 0)
    (fun _ params =>
       match params with
       | [] => Ok (response_of schedule)
       | _ => Ok (response_of events)
       end)
    (fun _ _ => Ok tt)
    (fun _ _ _ => Ok tt)
    (fun _ _ => Ok tt)
    (fun _ => Ok tt).

Definition team (name : string) : pyval :=
  PDict {[ "team" := PDict {[ "name" := PStr name ]} ]}.

Definition game (date away home venue : string) : pyval :=
  PDict (<["gameDate" := PStr date]>
          (<["teams" := PDict (<["away" := team away]> {[ "home" := team home ]})]>
            {[ "venue" := PDict {[ "name" := PStr venue ]} ]})).

Definition event (id home away commence : string) : pyval :=
  PDict (<["id" := PStr id]> (<["home_team" := PStr home]>
          (<["away_team" := PStr away]> {[ "commence_time" := PStr commence ]}))).

Definition schedule (games : list pyval) : pyval :=
  PDict {[ "dates" := PList [PDict {[ "games" := PList games ]}] ]}.

Definition yankees : pyval :=
  game "2024-07-04T17:05:00Z" "Cincinnati Reds" "New York Yankees" "Yankee Stadium".
Definition yankees_late : pyval :=
  game "2024-07-04T23:10:00Z" "Cincinnati Reds" "New York Yankees" "Yankee Stadium".
Definition cubs : pyval :=
  game "2024-07-04T18:20:00Z" "Philadelphia Phillies" "Chicago Cubs" "Wrigley Field".

Definition ev_yankees_1 : pyval :=
  event "e1" "NEW YORK YANKEES" "Cincinnati Reds" "2024-07-04T17:05:00Z".
Definition ev_yankees_2 : pyval :=
  event "e2" "New York Yankees" "Cincinnati Reds" "2024-07-04T23:10:00Z".
Definition ev_dodgers : pyval :=
  event "e3" "Los Angeles Dodgers" "Arizona Diamondbacks" "2024-07-05T02:10:00Z".

Definition games : list pyval := [cubs; yankees; yankees_late].
Definition events : list pyval := [ev_yankees_1; ev_dodgers; ev_yankees_2].

(** A run that meets [games] and [events]. *)
Definition run : world := world_of (schedule games) (PList events).

(** A run whose upload is refused by the object store. *)
Definition run_upload_refused : world :=
  mk_world (clock_est run) (clock_utc run) (http_get run)
    (delete_from_s3 run)
    (fun _ _ _ => raise (ExceptionSub "S3UploadFailedError") "Access Denied")
    (file_write run) (stdout_write run).

(** The events of [events], with other teams away and other times. *)
Definition events_other : list pyval :=
  [event "e1" "NEW YORK YANKEES" "Boston Red Sox" "2024-07-04T20:00:00Z";
   event "e3" "Los Angeles Dodgers" "San Diego Padres" "2024-07-05T01:00:00Z";
   event "e2" "New York Yankees" "Toronto Blue Jays" "2024-07-05T00:00:00Z"].

Definition run_other : world := world_of (schedule games) (PList events_other).

(** A response without a game day *)
Definition no_dates : pyval := PDict {[ "dates" := PList [] ]}.

(** A run whose clock reads the first midnight of 2024. *)
Definition run_new_year : world :=
  mk_world (clock_est run) (Datetime.mk_datetime 2024 1 1 0 0 0 0)
    (http_get run) (delete_from_s3 run) (upload_to_s3 run) (file_write run) (stdout_write run).

(** A run that is interrupted from the keyboard while it deletes. *)
Definition run_interrupted : world :=
  mk_world (clock_est run) (clock_utc run) (http_get run)
    (fun _ _ => raise KeyboardInterrupt "")
    (upload_to_s3 run) (file_write run) (stdout_write run).

(** A game without a venue *)
Definition game_no_venue : pyval :=
  PDict (<["gameDate" := PStr "2024-07-04T20:10:00Z"]>
          {[ "teams" := PDict (<["away" := team "Boston Red Sox"]>
                                {[ "home" := team "New York Mets" ]}) ]}).

(** An event for the Yankees without an identifier *)
Definition ev_yankees_no_id : pyval :=
  PDict {[ "home_team" := PStr "new york yankees" ]}.

(** A schedule whose first date entry holds no list of games *)
Definition schedule_no_games : pyval :=
  PDict {[ "dates" := PList [PDict {[ "date" := PStr "2024-07-04" ]}] ]}.

(** An answer of the odds service that is no success *)
Definition quota_exceeded : Http.response :=
  Http.mk_response 429 "Too Many Requests" "{'message': 'quota'}"
    (Ok (PDict {[ "message" := PStr "quota" ]})).

(** A run in which the odds service refuses, and one in which the
    schedule service is down. *)
Definition run_odds_refused : world :=
  mk_world (clock_est run) (clock_utc run)
    (fun _ params =>
       match params with
       | [] => Ok (response_of (schedule games))
       | _ => Ok quota_exceeded
       end)
    (delete_from_s3 run) (upload_to_s3 run) (file_write run) (stdout_write run).

Definition run_schedule_down : world :=
  mk_world (clock_est run) (clock_utc run)
    (fun _ params =>
       match params with
       | [] => Ok (Http.mk_response 503 "Service Unavailable" "" (Ok PNone))
       | _ => Ok (response_of (PList events))
       end)
    (delete_from_s3 run) (upload_to_s3 run) (file_write run) (stdout_write run).

(** A run early in the UTC day: it is still the evening before in
    US/Eastern. *)
Definition run_after_midnight : world :=
  mk_world (Datetime.mk_datetime 2024 7 5 2 30 0 0)
    (Datetime.mk_datetime 2024 7 5 2 30 1 0)
    (http_get run) (delete_from_s3 run) (upload_to_s3 run) (file_write run) (stdout_write run).

(** A response with two date entries, and with a key the job does not
    read. *)
Definition schedule_two_dates : pyval :=
  PDict (<["totalGames" := PInt 3]>
          {[ "dates" := PList [PDict {[ "games" := PList [cubs] ]};
                               PDict {[ "games" := PList [yankees] ]}] ]}).

(** A run in which the odds service answers 200 with an object, not a
    list. *)
Definition odds_object : pyval :=
  PDict {[ "message" := PStr "Unknown sport" ]}.

Definition run_odds_object : world := world_of (schedule games) odds_object.

(** A stream whose encoding is ASCII, as [sys.stdout] is under
    [PYTHONIOENCODING=ascii]: a line with a character outside ASCII
    raises [UnicodeEncodeError], which names the first run of such
    characters. *)
Fixpoint non_ascii_run (s : string) : nat :=
  match s with
  | String c s' =>
      if (128 <=? nat_of_ascii c)%nat then S (non_ascii_run s') else O
  | EmptyString => O
  end.

Fixpoint first_non_ascii (s : string) (pos : nat) : option (nat * ascii * nat) :=
  match s with
  | String c s' =>
      if (128 <=? nat_of_ascii c)%nat then Some (pos, c, non_ascii_run s)
      else first_non_ascii s' (S pos)
  | EmptyString => None
  end.

Definition ascii_stdout (line : string) : result unit :=
  match first_non_ascii line 0 with
  | None => Ok tt
  | Some (pos, c, len) =>
      raise (ExceptionSub "UnicodeEncodeError")
        ("'ascii' codec can't encode "
         +:+ (if (len =? 1)%nat then
                "character '\x"
                +:+ String (hex_digit (nat_of_ascii c / 16))
                      (String (hex_digit (nat_of_ascii c mod 16)) "'")
                +:+ " in position " +:+ fmt_int (Z.of_nat pos)
              else
                "characters in position " +:+ fmt_int (Z.of_nat pos) +:+ "-"
                +:+ fmt_int (Z.of_nat (pos + len - 1)))
         +:+ ": ordinal not in range(128)")
  end.

(** A game whose [gameDate] ends in the letter U+00E9, and a run that
    meets it and prints on the ASCII stream. *)
Definition yankees_bad_text : pyval :=
  game ("2024-07-04T17:05:00Z" +:+ String (ascii_of_nat 233) "")
    "Cincinnati Reds" "New York Yankees" "Yankee Stadium".

Definition run_unprintable : world :=
  mk_world (clock_est run) (clock_utc run)
    (http_get (world_of (schedule [yankees_bad_text]) (PList events)))
    (delete_from_s3 run) (upload_to_s3 run) (file_write run) ascii_stdout.

End Sample.

(** ** The models on concrete inputs *)

Example ord2ymd_2024 : Datetime.ord2ymd (Datetime.ymd2ord 2024 2 29 + 1) = (2024, 3, 1).
Proof. reflexivity. Qed.

Example strptime_ex1 :
  Strptime.strptime "2024-07-04T23:10:00Z" "%Y-%m-%dT%H:%M:%SZ"
  = Ok (Datetime.mk_datetime 2024 7 4 23 10 0 0).
Proof. vm_compute. reflexivity. Qed.

Example strptime_ex2 :
  Strptime.strptime "2024-7-4t3:5:7z" "%Y-%m-%dT%H:%M:%SZ"
  = Ok (Datetime.mk_datetime 2024 7 4 3 5 7 0).
Proof. vm_compute. reflexivity. Qed.

Example strptime_ex3 :
  is_ok (Strptime.strptime "2024-07-04T23:10:00.000Z" "%Y-%m-%dT%H:%M:%SZ") = false.
Proof. vm_compute. reflexivity. Qed.

Example fromutc_ex1 :
  Pytz.fromutc Pytz.US_Eastern (Datetime.mk_datetime 2024 7 4 23 10 0 0)
  = Ok (Datetime.mk_datetime 2024 7 4 19 10 0 0, Pytz.mk_ttinfo (-14400) "EDT").
Proof. vm_compute. reflexivity. Qed.

Example fromutc_ex2 :
  Pytz.fromutc Pytz.US_Eastern (Datetime.mk_datetime 2024 1 4 3 10 0 0)
  = Ok (Datetime.mk_datetime 2024 1 3 22 10 0 0, Pytz.mk_ttinfo (-18000) "EST").
Proof. vm_compute. reflexivity. Qed.

Example fromutc_ex3 :
  is_ok (Pytz.fromutc Pytz.US_Eastern (Datetime.mk_datetime 1 1 1 3 10 0 0)) = false.
Proof. vm_compute. reflexivity. Qed.

Example convert_ex1 :
  MLBAPI.convert_utc_to_est (PStr "2024-07-04T23:10:00Z") = Ok "EST 19:10".
Proof. vm_compute. reflexivity. Qed.

Example process_ex1 :
  match MLBAPI.process_game_data Sample.cfg
          (Sample.world_of (Sample.schedule [Sample.yankees; Sample.cubs])
             (PList [Sample.ev_yankees_1; Sample.ev_dodgers; Sample.ev_yankees_2]))
          (Sample.schedule [Sample.yankees; Sample.cubs]) with
  | Ok records => Some ((λ r : game_record, (r !! "time", r !! "id")) <$> records)
  | Raise _ => None
  end
  = Some [(Some (PStr "EST 13:05"), Some (PStr "e2"));
          (Some (PStr "EST 14:20"), None)].
Proof. vm_compute. reflexivity. Qed.

Example main_ex_upload_refused :
  (λ out : list action * result (),
     (match out.1 with
      | [Deleted _ _; Saved _ data; Printed line] => Some (length data, line)
      | _ => None
      end, out.2))
    (main Sample.cfg Sample.run_upload_refused [])
  = (Some (3%nat, "An error occurred: Access Denied"), Ok tt).
Proof. reflexivity. Qed.

Example main_ex_success :
  (λ out : list action * result (),
     (match out.1 with
      | [Deleted _ _; Saved _ data; Uploaded _ _ _; Printed line] =>
          Some (length data, line)
      | _ => None
      end, out.2))
    (main Sample.cfg Sample.run [])
  = (Some (3%nat, "Schedule fetched and saved successfully."), Ok tt).
Proof. reflexivity. Qed.

Example iso_pattern_is_pattern :
  Strptime.pattern "%Y-%m-%dT%H:%M:%SZ" = Some Lang.iso_pattern.
Proof. reflexivity. Qed.

Example in_effect_ex1 :
  Zone.in_effect (Datetime.mk_datetime 2024 7 4 23 10 0 0)
  = Pytz.mk_ttinfo (-14400) "EDT".
Proof. vm_compute. reflexivity. Qed.

Example in_effect_ex2 :
  Zone.in_effect (Datetime.mk_datetime 2024 11 3 5 59 59 0)
  = Pytz.mk_ttinfo (-14400) "EDT"
  ∧ Zone.in_effect (Datetime.mk_datetime 2024 11 3 6 0 0 0)
    = Pytz.mk_ttinfo (-18000) "EST".
Proof. split; vm_compute; reflexivity. Qed.

Example is_strict_ex :
  Lang.is_strict "2024-07-04T23:10:00Z" = true
  ∧ Lang.is_strict "2024-7-4t23:10:00z" = false.
Proof. split; reflexivity. Qed.

Example rule_2007_in_table :
  forallb Zone.rule_2007 (seqZ 2007 31) = true.
Proof. vm_compute. reflexivity. Qed.

(** After the last transition of the table, in 2037, the zone stays on
    standard time. *)
Example in_effect_after_2037 :
  Zone.in_effect (Datetime.mk_datetime 2040 7 4 23 10 0 0)
  = Pytz.mk_ttinfo (-18000) "EST"
  ∧ MLBAPI.convert_utc_to_est (PStr "2040-07-04T23:10:00Z") = Ok "EST 18:10".
Proof. split; vm_compute; reflexivity. Qed.

(** Before the first transition the zone is on local mean time. *)
Example in_effect_before_1901 :
  MLBAPI.convert_utc_to_est (PStr "1850-07-04T12:00:00Z") = Ok "EST 07:04".
Proof. vm_compute. reflexivity. Qed.

Example convert_first_day :
  MLBAPI.convert_utc_to_est (PStr "0001-01-01T00:00:00Z")
  = raise OverflowError "date value out of range".
Proof. vm_compute. reflexivity. Qed.

Example convert_fraction :
  MLBAPI.convert_utc_to_est (PStr "2024-07-04T23:10:00.000Z")
  = raise ValueError
      "time data '2024-07-04T23:10:00.000Z' does not match format '%Y-%m-%dT%H:%M:%SZ'".
Proof. vm_compute. reflexivity. Qed.

Example convert_offset :
  MLBAPI.convert_utc_to_est (PStr "2024-07-04T23:10:00-04:00")
  = raise ValueError
      "time data '2024-07-04T23:10:00-04:00' does not match format '%Y-%m-%dT%H:%M:%SZ'".
Proof. vm_compute. reflexivity. Qed.

Example convert_bad_day :
  MLBAPI.convert_utc_to_est (PStr "2023-02-29T23:10:00Z")
  = raise ValueError "day is out of range for month".
Proof. vm_compute. reflexivity. Qed.

Example convert_not_str :
  MLBAPI.convert_utc_to_est PNone
  = raise TypeError "strptime() argument 1 must be str, not None"
  ∧ MLBAPI.convert_utc_to_est (PInt 1720134600)
    = raise TypeError "strptime() argument 1 must be str, not int".
Proof. split; reflexivity. Qed.

(** [repr] escapes what is not printable, and takes the other quote for
    a string that holds a single one. *)
Example repr_ex :
  repr "gameDate" = "'gameDate'"
  ∧ repr "O'Hare" = String (ascii_of_nat 34) ("O'Hare" +:+ String (ascii_of_nat 34) "")
  ∧ repr (String (ascii_of_nat 10) (String (ascii_of_nat 233)
            (String (ascii_of_nat 160) (String (ascii_of_nat 92) ""))))
    = "'\n" +:+ String (ascii_of_nat 233) "\xa0\\'".
Proof. repeat split; reflexivity. Qed.

Example window_last_day :
  MLBAPI.get_utc_start_and_end
    (mk_world (clock_est Sample.run) (Datetime.mk_datetime 9999 12 31 8 0 0 0)
       (http_get Sample.run) (delete_from_s3 Sample.run)
       (upload_to_s3 Sample.run) (file_write Sample.run)
       (stdout_write Sample.run))
  = raise OverflowError "date value out of range".
Proof. vm_compute. reflexivity. Qed.

(** An exception that is not of class [Exception] passes through
    [main]. *)
Example main_ex_interrupted :
  main Sample.cfg Sample.run_interrupted []
  = ([], raise KeyboardInterrupt "").
Proof. reflexivity. Qed.

(** The line of the handler cannot be printed: the exception of [print]
    leaves [main]. *)
Example main_ex_unprintable :
  main Sample.cfg Sample.run_unprintable []
  = ([Deleted MLBAPI.BUCKET_NAME "mlb_schedule.json"],
     raise (ExceptionSub "UnicodeEncodeError")
       "'ascii' codec can't encode character '\xe9' in position 45: ordinal not in range(128)").
Proof. reflexivity. Qed.

(** ** Correlation of games and odds events *)

Section correlation.

Implicit Types (events : list pyval) (game_info : game_record).
Implicit Types (home : string) (event game : pyval).

Lemma bind_Ok {A B} (f : A → result B) (a : A) : (Ok a ≫= f) = f a.
Proof. reflexivity. Qed.

Lemma bind_Raise {A B} (f : A → result B) (e : exn) : (Raise e ≫= f) = Raise e.
Proof. reflexivity. Qed.

Lemma odds_event_ok_for home event :
  Spec.is_odds_event event = true → Spec.event_ok_for home event = true.
Proof.
  unfold Spec.is_odds_event, Spec.event_ok_for, Spec.has_home_team.
  destruct (Spec.event_home event); [|done].
  destruct (Spec.event_id event); [|done].
  intros _. by rewrite orb_true_r.
Qed.

Lemma no_match_ok_for home event :
  Spec.has_home_team event = true → Spec.home_matches home event = false →
  Spec.event_ok_for home event = true.
Proof. unfold Spec.event_ok_for. by intros -> ->. Qed.

Lemma event_home_getitem event s :
  Spec.event_home event = Some s →
  (getitem event "home_team" ≫= lower) = Ok (lower_str s).
Proof.
  destruct event as [| | | | |l|m]; try done. simpl.
  destruct (m !! "home_team") as [[]|]; try done.
  by intros [= ->].
Qed.

Lemma event_id_getitem event id :
  Spec.event_id event = Some id → getitem event "id" = Ok id.
Proof.
  destruct event as [| | | | |l|m]; try done. simpl. by intros ->.
Qed.

Lemma match_event_miss game_info home event :
  game_info !! "home_team" = Some (PStr home) →
  Spec.has_home_team event = true →
  Spec.home_matches home event = false →
  MLBAPI.match_event game_info event = Ok game_info.
Proof.
  unfold Spec.has_home_team, Spec.home_matches, MLBAPI.match_event.
  intros Hg. destruct (Spec.event_home event) as [s|] eqn:Hs; [|done].
  intros _ Hne. rewrite (event_home_getitem _ _ Hs), bind_Ok.
  cbn. rewrite Hg. cbn. by rewrite Hne.
Qed.

Lemma match_event_hit game_info home event id :
  game_info !! "home_team" = Some (PStr home) →
  Spec.home_matches home event = true →
  Spec.event_id event = Some id →
  MLBAPI.match_event game_info event = Ok (<["id" := id]> game_info).
Proof.
  unfold Spec.home_matches, MLBAPI.match_event.
  intros Hg. destruct (Spec.event_home event) as [s|] eqn:Hs; [|done].
  intros Heq Hid. rewrite (event_home_getitem _ _ Hs), bind_Ok.
  cbn. rewrite Hg. cbn. rewrite Heq.
  by rewrite (event_id_getitem _ _ Hid).
Qed.

Lemma last_match_elem home events e :
  Spec.last_match home events = Some e →
  e ∈ events ∧ Spec.home_matches home e = true.
Proof.
  induction events as [|event events IH]; simpl; [done|].
  destruct (Spec.last_match home events) as [e'|].
  - intros [= ->]. destruct IH as [? ?]; [done|]. split; [by right | done].
  - destruct (Spec.home_matches home event) eqn:Hm; [|done].
    intros [= <-]. split; [by left | done].
Qed.

Lemma last_match_None home events :
  Spec.last_match home events = None →
  ∀ e, e ∈ events → Spec.home_matches home e = false.
Proof.
  induction events as [|event events IH]; simpl.
  - intros _ e He. by apply elem_of_nil in He.
  - destruct (Spec.last_match home events) as [e'|]; [done|].
    destruct (Spec.home_matches home event) eqn:Hm; [done|].
    intros _ e [->|He]%elem_of_cons; [done | by apply IH].
Qed.

(** The event at position [j] is the last match when it matches and no
    later event does. *)
Lemma last_match_at home events j e :
  events !! j = Some e → Spec.home_matches home e = true →
  (∀ j' e', (j < j')%nat → events !! j' = Some e' →
            Spec.home_matches home e' = false) →
  Spec.last_match home events = Some e.
Proof.
  revert j. induction events as [|event events IH]; intros j; [done|].
  destruct j as [|j]; simpl.
  - intros [= ->] Hm Hlater.
    destruct (Spec.last_match home events) as [e'|] eqn:Hl; [|by rewrite Hm].
    apply last_match_elem in Hl as [Hin Hm'].
    apply list_elem_of_lookup in Hin as [i Hi].
    specialize (Hlater (S i) e'). simpl in Hlater.
    rewrite Hlater in Hm'; [done | lia | done].
  - intros Hj Hm Hlater. rewrite (IH j); [done..|].
    intros j' e' Hlt Hj'. apply (Hlater (S j') e'); [lia | done].
Qed.

(** The inner loop leaves the record with the [id] of the last matching
    event, or as it was when no event matches. *)
Lemma match_events_spec home events : ∀ game_info,
  game_info !! "home_team" = Some (PStr home) →
  forallb (Spec.event_ok_for home) events = true →
  MLBAPI.match_events events game_info
  = Ok (match Spec.last_match home events ≫= Spec.event_id with
        | Some id => <["id" := id]> game_info
        | None => game_info
        end).
Proof.
  induction events as [|event events IH]; intros game_info Hg; simpl; [done|].
  intros [Hok Hoks]%andb_true_iff.
  apply andb_true_iff in Hok as [Hhome Hid].
  destruct (Spec.home_matches home event) eqn:Hm.
  - simpl in Hid. destruct (Spec.event_id event) as [id|] eqn:Heid; [|done].
    rewrite (match_event_hit _ _ _ _ Hg Hm Heid), bind_Ok.
    rewrite IH; [|by rewrite lookup_insert_ne|done].
    destruct (Spec.last_match home events) as [e'|] eqn:Hl; simpl.
    + destruct (Spec.event_id e') as [id'|] eqn:Heid'.
      * by rewrite insert_insert_eq.
      * apply last_match_elem in Hl as [Hin Hm'].
        rewrite forallb_forall in Hoks.
        apply list_elem_of_In, Hoks in Hin.
        unfold Spec.event_ok_for in Hin. rewrite Hm', Heid' in Hin.
        simpl in Hin. by rewrite andb_false_r in Hin.
    + by rewrite Heid.
  - rewrite (match_event_miss _ _ _ Hg Hhome Hm), bind_Ok.
    rewrite IH; [|done..].
    by destruct (Spec.last_match home events).
Qed.

End correlation.

(** ** The records of a run *)

Section records.

Implicit Types (events games : list pyval) (game : pyval).

Lemma game_view_inv game g :
  Spec.game_view game = Some g →
  getitem game "gameDate" = Ok (PStr (Spec.gameDate g))
  ∧ MLBAPI.subscripts game ["teams"; "away"; "team"; "name"]
    = Ok (Spec.away_name g)
  ∧ MLBAPI.subscripts game ["teams"; "home"; "team"; "name"]
    = Ok (PStr (Spec.home_name g))
  ∧ MLBAPI.subscripts game ["venue"; "name"] = Ok (Spec.venue_name g).
Proof.
  unfold Spec.game_view.
  destruct (getitem game "gameDate") as [[]|]; try done.
  destruct (MLBAPI.subscripts game ["teams"; "away"; "team"; "name"]);
    [|done].
  destruct (MLBAPI.subscripts game ["teams"; "home"; "team"; "name"])
    as [[]|]; try done.
  destruct (MLBAPI.subscripts game ["venue"; "name"]); [|done].
  by intros [= <-].
Qed.

Lemma game_time_inv g t :
  Spec.game_time g = Some t →
  MLBAPI.convert_utc_to_est (PStr (Spec.gameDate g)) = Ok t.
Proof.
  unfold Spec.game_time.
  destruct (MLBAPI.convert_utc_to_est _); [|done]. by intros [= ->].
Qed.

Lemma valid_game_inv game :
  Spec.valid_game game = true →
  ∃ g t, Spec.game_view game = Some g ∧ Spec.game_time g = Some t.
Proof.
  unfold Spec.valid_game.
  destruct (Spec.game_view game) as [g|]; [|done].
  destruct (Spec.game_time g) as [t|] eqn:Ht; [|done].
  intros _. by exists g, t.
Qed.

(** The dict literal of the loop body holds the five fields. *)
Lemma game_info_fields (d t a h v : pyval) :
  (<["venue" := v]> (<["home_team" := h]> (<["away_team" := a]>
     (<["time" := t]> (<["date" := d]> ∅)))) : game_record)
  = list_to_map [("date", d); ("time", t); ("away_team", a);
                 ("home_team", h); ("venue", v)].
Proof.
  apply map_eq. intros k. simpl.
  repeat (rewrite lookup_insert; case_decide; subst; simpl); done.
Qed.

Lemma expected_record_fields events g t k :
  k ≠ "id" →
  Spec.expected_record events g t !! k
  = (list_to_map [("date", PStr (Spec.gameDate g)); ("time", PStr t);
                  ("away_team", Spec.away_name g);
                  ("home_team", PStr (Spec.home_name g));
                  ("venue", Spec.venue_name g)] : game_record) !! k.
Proof.
  intros Hk. unfold Spec.expected_record.
  destruct (_ ≫= _); [by rewrite lookup_insert_ne | done].
Qed.

Lemma expected_record_id events g t :
  Spec.expected_record events g t !! "id"
  = Spec.last_match (Spec.home_name g) events ≫= Spec.event_id.
Proof.
  unfold Spec.expected_record.
  destruct (_ ≫= _); [by rewrite lookup_insert_eq | done].
Qed.

(** The body of the outer loop builds the record of the data model. *)
Lemma build_game_info_spec events game g t :
  Spec.game_view game = Some g → Spec.game_time g = Some t →
  forallb (Spec.event_ok_for (Spec.home_name g)) events = true →
  MLBAPI.build_game_info (PList events) game
  = Ok (Spec.expected_record events g t).
Proof.
  intros (Hd & Ha & Hh & Hv)%game_view_inv Ht%game_time_inv Hev.
  unfold MLBAPI.build_game_info.
  rewrite Hd, !bind_Ok, Ht, bind_Ok, Ha, bind_Ok, Hh, bind_Ok, Hv, bind_Ok.
  simpl iter. rewrite bind_Ok, game_info_fields, bind_Ok.
  by rewrite (match_events_spec (Spec.home_name g)).
Qed.

Lemma build_all_spec events games :
  Forall (λ game, ∀ g, Spec.game_view game = Some g →
            forallb (Spec.event_ok_for (Spec.home_name g)) events = true)
    games →
  forallb Spec.valid_game games = true →
  ∃ records, MLBAPI.build_all (PList events) games = Ok records
             ∧ Forall2 (Spec.is_record_of events) games records.
Proof.
  induction games as [|game games IH]; simpl.
  - intros _ _. exists []. by split.
  - intros [Hev Hevs]%Forall_cons [Hg Hgs]%andb_true_iff.
    destruct (valid_game_inv _ Hg) as (g & t & Hview & Htime).
    destruct (IH Hevs Hgs) as (records & -> & Hrec).
    rewrite (build_game_info_spec _ _ g t); [|by auto..].
    eexists. split; [reflexivity|].
    constructor; [|done]. by exists g, t.
Qed.

Lemma schedule_games_first data games :
  Spec.schedule_games data = Some games →
  MLBAPI.first_date_games data = Ok (PList games).
Proof.
  destruct data as [| | | | | |dm]; try done. simpl.
  unfold MLBAPI.first_date_games. simpl.
  destruct (dm !! "dates") as [[| | | | |[|[| | | | | |first] ?]|]|];
    try done.
  simpl. destruct (first !! "games") as [[]|]; try done.
  by intros [= ->].
Qed.

(** A run on a valid response and events it can handle returns the
    records of the data model, one per game and in the order of the
    games. *)
Lemma process_game_data_spec cfg w data games events :
  Spec.schedule_games data = Some games →
  forallb Spec.valid_game games = true →
  MLBAPI.fetch_events cfg w = Ok (PList events) →
  Forall (λ game, ∀ g, Spec.game_view game = Some g →
            forallb (Spec.event_ok_for (Spec.home_name g)) events = true)
    games →
  ∃ records, MLBAPI.process_game_data cfg w data = Ok records
             ∧ Forall2 (Spec.is_record_of events) games records.
Proof.
  intros Hdata Hvalid Hfetch Hev.
  unfold MLBAPI.process_game_data.
  rewrite (schedule_games_first _ _ Hdata), bind_Ok, Hfetch, bind_Ok.
  simpl iter. rewrite bind_Ok. by apply build_all_spec.
Qed.

Lemma odds_events_ok games events :
  forallb Spec.is_odds_event events = true →
  Forall (λ game, ∀ g, Spec.game_view game = Some g →
            forallb (Spec.event_ok_for (Spec.home_name g)) events = true)
    games.
Proof.
  intros Hev. apply Forall_forall. intros game _ g _.
  rewrite forallb_forall in *. intros e He.
  by apply odds_event_ok_for, Hev.
Qed.

Lemma no_match_events_ok games events :
  forallb Spec.has_home_team events = true →
  Spec.no_match games events = true →
  Forall (λ game, ∀ g, Spec.game_view game = Some g →
            forallb (Spec.event_ok_for (Spec.home_name g)) events = true)
    games.
Proof.
  intros Hev Hno. apply Forall_forall. intros game Hin g Hg.
  unfold Spec.no_match in Hno. rewrite forallb_forall in *.
  intros e He. apply list_elem_of_In, Hno in Hin.
  rewrite forallb_forall in Hin. specialize (Hin e He).
  unfold Spec.matches_game, Spec.game_home in Hin. rewrite Hg in Hin.
  simpl in Hin. apply no_match_ok_for; [by apply Hev|].
  by apply negb_true_iff.
Qed.

End records.

Section correlation_facts.

Implicit Types (events games : list pyval) (game : pyval) (home : string).

Lemma last_match_after home events j e :
  events !! j = Some e → Spec.home_matches home e = true →
  forallb (λ e', negb (Spec.home_matches home e')) (drop (S j) events) = true →
  Spec.last_match home events = Some e.
Proof.
  intros Hj Hm Hafter. apply (last_match_at _ _ j); [done..|].
  intros j' e' Hlt Hj'. rewrite forallb_forall in Hafter.
  apply negb_true_iff, Hafter, list_elem_of_In, list_elem_of_lookup.
  exists (j' - S j)%nat. rewrite lookup_drop.
  by replace (S j + (j' - S j))%nat with j' by lia.
Qed.

(** Matching looks at the home team of the game up to case only. *)
Lemma last_match_lower home1 home2 events :
  lower_str home1 = lower_str home2 →
  Spec.last_match home1 events = Spec.last_match home2 events.
Proof.
  intros Heq. induction events as [|event events IH]; simpl; [done|].
  rewrite IH. unfold Spec.home_matches. by rewrite Heq.
Qed.

(** Some event matches exactly when there is a last one that does. *)
Lemma last_match_exists (home : string) (events : list pyval) :
  is_Some (Spec.last_match home events)
  ↔ existsb (Spec.home_matches home) events = true.
Proof.
  induction events as [|e events IH]; simpl.
  - split; [by intros [? ?] | done].
  - destruct (Spec.last_match home events) as [e'|].
    + rewrite orb_true_iff. split; [|by eexists].
      intros _. right. by apply IH.
    + destruct (Spec.home_matches home e); simpl; [by split; [|eexists]|].
      rewrite <- IH. done.
Qed.

Lemma is_record_of_home events game r home :
  Spec.is_record_of events game r → Spec.game_home game = Some home →
  r !! "id" = Spec.last_match home events ≫= Spec.event_id.
Proof.
  intros (g & t & Hg & _ & ->). unfold Spec.game_home. rewrite Hg.
  intros [= <-]. apply expected_record_id.
Qed.

Lemma match_event_agree (game_info : game_record) e1 e2 :
  Spec.events_agree e1 e2 →
  MLBAPI.match_event game_info e1 = MLBAPI.match_event game_info e2.
Proof.
  intros (m1 & m2 & -> & -> & Hhome & Hid).
  unfold MLBAPI.match_event. simpl. by rewrite Hhome, Hid.
Qed.

Lemma match_events_agree events1 events2 :
  Forall2 Spec.events_agree events1 events2 →
  ∀ game_info : game_record,
    MLBAPI.match_events events1 game_info
    = MLBAPI.match_events events2 game_info.
Proof.
  induction 1 as [|e1 e2 events1 events2 He _ IH]; intros game_info; [done|].
  simpl. rewrite (match_event_agree _ _ _ He).
  destruct (MLBAPI.match_event game_info e2); [|done].
  rewrite !bind_Ok. apply IH.
Qed.

Lemma build_game_info_agree events1 events2 game :
  Forall2 Spec.events_agree events1 events2 →
  MLBAPI.build_game_info (PList events1) game
  = MLBAPI.build_game_info (PList events2) game.
Proof.
  intros Hagree. unfold MLBAPI.build_game_info.
  destruct (_ ≫= MLBAPI.convert_utc_to_est); [|done]. rewrite !bind_Ok.
  destruct (getitem game "gameDate"); [|done]. rewrite !bind_Ok.
  destruct (MLBAPI.subscripts game ["teams"; "away"; "team"; "name"]); [|done].
  rewrite !bind_Ok.
  destruct (MLBAPI.subscripts game ["teams"; "home"; "team"; "name"]); [|done].
  rewrite !bind_Ok.
  destruct (MLBAPI.subscripts game ["venue"; "name"]); [|done].
  rewrite !bind_Ok. simpl iter. rewrite !bind_Ok.
  by apply match_events_agree.
Qed.

Lemma build_all_agree events1 events2 games :
  Forall2 Spec.events_agree events1 events2 →
  MLBAPI.build_all (PList events1) games
  = MLBAPI.build_all (PList events2) games.
Proof.
  intros Hagree. induction games as [|game games IH]; simpl; [done|].
  by rewrite (build_game_info_agree _ _ _ Hagree), IH.
Qed.

End correlation_facts.

(** ** The calendar: ordinals and dates *)

Section calendar.

Import Datetime.

Lemma forallb_seqZ (f : Z → bool) (lo len x : Z) :
  forallb f (seqZ lo len) = true → lo <= x < lo + len → f x = true.
Proof.
  rewrite forallb_forall. intros Hall Hx.
  apply Hall, list_elem_of_In, elem_of_seqZ. lia.
Qed.

Lemma div_mod_by (x d q r : Z) :
  0 <= r < d → x = d * q + r → x / d = q ∧ x mod d = r.
Proof.
  intros Hr ->. split.
  - symmetry. apply (Z.div_unique _ _ q r); lia.
  - symmetry. apply (Z.mod_unique _ _ q r); lia.
Qed.

(** A year as 400-, 100-, 4- and 1-year cycles before it. *)
Lemma year_cycles (y : Z) :
  ∃ a b c e, y = 400 * a + 100 * b + 4 * c + e + 1
             ∧ 0 <= b <= 3 ∧ 0 <= c <= 24 ∧ 0 <= e <= 3.
Proof.
  exists ((y - 1) / 400), ((y - 1) mod 400 / 100),
         ((y - 1) mod 100 / 4), ((y - 1) mod 4).
  Z.div_mod_to_equations. lia.
Qed.

Lemma days_before_year_cycles (a b c e : Z) :
  0 <= b <= 3 → 0 <= c <= 24 → 0 <= e <= 3 →
  days_before_year (400 * a + 100 * b + 4 * c + e + 1)
  = 146097 * a + 36524 * b + 1461 * c + 365 * e.
Proof.
  intros Hb Hc He. unfold days_before_year.
  Z.div_mod_to_equations. lia.
Qed.

Lemma is_leap_cycles (a b c e : Z) :
  0 <= b <= 3 → 0 <= c <= 24 → 0 <= e <= 3 →
  is_leap (400 * a + 100 * b + 4 * c + e + 1)
  = (e =? 3) && (negb (c =? 24) || (b =? 3)).
Proof.
  intros Hb Hc He. unfold is_leap.
  repeat match goal with
         | |- context [?x =? ?y] => destruct (Z.eqb_spec x y)
         end; simpl; try reflexivity; exfalso;
    Z.div_mod_to_equations; lia.
Qed.

Lemma month_day_checked leapyear : Cal.month_day_check leapyear = true.
Proof. destruct leapyear; vm_compute; reflexivity. Qed.

Lemma month_day_spec (y m d : Z) :
  1 <= m <= 12 → 1 <= d <= days_in_month y m →
  Cal.month_day (days_before_month y m + d - 1) (is_leap y) = (m, d).
Proof.
  intros Hm Hd.
  pose proof (month_day_checked (is_leap y)) as Hall.
  unfold Cal.month_day_check in Hall.
  apply (forallb_seqZ _ _ _ m) in Hall; [|lia].
  assert (Hd31 : d <= 31).
  { unfold days_in_month in Hd.
    destruct ((m =? 2) && is_leap y); [lia|].
    assert (DAYS_IN_MONTH m <= 31); [|lia].
    assert (Hcases : m = 1 ∨ m = 2 ∨ m = 3 ∨ m = 4 ∨ m = 5 ∨ m = 6 ∨ m = 7
                     ∨ m = 8 ∨ m = 9 ∨ m = 10 ∨ m = 11 ∨ m = 12) by lia.
    destruct Hcases as [->|[->|[->|[->|[->|[->|[->|[->|[->|[->|[->| ->]]]]]]]]]]];
      simpl; lia. }
  apply (forallb_seqZ _ _ _ d) in Hall; [|lia].
  cbv zeta in Hall. unfold days_before_month.
  unfold days_in_month in Hd.
  replace (DAYS_IN_MONTH m + (if (m =? 2) && is_leap y then 1 else 0))
    with (if (m =? 2) && is_leap y then 29 else DAYS_IN_MONTH m) in Hall.
  2:{ destruct (Z.eqb_spec m 2) as [->|]; simpl; [|lia].
      destruct (is_leap y); reflexivity. }
  destruct (d <=? _) eqn:Hle; [|lia]. simpl in Hall.
  destruct (Cal.month_day _ _) as [m' d'].
  apply andb_true_iff in Hall as [->%Z.eqb_eq ->%Z.eqb_eq]. reflexivity.
Qed.

Lemma ord2ymd_cycles (a b c e k : Z) :
  0 <= b <= 3 → 0 <= c <= 24 → 0 <= e <= 3 →
  0 <= k <= 364 + (if (e =? 3) && (negb (c =? 24) || (b =? 3)) then 1 else 0) →
  ord2ymd (146097 * a + 36524 * b + 1461 * c + 365 * e + k + 1)
  = let '(m, d) := Cal.month_day k ((e =? 3) && (negb (c =? 24) || (b =? 3))) in
    (400 * a + 100 * b + 4 * c + e + 1, m, d).
Proof.
  intros Hb Hc He Hk.
  set (N := 146097 * a + 36524 * b + 1461 * c + 365 * e + k + 1).
  destruct (Z.eq_dec k 365) as [->|Hk365].
  - (* the last day of a leap year *)
    destruct (Z.eqb_spec e 3) as [->|]; [|simpl in Hk; lia].
    destruct (Z.eqb_spec c 24) as [->|Hc24].
    + destruct (Z.eqb_spec b 3) as [->|]; [|simpl in Hk; lia].
      destruct (div_mod_by (N - 1) DI400Y a 146096) as [E1 E1'];
        [unfold DI400Y; lia | unfold DI400Y, N; lia |].
      unfold ord2ymd. cbv zeta. rewrite E1, E1'.
      change (146096 / DI100Y) with 4. change (146096 mod DI100Y) with 0.
      change (0 / DI4Y) with 0. change (0 mod DI4Y / 365) with 0. simpl.
      repeat apply (f_equal2 pair); first [reflexivity | lia].
    + destruct (div_mod_by (N - 1) DI400Y a (36524 * b + 1461 * c + 1460))
        as [E1 E1']; [unfold DI400Y; lia | unfold DI400Y, N; lia |].
      destruct (div_mod_by (36524 * b + 1461 * c + 1460) DI100Y b
                  (1461 * c + 1460)) as [E2 E2'];
        [unfold DI100Y; lia | unfold DI100Y; lia |].
      destruct (div_mod_by (1461 * c + 1460) DI4Y c 1460) as [E3 E3'];
        [unfold DI4Y; lia | unfold DI4Y; lia |].
      unfold ord2ymd. cbv zeta. rewrite E1, E1', E2, E2', E3, E3'.
      change (1460 / 365) with 4. simpl.
      repeat apply (f_equal2 pair); first [reflexivity | lia].
  - assert (Hk' : 0 <= k <= 364) by (destruct (_ && _); lia).
    destruct (div_mod_by (N - 1) DI400Y a
                (36524 * b + 1461 * c + 365 * e + k)) as [E1 E1'];
      [unfold DI400Y; lia | unfold DI400Y, N; lia |].
    destruct (div_mod_by (36524 * b + 1461 * c + 365 * e + k) DI100Y b
                (1461 * c + 365 * e + k)) as [E2 E2'];
      [unfold DI100Y; lia | unfold DI100Y; lia |].
    destruct (div_mod_by (1461 * c + 365 * e + k) DI4Y c (365 * e + k))
      as [E3 E3']; [unfold DI4Y; lia | unfold DI4Y; lia |].
    destruct (div_mod_by (365 * e + k) 365 e k) as [E4 E4']; [lia | lia |].
    unfold ord2ymd. cbv zeta. rewrite E1, E1', E2, E2', E3, E3', E4, E4'.
    destruct (Z.eqb_spec e 4); [lia|]. destruct (Z.eqb_spec b 4); [lia|].
    simpl orb. cbv iota. unfold Cal.month_day. cbv zeta.
    replace (a * 400 + 1 + (b * 100 + c * 4 + e))
      with (400 * a + 100 * b + 4 * c + e + 1) by lia.
    destruct (k <? _); reflexivity.
Qed.

Lemma days_before_month_bounds (y m d : Z) :
  1 <= m <= 12 → 1 <= d <= days_in_month y m →
  0 <= days_before_month y m + d - 1
    <= 364 + (if is_leap y then 1 else 0).
Proof.
  intros Hm Hd. unfold days_before_month, days_in_month in *.
  assert (Hcases : m = 1 ∨ m = 2 ∨ m = 3 ∨ m = 4 ∨ m = 5 ∨ m = 6 ∨ m = 7
                   ∨ m = 8 ∨ m = 9 ∨ m = 10 ∨ m = 11 ∨ m = 12) by lia.
  destruct Hcases as [->|[->|[->|[->|[->|[->|[->|[->|[->|[->|[->| ->]]]]]]]]]]];
    destruct (is_leap y); simpl in *; lia.
Qed.

(** [_ord2ymd] inverts [_ymd2ord] on the dates of the calendar. *)
Lemma ord2ymd_ymd2ord (y m d : Z) :
  1 <= m <= 12 → 1 <= d <= days_in_month y m →
  ord2ymd (ymd2ord y m d) = (y, m, d).
Proof.
  intros Hm Hd.
  destruct (year_cycles y) as (a & b & c & e & Hy & Hb & Hc & He).
  pose proof (days_before_month_bounds y m d Hm Hd) as Hk.
  pose proof (month_day_spec y m d Hm Hd) as Hmd.
  pose proof (is_leap_cycles a b c e Hb Hc He) as Hleap.
  pose proof (days_before_year_cycles a b c e Hb Hc He) as Hdby.
  rewrite <- Hy in Hleap, Hdby.
  unfold ymd2ord. rewrite Hdby.
  replace (146097 * a + 36524 * b + 1461 * c + 365 * e
           + days_before_month y m + d)
    with (146097 * a + 36524 * b + 1461 * c + 365 * e
          + (days_before_month y m + d - 1) + 1) by lia.
  rewrite ord2ymd_cycles; [|done..|by rewrite <- Hleap].
  rewrite <- Hleap, Hmd. by rewrite <- Hy.
Qed.

(** The ordinal of the day after a date is one more. *)
Lemma ymd2ord_next_day (y m d : Z) :
  1 <= m <= 12 → 1 <= d <= days_in_month y m →
  let '(y', m', d') := Cal.next_day y m d in
  ymd2ord y' m' d' = ymd2ord y m d + 1
  ∧ 1 <= m' <= 12 ∧ 1 <= d' <= days_in_month y' m'.
Proof.
  intros Hm Hd. unfold Cal.next_day.
  destruct (Z.ltb_spec d (days_in_month y m)).
  { unfold ymd2ord. lia. }
  assert (d = days_in_month y m) as -> by lia.
  destruct (Z.ltb_spec m 12).
  - unfold ymd2ord, days_before_month, days_in_month.
    assert (Hcases : m = 1 ∨ m = 2 ∨ m = 3 ∨ m = 4 ∨ m = 5 ∨ m = 6 ∨ m = 7
                     ∨ m = 8 ∨ m = 9 ∨ m = 10 ∨ m = 11) by lia.
    destruct Hcases as [->|[->|[->|[->|[->|[->|[->|[->|[->|[->| ->]]]]]]]]]];
      destruct (is_leap y); simpl; lia.
  - assert (m = 12) as -> by lia.
    unfold ymd2ord, days_before_month, days_in_month, days_before_year.
    simpl. unfold is_leap.
    repeat match goal with
           | |- context [?x =? ?y] => destruct (Z.eqb_spec x y)
           end; simpl; Z.div_mod_to_equations; lia.
Qed.

Lemma days_before_year_max (y : Z) : y <= 10000 → days_before_year y <= MAXORDINAL.
Proof.
  intros Hy. destruct (year_cycles y) as (a & b & c & e & -> & Hb & Hc & He).
  rewrite days_before_year_cycles by done. unfold MAXORDINAL. lia.
Qed.

Lemma days_before_year_min (y : Z) : 1 <= y → 0 <= days_before_year y.
Proof.
  intros Hy. destruct (year_cycles y) as (a & b & c & e & -> & Hb & Hc & He).
  rewrite days_before_year_cycles by done. lia.
Qed.

Lemma days_before_next_year (y : Z) :
  days_before_year (y + 1)
  = days_before_year y + 365 + (if is_leap y then 1 else 0).
Proof.
  pose proof (ymd2ord_next_day y 12 31) as H.
  unfold Cal.next_day, days_in_month in H. simpl in H.
  destruct H as [H _]; [lia | lia |].
  unfold ymd2ord, days_before_month in H. simpl in H.
  destruct (is_leap y); lia.
Qed.

Lemma ymd2ord_bounds (y m d : Z) :
  MINYEAR <= y <= MAXYEAR → 1 <= m <= 12 → 1 <= d <= days_in_month y m →
  1 <= ymd2ord y m d <= MAXORDINAL.
Proof.
  unfold MINYEAR, MAXYEAR. intros Hy Hm Hd.
  pose proof (days_before_month_bounds y m d Hm Hd).
  pose proof (days_before_year_min y).
  pose proof (days_before_year_max (y + 1)).
  pose proof (days_before_next_year y).
  unfold ymd2ord. destruct (is_leap y); lia.
Qed.

(** [datetime.__add__] in seconds: the days and the seconds of the sum. *)
Lemma add_eq (self : datetime) (other : timedelta) :
  0 <= hour self * 3600 + minute self * 60 + second self < 86400 →
  0 <= microsecond self < 1000000 →
  0 <= td_seconds other < 86400 → td_microseconds other = 0 →
  add self other
  = let total := hour self * 3600 + minute self * 60 + second self
                 + td_seconds other in
    let days := toordinal self + td_days other + total / 86400 in
    let secs := total mod 86400 in
    if (0 <? days) && (days <=? MAXORDINAL) then
      let '(y, m, d) := ord2ymd days in
      Ok (mk_datetime y m d (secs / 3600) (secs mod 3600 / 60)
            (secs mod 3600 mod 60) (microsecond self))
    else raise OverflowError "date value out of range".
Proof.
  intros Hs Hus Hos Hous. unfold add, td_add, new_timedelta. simpl.
  rewrite Hous, (Z.div_small (microsecond self)), (Z.mod_small (microsecond self))
    by lia.
  rewrite !Z.add_0_r, (Z.div_small (microsecond self)) by lia.
  rewrite (Z.div_small (_ + second self)), (Z.mod_small (_ + second self))
    by lia.
  change (0 * 3600) with 0. change (0 * 60) with 0.
  rewrite ?Z.add_0_r, ?Z.add_0_l.
  rewrite ?(Z.mod_small (microsecond self)) by lia. reflexivity.
Qed.

Lemma fmt_year_pad4 (y : Z) : 1000 <= y <= 9999 → fmt_year y = Cal.pad4 y.
Proof.
  intros Hy. unfold fmt_year, Cal.pad4, fmt2.
  destruct (Z.ltb_spec y 10); [lia|]. destruct (Z.ltb_spec y 100); [lia|].
  destruct (Z.ltb_spec y 1000); [lia|]. simpl.
  replace (y / 100 / 10) with (y / 1000) by (Z.div_mod_to_equations; lia).
  replace (y mod 100 / 10) with (y / 10 mod 10)
    by (Z.div_mod_to_equations; lia).
  replace (y mod 100 mod 10) with (y mod 10) by (Z.div_mod_to_equations; lia).
  reflexivity.
Qed.

Lemma strftime_iso_z_eq (dt : datetime) :
  1000 <= year dt <= 9999 → strftime_iso_z dt = Cal.iso_z dt.
Proof.
  intros Hy. unfold strftime_iso_z, Cal.iso_z. by rewrite fmt_year_pad4.
Qed.

End calendar.

(** ** [strptime]: what the pattern accepts *)

Section matching.

Import Strptime.

Lemma append_cons (c : ascii) (s1 s2 : string) :
  String c s1 +:+ s2 = String c (s1 +:+ s2).
Proof. reflexivity. Qed.

Lemma append_nil (s : string) : "" +:+ s = s.
Proof. reflexivity. Qed.

Lemma append_assoc (s1 s2 s3 : string) :
  (s1 +:+ s2) +:+ s3 = s1 +:+ (s2 +:+ s3).
Proof.
  induction s1 as [|c s1 IH]; [done|]. by rewrite !append_cons, IH.
Qed.

Lemma append_empty_r (s : string) : s +:+ "" = s.
Proof. induction s as [|c s IH]; [done|]. by rewrite append_cons, IH. Qed.

Lemma length_append (s1 s2 : string) :
  String.length (s1 +:+ s2) = (String.length s1 + String.length s2)%nat.
Proof.
  induction s1 as [|c s1 IH]; [done|]. rewrite append_cons. simpl. by rewrite IH.
Qed.

(** A match of the backtracking matcher splits the text into a string of
    the pattern and a rest that the continuation accepts. *)
Lemma rmatch_sound {X} (r : regex) :
  ∀ s g (k : string → gmap string string → option X) x,
    rmatch r s g k = Some x →
    ∃ s1 s2 g', s = s1 +:+ s2 ∧ Lang.matches r s1 ∧ k s2 g' = Some x.
Proof.
  induction r as [|c| |lo hi|r1 IH1 r2 IH2|r1 IH1 r2 IH2|name r1 IH1];
    intros s g k x; simpl.
  - intros Hk. exists "", s, g. split; [done|]. split; [constructor | done].
  - destruct s as [|a s']; [done|].
    destruct (Ascii.eqb_spec (lower_char a) (lower_char c)); [|done].
    intros Hk. exists (String a ""), s', g.
    split; [done|]. split; [by constructor | done].
  - destruct s as [|a s']; [done|].
    destruct (is_digit a) eqn:Ha; [|done].
    intros Hk. exists (String a ""), s', g.
    split; [done|]. split; [by constructor | done].
  - destruct s as [|a s']; [done|].
    destruct (in_range lo hi a) eqn:Ha; [|done].
    intros Hk. exists (String a ""), s', g.
    split; [done|]. split; [by constructor | done].
  - intros (s1 & s2 & g1 & -> & Hm1 & Hk1)%IH1.
    apply IH2 in Hk1 as (s21 & s22 & g2 & -> & Hm2 & Hk2).
    exists (s1 +:+ s21), s22, g2. rewrite append_assoc.
    split; [done|]. split; [by constructor | done].
  - destruct (rmatch r1 s g k) as [x'|] eqn:H1.
    + intros [= ->]. apply IH1 in H1 as (s1 & s2 & g' & -> & Hm & Hk).
      exists s1, s2, g'. split; [done|]. split; [by apply Lang.matches_Alt_l | done].
    + intros (s1 & s2 & g' & -> & Hm & Hk)%IH2.
      exists s1, s2, g'. split; [done|]. split; [by apply Lang.matches_Alt_r | done].
  - intros (s1 & s2 & g' & -> & Hm & Hk)%IH1.
    eexists s1, s2, _. split; [done|]. split; [by constructor | exact Hk].
Qed.

Lemma re_match_sound (r : regex) (s : string) g :
  re_match r s = Some ("", g) → Lang.matches r s.
Proof.
  unfold re_match.
  intros (s1 & s2 & g' & -> & Hm & [= -> _])%rmatch_sound.
  by rewrite append_empty_r.
Qed.

Lemma matches_alphabet (r : regex) (s : string) (c : ascii) :
  Lang.matches r s → Lang.holds c s = true → Lang.alphabet r c = true.
Proof.
  induction 1 as [|c' a Ha|a Ha|lo hi a Ha|r1 r2 s1 s2 _ IH1 _ IH2
                  |r1 r2 s _ IH|r1 r2 s _ IH|name r s _ IH]; simpl.
  - done.
  - rewrite orb_false_r. intros ->%Ascii.eqb_eq. rewrite Ha.
    apply Ascii.eqb_refl.
  - rewrite orb_false_r. by intros ->%Ascii.eqb_eq.
  - rewrite orb_false_r. by intros ->%Ascii.eqb_eq.
  - intros Hc. apply orb_true_iff.
    assert (Hsplit : Lang.holds c s1 = true ∨ Lang.holds c s2 = true).
    { clear -Hc. induction s1 as [|a s1 IH]; [by right|].
      rewrite append_cons in Hc. simpl in *.
      destruct (Ascii.eqb a c); [by left | by apply IH]. }
    destruct Hsplit; [left; by apply IH1 | right; by apply IH2].
  - intros Hc. rewrite IH; done.
  - intros Hc. rewrite IH, ?orb_true_r; done.
  - done.
Qed.

Lemma matches_max_length (r : regex) (s : string) :
  Lang.matches r s → (String.length s <= Lang.max_length r)%nat.
Proof.
  induction 1; simpl; rewrite ?length_append; lia.
Qed.

(** [strptime] accepts strings of the pattern of the format only; any
    other string is a [ValueError]. *)
Lemma strptime_rejects (s format : string) (r : regex) :
  pattern format = Some r → ¬ Lang.matches r s →
  ∃ msg, strptime s format = raise ValueError msg.
Proof.
  intros Hr Hno. unfold strptime. rewrite Hr.
  destruct (re_match r s) as [[[|c rest] g]|] eqn:Hm.
  - by apply re_match_sound in Hm.
  - by eexists.
  - by eexists.
Qed.

Lemma consumed_app (s1 rest : string) : consumed (s1 +:+ rest) rest = s1.
Proof.
  unfold consumed. rewrite length_append.
  replace (String.length s1 + String.length rest - String.length rest)%nat
    with (String.length s1) by lia.
  induction s1 as [|c s1 IH]; [by destruct rest|].
  rewrite append_cons. simpl. by rewrite IH.
Qed.

Lemma consumed2 (a b : ascii) (rest : string) :
  consumed (String a (String b rest)) rest = String a (String b "").
Proof. apply (consumed_app (String a (String b ""))). Qed.

Lemma consumed4 (a b c d : ascii) (rest : string) :
  consumed (String a (String b (String c (String d rest)))) rest
  = String a (String b (String c (String d ""))).
Proof. apply (consumed_app (String a (String b (String c (String d ""))))). Qed.

Lemma digit_cases (d : Z) :
  0 <= d <= 9 →
  d = 0 ∨ d = 1 ∨ d = 2 ∨ d = 3 ∨ d = 4 ∨ d = 5 ∨ d = 6 ∨ d = 7 ∨ d = 8 ∨ d = 9.
Proof. lia. Qed.

Lemma is_digit_digit_char (d : Z) : 0 <= d <= 9 → is_digit (digit_char d) = true.
Proof.
  intros Hd. destruct (digit_cases d Hd)
    as [->|[->|[->|[->|[->|[->|[->|[->|[->| ->]]]]]]]]]; reflexivity.
Qed.

Lemma digit_char_value (d : Z) :
  0 <= d <= 9 → Z.of_nat (nat_of_ascii (digit_char d)) - 48 = d.
Proof.
  intros Hd. destruct (digit_cases d Hd)
    as [->|[->|[->|[->|[->|[->|[->|[->|[->| ->]]]]]]]]]; reflexivity.
Qed.

(** A digit is none of the marks of the format. *)
Lemma digit_is_no_mark (c mark : ascii) :
  is_digit c = true → is_digit (lower_char mark) = false →
  Ascii.eqb (lower_char c) (lower_char mark) = false.
Proof.
  intros Hc Hmark.
  assert (lower_char c = c) as ->.
  { unfold is_digit in Hc. unfold lower_char.
    apply andb_true_iff in Hc as [H1%Nat.leb_le H2%Nat.leb_le].
    destruct (Nat.leb_spec 65 (nat_of_ascii c)); [lia|].
    destruct (Nat.leb_spec 192 (nat_of_ascii c)); [lia|]. reflexivity. }
  apply Ascii.eqb_neq. intros ->. by rewrite Hc in Hmark.
Qed.

Lemma rmatch_Cat {X} r1 r2 s g (k : string → gmap string string → option X) :
  rmatch (Cat r1 r2) s g k = rmatch r1 s g (λ s' g', rmatch r2 s' g' k).
Proof. reflexivity. Qed.

Lemma rmatch_mark {X} (mark : ascii) r s g
    (k : string → gmap string string → option X) :
  rmatch (Cat (Lit mark) r) (String mark s) g k = rmatch r s g k.
Proof. simpl. by rewrite Ascii.eqb_refl. Qed.

Lemma rmatch_mark_digit {X} (mark : ascii) r c s g
    (k : string → gmap string string → option X) :
  is_digit (lower_char mark) = false → is_digit c = true →
  rmatch (Cat (Lit mark) r) (String c s) g k = None.
Proof. intros Hmark Hc. simpl. by rewrite digit_is_no_mark. Qed.

Ltac mark_digit :=
  let Hc := fresh in
  intros ? ? ? Hc; apply rmatch_mark_digit; first [reflexivity | exact Hc].

Ltac eval_tests :=
  repeat match goal with
    | |- context [is_digit ?c] =>
        let r := eval vm_compute in (is_digit c) in
        change (is_digit c) with r
    | |- context [in_range ?a ?b ?c] =>
        let r := eval vm_compute in (in_range a b c) in
        change (in_range a b c) with r
    | |- context [Ascii.eqb ?a ?b] =>
        let r := eval vm_compute in (Ascii.eqb a b) in
        change (Ascii.eqb a b) with r
    end.

Ltac field_case v :=
  let a := eval vm_compute in (digit_char (v / 10)) in
  let b := eval vm_compute in (digit_char (v mod 10)) in
  change (fmt2 v) with (String a (String b ""));
  change (digit_char (v / 10)) with a;
  change (digit_char (v mod 10)) with b;
  cbn -[consumed];
  rewrite ?consumed2;
  match goal with
  | HK : ∀ c s g', is_digit c = true → _ |- _ => rewrite ?HK by reflexivity
  end;
  eval_tests; cbv iota;
  match goal with |- _ = ?rhs => destruct rhs end;
  reflexivity.

Tactic Notation "field_cases" constr(v) "from" constr(lo) "count" integer(n) :=
  let k := fresh "k" in
  let Hk := fresh "Hk" in
  assert (∃ k : nat, v = lo + Z.of_nat k ∧ (k < 60)%nat) as (k & -> & Hk)
    by (exists (Z.to_nat (v - lo)); lia);
  do n (destruct k as [|k];
    [ match goal with |- context [fmt2 ?v] => field_case v end | ]);
  lia.

Section fields.

Context {X : Type} (rest : string) (g : gmap string string).
Context (K : string → gmap string string → option X).
Context (HK : ∀ c s g', is_digit c = true → K (String c s) g' = None).

Lemma rmatch_Y (y : Z) r :
  directive "Y" = Some r → 0 <= y <= 9999 →
  rmatch r (Cal.pad4 y +:+ rest) g K = K rest (<["Y" := Cal.pad4 y]> g).
Proof.
  intros [= <-] Hy. unfold Cal.pad4. rewrite !append_cons, append_nil.
  cbn -[consumed is_digit].
  rewrite !is_digit_digit_char, consumed4; [done|..];
    Z.div_mod_to_equations; lia.
Qed.

Lemma rmatch_m (v : Z) r :
  directive "m" = Some r → 1 <= v <= 12 →
  rmatch r (String (digit_char (v / 10)) (String (digit_char (v mod 10)) rest))
    g K
  = K rest (<["m" := fmt2 v]> g).
Proof. intros [= <-] Hv. field_cases v from 1 count 12. Qed.

Lemma rmatch_d (v : Z) r :
  directive "d" = Some r → 1 <= v <= 31 →
  rmatch r (String (digit_char (v / 10)) (String (digit_char (v mod 10)) rest))
    g K
  = K rest (<["d" := fmt2 v]> g).
Proof. intros [= <-] Hv. field_cases v from 1 count 31. Qed.

Lemma rmatch_H (v : Z) r :
  directive "H" = Some r → 0 <= v <= 23 →
  rmatch r (String (digit_char (v / 10)) (String (digit_char (v mod 10)) rest))
    g K
  = K rest (<["H" := fmt2 v]> g).
Proof. intros [= <-] Hv. field_cases v from 0 count 24. Qed.

Lemma rmatch_M (v : Z) r :
  directive "M" = Some r → 0 <= v <= 59 →
  rmatch r (String (digit_char (v / 10)) (String (digit_char (v mod 10)) rest))
    g K
  = K rest (<["M" := fmt2 v]> g).
Proof. intros [= <-] Hv. field_cases v from 0 count 60. Qed.

Lemma rmatch_S (v : Z) r :
  directive "S" = Some r → 0 <= v <= 59 →
  rmatch r (String (digit_char (v / 10)) (String (digit_char (v mod 10)) rest))
    g K
  = K rest (<["S" := fmt2 v]> g).
Proof. intros [= <-] Hv. field_cases v from 0 count 60. Qed.

End fields.

Lemma strip_spaces_left_digit (c : ascii) (s : string) :
  is_digit c = true → strip_spaces_left (String c s) = String c s.
Proof.
  destruct c as [[] [] [] [] [] [] [] []]; try discriminate; reflexivity.
Qed.

Lemma int_fmt2 (v : Z) : 0 <= v <= 99 → int (fmt2 v) = Ok v.
Proof.
  intros Hv. unfold int, fmt2.
  assert (Hb : 0 <= v mod 10 <= 9) by (Z.div_mod_to_equations; lia).
  assert (Ha : 0 <= v / 10 <= 9) by (Z.div_mod_to_equations; lia).
  rewrite strip_spaces_left_digit by by apply is_digit_digit_char.
  cbn -[is_digit digit_char Z.mul Z.add Z.sub].
  rewrite !is_digit_digit_char, !digit_char_value by done.
  f_equal. Z.div_mod_to_equations. lia.
Qed.

Lemma int_pad4 (y : Z) : 0 <= y <= 9999 → int (Cal.pad4 y) = Ok y.
Proof.
  intros Hy. unfold int, Cal.pad4.
  assert (Ha : 0 <= y / 1000 <= 9) by (Z.div_mod_to_equations; lia).
  assert (Hb : 0 <= y / 100 mod 10 <= 9) by (Z.div_mod_to_equations; lia).
  assert (Hc : 0 <= y / 10 mod 10 <= 9) by (Z.div_mod_to_equations; lia).
  assert (Hd : 0 <= y mod 10 <= 9) by (Z.div_mod_to_equations; lia).
  rewrite strip_spaces_left_digit by by apply is_digit_digit_char.
  cbn -[is_digit digit_char Z.mul Z.add Z.sub].
  rewrite !is_digit_digit_char, !digit_char_value by done.
  f_equal. Z.div_mod_to_equations. lia.
Qed.

(** [strptime] reads a strict timestamp of a date and a time that exist
    as that date and that time. *)
Lemma strptime_iso_z (y m d hh mm ss us : Z) :
  Datetime.valid_datetime (Datetime.mk_datetime y m d hh mm ss us) →
  strptime (Cal.iso_z (Datetime.mk_datetime y m d hh mm ss us))
    "%Y-%m-%dT%H:%M:%SZ"
  = Ok (Datetime.mk_datetime y m d hh mm ss 0).
Proof.
  unfold Datetime.valid_datetime, Datetime.MINYEAR, Datetime.MAXYEAR. simpl.
  intros (Hy & Hm & Hd & Hhh & Hmm & Hss & _).
  assert (Hd31 : d <= 31).
  { pose proof (days_before_month_bounds y m d Hm Hd) as Hb.
    unfold Datetime.days_in_month in Hd.
    destruct ((m =? 2) && Datetime.is_leap y); [lia|].
    assert (Hcases : m = 1 ∨ m = 2 ∨ m = 3 ∨ m = 4 ∨ m = 5 ∨ m = 6 ∨ m = 7
                     ∨ m = 8 ∨ m = 9 ∨ m = 10 ∨ m = 11 ∨ m = 12) by lia.
    destruct Hcases as [->|[->|[->|[->|[->|[->|[->|[->|[->|[->|[->| ->]]]]]]]]]]];
      simpl in Hd; lia. }
  unfold strptime.
  change (pattern "%Y-%m-%dT%H:%M:%SZ") with (Some Lang.iso_pattern).
  cbv beta iota.
  assert (Hmatch :
    re_match Lang.iso_pattern
      (Cal.iso_z (Datetime.mk_datetime y m d hh mm ss us))
    = Some ("", <["S" := fmt2 ss]> (<["M" := fmt2 mm]> (<["H" := fmt2 hh]>
                  (<["d" := fmt2 d]> (<["m" := fmt2 m]>
                     (<["Y" := Cal.pad4 y]> ∅))))))).
  { unfold re_match, Lang.iso_pattern, Cal.iso_z. simpl Datetime.year.
    simpl Datetime.month. simpl Datetime.day. simpl Datetime.hour.
    simpl Datetime.minute. simpl Datetime.second.
    rewrite rmatch_Cat, rmatch_Y; [ | reflexivity | lia ].
    unfold fmt2 at 1. rewrite !append_cons, !append_nil, rmatch_mark.
    rewrite rmatch_Cat, rmatch_m; [ | mark_digit | reflexivity | lia ].
    unfold fmt2 at 1. rewrite !append_cons, !append_nil, rmatch_mark.
    rewrite rmatch_Cat, rmatch_d; [ | mark_digit | reflexivity | lia ].
    unfold fmt2 at 1. rewrite !append_cons, !append_nil, rmatch_mark.
    rewrite rmatch_Cat, rmatch_H; [ | mark_digit | reflexivity | lia ].
    unfold fmt2 at 1. rewrite !append_cons, !append_nil, rmatch_mark.
    rewrite rmatch_Cat, rmatch_M; [ | mark_digit | reflexivity | lia ].
    unfold fmt2 at 1. rewrite !append_cons, !append_nil, rmatch_mark.
    rewrite rmatch_Cat, rmatch_S; [ | mark_digit | reflexivity | lia ].
    rewrite rmatch_mark. reflexivity. }
  rewrite Hmatch. unfold group.
  set (found := <["S" := fmt2 ss]> _).
  change (found !! "Y") with (Some (Cal.pad4 y)).
  change (found !! "m") with (Some (fmt2 m)).
  change (found !! "d") with (Some (fmt2 d)).
  change (found !! "H") with (Some (fmt2 hh)).
  change (found !! "M") with (Some (fmt2 mm)).
  change (found !! "S") with (Some (fmt2 ss)).
  cbv iota. clear found.
  change (Ok (Cal.pad4 y) ≫= int) with (int (Cal.pad4 y)).
  change (Ok (fmt2 m) ≫= int) with (int (fmt2 m)).
  change (Ok (fmt2 d) ≫= int) with (int (fmt2 d)).
  change (Ok (fmt2 hh) ≫= int) with (int (fmt2 hh)).
  change (Ok (fmt2 mm) ≫= int) with (int (fmt2 mm)).
  change (Ok (fmt2 ss) ≫= int) with (int (fmt2 ss)).
  rewrite int_pad4, !int_fmt2 by lia. rewrite !bind_Ok.
  assert (Hdate : Datetime.check_date_fields y m d = Ok ()).
  { unfold Datetime.check_date_fields, Datetime.MINYEAR, Datetime.MAXYEAR.
    destruct (Z.leb_spec 1 y); [|lia]. destruct (Z.leb_spec y 9999); [|lia].
    destruct (Z.leb_spec 1 m); [|lia]. destruct (Z.leb_spec m 12); [|lia].
    destruct (Z.leb_spec 1 d); [|lia].
    destruct (Z.leb_spec d (Datetime.days_in_month y m)); [|lia]. done. }
  unfold Datetime.new. rewrite Hdate, !bind_Ok.
  unfold Datetime.check_time_fields.
  destruct (Z.leb_spec 0 hh); [|lia]. destruct (Z.leb_spec hh 23); [|lia].
  destruct (Z.leb_spec 0 mm); [|lia]. destruct (Z.leb_spec mm 59); [|lia].
  destruct (Z.leb_spec 0 ss); [|lia]. destruct (Z.leb_spec ss 59); [|lia].
  done.
Qed.

End matching.

(** ** The zone: the table of transitions and its search *)

Section zone.

Import Datetime Pytz.

Lemma cmp_key (a b : datetime) :
  Zone.in_clock_ranges a = true → Zone.in_clock_ranges b = true →
  cmp a b = (Zone.key a ?= Zone.key b).
Proof.
  unfold Zone.in_clock_ranges. rewrite !andb_true_iff, !Z.leb_le.
  intros Ha Hb. unfold cmp, Zone.key. symmetry.
  destruct (Z.compare_spec (year a) (year b)) as [Ey|Ey|Ey];
    [|apply Z.compare_lt_iff; lia|apply Z.compare_gt_iff; lia].
  destruct (Z.compare_spec (month a) (month b)) as [Em|Em|Em];
    [|apply Z.compare_lt_iff; lia|apply Z.compare_gt_iff; lia].
  destruct (Z.compare_spec (day a) (day b)) as [Ed|Ed|Ed];
    [|apply Z.compare_lt_iff; lia|apply Z.compare_gt_iff; lia].
  destruct (Z.compare_spec (hour a) (hour b)) as [Eh|Eh|Eh];
    [|apply Z.compare_lt_iff; lia|apply Z.compare_gt_iff; lia].
  destruct (Z.compare_spec (minute a) (minute b)) as [Emi|Emi|Emi];
    [|apply Z.compare_lt_iff; lia|apply Z.compare_gt_iff; lia].
  destruct (Z.compare_spec (second a) (second b)) as [Es|Es|Es];
    [|apply Z.compare_lt_iff; lia|apply Z.compare_gt_iff; lia].
  destruct (Z.compare_spec (microsecond a) (microsecond b)) as [Eu|Eu|Eu];
    [apply Z.compare_eq_iff; lia|apply Z.compare_lt_iff; lia
    |apply Z.compare_gt_iff; lia].
Qed.

Lemma lt_key (a b : datetime) :
  Zone.in_clock_ranges a = true → Zone.in_clock_ranges b = true →
  lt a b = true ↔ Zone.key a < Zone.key b.
Proof.
  intros Ha Hb. unfold lt. rewrite (cmp_key a b Ha Hb).
  destruct (Z.compare_spec (Zone.key a) (Zone.key b)); split; (done || lia).
Qed.

Lemma prefix_le_spec (times : list datetime) (x : datetime) :
  forallb Zone.in_clock_ranges times = true →
  Zone.in_clock_ranges x = true →
  (Zone.prefix_le times x <= length times)%nat
  ∧ (∀ i t, (i < Zone.prefix_le times x)%nat → times !! i = Some t →
            Zone.key t <= Zone.key x)
  ∧ (∀ t, times !! Zone.prefix_le times x = Some t → Zone.key x < Zone.key t).
Proof.
  intros Hranges Hx. induction times as [|t0 times IH]; simpl.
  - split; [lia|]. split; [intros; lia | done].
  - simpl in Hranges. apply andb_true_iff in Hranges as [Ht0 Hranges].
    destruct (IH Hranges) as (IH1 & IH2 & IH3).
    pose proof (lt_key x t0 Hx Ht0) as Hlt.
    destruct (lt x t0) eqn:E.
    + split; [lia|]. split; [intros; lia|].
      intros t [= <-]. by apply Hlt.
    + split; [lia|]. split.
      * intros [|i] t Hi; simpl; [|apply IH2; lia].
        intros [= <-]. destruct (Z.lt_ge_cases (Zone.key x) (Zone.key t0));
          [|lia]. apply Hlt in H. done.
      * intros t Ht. by apply IH3.
Qed.

Lemma midpoint_bounds (lo hi : nat) :
  (lo < hi)%nat → (lo <= (lo + hi) / 2 < hi)%nat.
Proof.
  intros Hlt. split.
  - apply Nat.div_le_lower_bound; lia.
  - apply Nat.Div0.div_lt_upper_bound; lia.
Qed.

Section search.

Context (times : list datetime) (x : datetime).
Context (Hranges : forallb Zone.in_clock_ranges times = true).
Context (Hx : Zone.in_clock_ranges x = true).
Context (Hsorted : Zone.sorted_times times = true).

Lemma times_in_ranges i t : times !! i = Some t → Zone.in_clock_ranges t = true.
Proof.
  intros Hi. rewrite forallb_forall in Hranges.
  by apply Hranges, list_elem_of_In, list_elem_of_lookup_2 with i.
Qed.

Lemma sorted_adjacent i t t' :
  times !! i = Some t → times !! S i = Some t' → Zone.key t < Zone.key t'.
Proof.
  intros Hi Hi'. unfold Zone.sorted_times in Hsorted.
  rewrite forallb_forall in Hsorted.
  apply (lt_key t t'); [by eapply times_in_ranges..|].
  apply (Hsorted (t, t')), list_elem_of_In, list_elem_of_lookup.
  exists i. apply lookup_zip_with_Some. exists t, t'.
  split; [done|]. split; [done|]. by rewrite lookup_tail.
Qed.

Lemma sorted_lookup i j t t' :
  (i < j)%nat → times !! i = Some t → times !! j = Some t' →
  Zone.key t < Zone.key t'.
Proof.
  intros Hij Hi. revert t'. induction j as [|j IH]; [lia|]. intros t' Hj.
  destruct (lookup_lt_is_Some_2 times j) as [t'' Hj''];
    [apply lookup_lt_Some in Hj; lia|].
  pose proof (sorted_adjacent j t'' t' Hj'' Hj).
  destruct (decide (i = j)) as [->|]; [by simplify_eq|].
  specialize (IH ltac:(lia) t'' Hj''). lia.
Qed.

(** The search by halves finds the number of transitions at or before
    [x]. *)
Lemma bisect_loop_spec (fuel : nat) : ∀ lo hi : nat,
  (lo <= Zone.prefix_le times x <= hi)%nat → (hi <= length times)%nat →
  (hi - lo < fuel)%nat →
  bisect_loop fuel times x lo hi = Zone.prefix_le times x.
Proof.
  destruct (prefix_le_spec times x Hranges Hx) as (Hp1 & Hp2 & Hp3).
  induction fuel as [|fuel IH]; intros lo hi Hp Hhi Hfuel; [lia|].
  cbn [bisect_loop].
  destruct (Nat.ltb_spec lo hi) as [Hlt|]; [|lia].
  pose proof (midpoint_bounds lo hi Hlt) as Hmid.
  destruct (lookup_lt_is_Some_2 times ((lo + hi) / 2)) as [y Hy]; [lia|].
  rewrite Hy.
  pose proof (lt_key x y Hx (times_in_ranges _ _ Hy)) as Hlty.
  destruct (lt x y) eqn:E.
  - apply IH; [|lia|lia]. split; [lia|].
    destruct (Nat.le_gt_cases (Zone.prefix_le times x) ((lo + hi) / 2));
      [done|].
    pose proof (Hp2 _ y H Hy). apply proj1 in Hlty. specialize (Hlty eq_refl).
    lia.
  - apply IH; [|lia|lia]. split; [|lia].
    destruct (Nat.le_gt_cases (Zone.prefix_le times x) ((lo + hi) / 2));
      [|lia].
    destruct (lookup_lt_is_Some_2 times (Zone.prefix_le times x)) as [t Ht];
      [lia|].
    pose proof (Hp3 t Ht) as Hxt.
    assert (Zone.key t <= Zone.key y).
    { destruct (decide (Zone.prefix_le times x = (lo + hi) / 2)%nat) as [Heq|];
        [rewrite Heq in Ht; simplify_eq; lia|].
      pose proof (sorted_lookup (Zone.prefix_le times x) ((lo + hi) / 2) t y
                    ltac:(lia) Ht Hy). lia. }
    assert (Zone.key x < Zone.key y) as Hcontra by lia.
    apply Hlty in Hcontra. congruence.
Qed.

Lemma bisect_right_spec : bisect_right times x = Zone.prefix_le times x.
Proof.
  unfold bisect_right.
  destruct (prefix_le_spec times x Hranges Hx) as (Hp1 & _).
  apply bisect_loop_spec; lia.
Qed.

End search.

(** The entry at the index the search gives is the entry the scan of the
    transitions in order arrives at. *)
Lemma scan_prefix_le (times : list datetime) (x : datetime) :
  ∀ (infos : list ttinfo) (current : ttinfo),
    length times = length infos →
    (current :: infos) !! Zone.prefix_le times x
    = Some (Zone.scan times infos x current).
Proof.
  induction times as [|t times IH]; intros [|inf infos] current Hlen;
    simpl in *; try done.
  destruct (lt x t); [done|]. simpl. apply IH. lia.
Qed.

(** [fromutc] shifts the time by the offset of the entry in effect. *)
Lemma fromutc_in_effect (tz : tzinfo) (x t0 : datetime) (i0 : ttinfo)
    (times : list datetime) (infos : list ttinfo) :
  utc_transition_times tz = t0 :: times →
  transition_info tz = i0 :: infos →
  length times = length infos →
  forallb Zone.in_clock_ranges (t0 :: times) = true →
  Zone.sorted_times (t0 :: times) = true →
  Zone.in_clock_ranges x = true →
  Zone.key t0 <= Zone.key x →
  fromutc tz x
  = (local ← add x (new_timedelta 0 0 0
                      (utcoffset (Zone.scan times infos x i0)) 0);
     Ok (local, Zone.scan times infos x i0)).
Proof.
  intros Htimes Hinfos Hlen Hranges Hsorted Hx Ht0. unfold fromutc.
  rewrite Htimes, Hinfos, (bisect_right_spec _ _ Hranges Hx Hsorted).
  simpl Zone.prefix_le.
  simpl in Hranges. apply andb_true_iff in Hranges as [Hr0 _].
  destruct (lt x t0) eqn:E.
  { apply (lt_key x t0 Hx Hr0) in E. lia. }
  replace (Z.to_nat (Z.max 0 (Z.of_nat (S (Zone.prefix_le times x)) - 1)))
    with (Zone.prefix_le times x) by lia.
  by rewrite (scan_prefix_le times x infos i0 Hlen).
Qed.

Lemma scan_elem (times : list datetime) (x : datetime) :
  ∀ (infos : list ttinfo) (current : ttinfo),
    Zone.scan times infos x current = current
    ∨ Zone.scan times infos x current ∈ infos.
Proof.
  induction times as [|t times IH]; intros [|inf infos] current; simpl;
    try by left.
  destruct (lt x t); [by left|].
  destruct (IH infos inf) as [->|Hin]; right; [by left | by right].
Qed.

Lemma US_Eastern_offsets (x : datetime) :
  Zone.offset_ok (Zone.in_effect x) = true.
Proof.
  assert (Hall : forallb Zone.offset_ok (transition_info US_Eastern) = true)
    by (vm_compute; reflexivity).
  rewrite forallb_forall in Hall. unfold Zone.in_effect.
  destruct (scan_elem (tail (utc_transition_times US_Eastern)) x
              (tail (transition_info US_Eastern)) (mk_ttinfo (-17760) "LMT"))
    as [->|Hin]; [reflexivity|].
  apply Hall, list_elem_of_In.
  change (transition_info US_Eastern)
    with (mk_ttinfo (-17760) "LMT" :: tail (transition_info US_Eastern)).
  by right.
Qed.

Lemma US_Eastern_fromutc (x : datetime) :
  Zone.in_clock_ranges x = true → 1 <= year x →
  fromutc US_Eastern x
  = (local ← add x (new_timedelta 0 0 0 (utcoffset (Zone.in_effect x)) 0);
     Ok (local, Zone.in_effect x)).
Proof.
  intros Hx Hy. unfold Zone.in_effect.
  apply (fromutc_in_effect US_Eastern x (mk_datetime 1 1 1 0 0 0 0)).
  - reflexivity.
  - reflexivity.
  - vm_compute. reflexivity.
  - vm_compute. reflexivity.
  - vm_compute. reflexivity.
  - done.
  - unfold Zone.in_clock_ranges in Hx. rewrite !andb_true_iff, !Z.leb_le in Hx.
    unfold Zone.key. simpl. lia.
Qed.

End zone.

(** ** The exceptions of the job *)

Section exceptions.

Import Spec.

Create HintDb exc.

Lemma only_Exception_bind {A B} (m : result A) (f : A → result B) :
  only_Exception m → (∀ a, m = Ok a → only_Exception (f a)) →
  only_Exception (m ≫= f).
Proof. destruct m; simpl; auto. Qed.

Lemma only_Exception_Ok {A} (a : A) : only_Exception (Ok a).
Proof. exact I. Qed.

Lemma only_Exception_raise {A} (c : exn_class) (msg : string) :
  is_Exception c = true → only_Exception (raise (A:=A) c msg).
Proof. done. Qed.

Ltac exc :=
  repeat first
    [ apply only_Exception_Ok
    | apply only_Exception_raise; reflexivity
    | solve [auto with exc]
    | apply only_Exception_bind; [|intros ? ?]
    | match goal with
      | |- only_Exception (match ?x with _ => _ end) => destruct x eqn:?
      | |- only_Exception (if ?b then _ else _) => destruct b eqn:?
      end ].

Lemma not_subscriptable_exc {A} v : only_Exception (not_subscriptable (A:=A) v).
Proof. unfold not_subscriptable. exc. Qed.

Hint Resolve not_subscriptable_exc : exc.

Lemma get_exc v k d : only_Exception (get v k d).
Proof. destruct v; simpl; exc. Qed.

Lemma index0_exc v : only_Exception (index0 v).
Proof. destruct v as [| | | |[]|[]|]; simpl; exc. Qed.

Lemma getitem_exc v k : only_Exception (getitem v k).
Proof. destruct v; simpl; exc. Qed.

Lemma iter_exc v : only_Exception (iter v).
Proof. destruct v; simpl; exc. Qed.

Lemma lower_exc v : only_Exception (lower v).
Proof. destruct v; simpl; exc. Qed.

Hint Resolve get_exc index0_exc getitem_exc iter_exc lower_exc : exc.

Lemma subscripts_exc keys : ∀ v, only_Exception (MLBAPI.subscripts v keys).
Proof. induction keys; intros v; simpl; exc. Qed.

Lemma check_date_fields_exc y m d :
  only_Exception (Datetime.check_date_fields y m d).
Proof. unfold Datetime.check_date_fields. exc. Qed.

Lemma check_time_fields_exc hh mm ss us :
  only_Exception (Datetime.check_time_fields hh mm ss us).
Proof. unfold Datetime.check_time_fields. exc. Qed.

Hint Resolve subscripts_exc check_date_fields_exc check_time_fields_exc : exc.

Lemma new_exc y m d hh mm ss us :
  only_Exception (Datetime.new y m d hh mm ss us).
Proof. unfold Datetime.new. exc. Qed.

Lemma add_exc dt td : only_Exception (Datetime.add dt td).
Proof. unfold Datetime.add. exc. Qed.

Lemma int_exc s : only_Exception (Strptime.int s).
Proof. unfold Strptime.int. exc. Qed.

Lemma group_exc g k : only_Exception (Strptime.group g k).
Proof. unfold Strptime.group. exc. Qed.

Hint Resolve new_exc add_exc int_exc group_exc : exc.

Lemma strptime_exc s format : only_Exception (Strptime.strptime s format).
Proof. unfold Strptime.strptime. exc. Qed.

Lemma fromutc_exc tz dt : only_Exception (Pytz.fromutc tz dt).
Proof. unfold Pytz.fromutc. exc. Qed.

Hint Resolve strptime_exc fromutc_exc : exc.

Lemma convert_utc_to_est_exc v : only_Exception (MLBAPI.convert_utc_to_est v).
Proof.
  unfold MLBAPI.convert_utc_to_est, MLBAPI.astimezone_from_utc.
  destruct v; exc.
Qed.

Lemma get_utc_start_and_end_exc w :
  only_Exception (MLBAPI.get_utc_start_and_end w).
Proof. unfold MLBAPI.get_utc_start_and_end. exc. Qed.

Lemma get_current_est_date_exc w :
  only_Exception (MLBAPI.get_current_est_date w).
Proof. unfold MLBAPI.get_current_est_date. exc. Qed.

Lemma raise_for_status_exc url r : only_Exception (Http.raise_for_status url r).
Proof. unfold Http.raise_for_status. exc. Qed.

Hint Resolve convert_utc_to_est_exc get_utc_start_and_end_exc
  get_current_est_date_exc raise_for_status_exc : exc.

Lemma match_event_exc game_info event :
  only_Exception (MLBAPI.match_event game_info event).
Proof. unfold MLBAPI.match_event. exc. Qed.

Hint Resolve match_event_exc : exc.

Lemma match_events_exc events :
  ∀ game_info, only_Exception (MLBAPI.match_events events game_info).
Proof. induction events; intros game_info; simpl; exc. Qed.

Hint Resolve match_events_exc : exc.

Lemma build_game_info_exc events game :
  only_Exception (MLBAPI.build_game_info events game).
Proof. unfold MLBAPI.build_game_info. exc. Qed.

Hint Resolve build_game_info_exc : exc.

Lemma build_all_exc events games :
  only_Exception (MLBAPI.build_all events games).
Proof. induction games; simpl; exc. Qed.

Lemma first_date_games_exc data :
  only_Exception (MLBAPI.first_date_games data).
Proof. unfold MLBAPI.first_date_games. exc. Qed.

Hint Resolve build_all_exc first_date_games_exc : exc.

Context (w : world) (Hw : outside_raises_Exception w).

Lemma get_schedule_exc sport_id :
  only_Exception (MLBAPI.get_schedule w sport_id).
Proof.
  unfold MLBAPI.get_schedule. exc.
  - apply (http_get_raises w Hw).
  - eapply (json_raises w Hw); eassumption.
Qed.

Lemma fetch_events_exc cfg : only_Exception (MLBAPI.fetch_events cfg w).
Proof.
  unfold MLBAPI.fetch_events. exc.
  - apply (http_get_raises w Hw).
  - eapply (json_raises w Hw); eassumption.
Qed.

Hint Resolve get_schedule_exc fetch_events_exc : exc.

Lemma process_game_data_exc cfg data :
  only_Exception (MLBAPI.process_game_data cfg w data).
Proof. unfold MLBAPI.process_game_data. exc. Qed.

(** The [try] block of [main] raises exceptions of class [Exception]
    only. *)
Lemma main_try_exc cfg tr tr' e :
  main_try cfg w tr = (tr', Raise e) → is_Exception (exn_cls e) = true.
Proof.
  unfold main_try, seq, perform, pure, save_schedule, print.
  pose proof (delete_raises w Hw MLBAPI.BUCKET_NAME "mlb_schedule.json") as Hd.
  destruct (delete_from_s3 w _ _); [|by intros [= _ <-]].
  pose proof (get_schedule_exc 1) as Hs.
  destruct (MLBAPI.get_schedule w 1) as [data|]; [|by intros [= _ <-]].
  pose proof (process_game_data_exc cfg data) as Hp.
  destruct (MLBAPI.process_game_data cfg w data) as [games|];
    [|by intros [= _ <-]].
  pose proof (file_write_raises w Hw "/tmp/mlb_schedule.json" games) as Hf.
  destruct (file_write w _ _); [|by intros [= _ <-]].
  pose proof (upload_raises w Hw "/tmp/mlb_schedule.json" MLBAPI.BUCKET_NAME
                "mlb_schedule.json") as Hu.
  destruct (upload_to_s3 w _ _ _); [|by intros [= _ <-]].
  pose proof (stdout_raises w Hw "Schedule fetched and saved successfully.")
    as Ho.
  destruct (stdout_write w _); [done | by intros [= _ <-]].
Qed.

End exceptions.

(** ** [convert_utc_to_est] on the timestamps of the strict form *)

Section convert.

Import Datetime.

Lemma ymd2ord_after_first (y m d : Z) :
  1 <= y → 1 <= m <= 12 → 1 <= d <= days_in_month y m →
  (y, m, d) ≠ (1, 1, 1) → 2 <= ymd2ord y m d.
Proof.
  intros Hy Hm Hd Hne. unfold ymd2ord.
  destruct (Z.eq_dec y 1) as [->|].
  - change (days_before_year 1) with 0.
    destruct (Z.eq_dec m 1) as [->|].
    + assert (d ≠ 1) by (intros ->; done).
      unfold days_before_month. simpl. lia.
    + assert (31 <= days_before_month 1 m); [|lia].
      unfold days_before_month.
      assert (Hcases : m = 2 ∨ m = 3 ∨ m = 4 ∨ m = 5 ∨ m = 6 ∨ m = 7
                       ∨ m = 8 ∨ m = 9 ∨ m = 10 ∨ m = 11 ∨ m = 12) by lia.
      destruct Hcases as [->|[->|[->|[->|[->|[->|[->|[->|[->|[->| ->]]]]]]]]]];
        simpl; lia.
  - pose proof (days_before_next_year (y - 1)) as Hnext.
    replace (y - 1 + 1) with y in Hnext by lia.
    pose proof (days_before_year_min (y - 1)).
    pose proof (days_before_month_bounds y m d Hm Hd).
    destruct (is_leap (y - 1)); lia.
Qed.

Lemma new_timedelta_seconds (s : Z) :
  new_timedelta 0 0 0 s 0 = mk_timedelta (s / 86400) (s mod 86400) 0.
Proof.
  unfold new_timedelta. change (0 / 1000000) with 0.
  change (0 mod 1000000) with 0. change (0 * 3600) with 0.
  change (0 * 60) with 0. by rewrite !Z.add_0_l, Z.add_0_r.
Qed.

(** Taking nothing off a time leaves the time. *)
Lemma add_zero (dt : datetime) :
  valid_datetime dt → add dt (new_timedelta 0 0 0 0 0) = Ok dt.
Proof.
  destruct dt as [y m d hh mm ss us].
  unfold valid_datetime, MINYEAR, MAXYEAR. simpl.
  intros (Hy & Hm & Hd & Hhh & Hmm & Hss & Hus).
  pose proof (ymd2ord_bounds y m d Hy Hm Hd) as Hord.
  rewrite new_timedelta_seconds. change (0 / 86400) with 0.
  change (0 mod 86400) with 0.
  rewrite add_eq by (simpl; lia). unfold toordinal. simpl.
  rewrite !Z.add_0_r.
  rewrite (Z.div_small (_ + ss)), (Z.mod_small (_ + ss)) by lia.
  rewrite Z.add_0_r.
  destruct (Z.ltb_spec 0 (ymd2ord y m d)); [|lia].
  destruct (Z.leb_spec (ymd2ord y m d) MAXORDINAL); [|lia]. simpl.
  rewrite ord2ymd_ymd2ord by done.
  do 2 f_equal; Z.div_mod_to_equations; lia.
Qed.

(** The hour and the minute of a time shifted by whole minutes. *)
Lemma shifted_clock (hh mm ss off : Z) :
  0 <= hh <= 23 → 0 <= mm <= 59 → 0 <= ss <= 59 → off mod 60 = 0 →
  let secs := (hh * 3600 + mm * 60 + ss + off mod 86400) mod 86400 in
  let local := (hh * 60 + mm + off / 60) mod 1440 in
  secs / 3600 = local / 60 ∧ secs mod 3600 / 60 = local mod 60.
Proof.
  intros Hhh Hmm Hss Hoff. cbv zeta.
  assert (Hsecs : (hh * 3600 + mm * 60 + ss + off mod 86400) mod 86400
                  = 60 * ((hh * 60 + mm + off / 60) mod 1440) + ss).
  { Z.div_mod_to_equations. lia. }
  rewrite Hsecs.
  pose proof (Z.mod_pos_bound (hh * 60 + mm + off / 60) 1440 ltac:(lia)).
  set (local := (hh * 60 + mm + off / 60) mod 1440) in *.
  split; Z.div_mod_to_equations; lia.
Qed.

(** A strict timestamp of a date and a time that exist, after the first
    day of the calendar, is displayed as the wall clock of US/Eastern at
    that time. *)
Lemma convert_utc_to_est_strict (y m d hh mm ss : Z) :
  valid_datetime (mk_datetime y m d hh mm ss 0) → (y, m, d) ≠ (1, 1, 1) →
  MLBAPI.convert_utc_to_est (PStr (Cal.iso_z (mk_datetime y m d hh mm ss 0)))
  = Ok (Zone.est_display (mk_datetime y m d hh mm ss 0)).
Proof.
  intros Hvalid Hfirst. unfold MLBAPI.convert_utc_to_est.
  rewrite strptime_iso_z, bind_Ok by done.
  unfold MLBAPI.astimezone_from_utc. rewrite add_zero, bind_Ok by done.
  set (dt := mk_datetime y m d hh mm ss 0) in *.
  unfold valid_datetime, MINYEAR, MAXYEAR in Hvalid. simpl in Hvalid.
  destruct Hvalid as (Hy & Hm & Hd & Hhh & Hmm & Hss & Hus).
  assert (Hd31 : d <= 31).
  { unfold days_in_month in Hd.
    destruct ((m =? 2) && is_leap y); [lia|].
    assert (Hcases : m = 1 ∨ m = 2 ∨ m = 3 ∨ m = 4 ∨ m = 5 ∨ m = 6 ∨ m = 7
                     ∨ m = 8 ∨ m = 9 ∨ m = 10 ∨ m = 11 ∨ m = 12) by lia.
    destruct Hcases as [->|[->|[->|[->|[->|[->|[->|[->|[->|[->|[->| ->]]]]]]]]]]];
      simpl in Hd; lia. }
  rewrite US_Eastern_fromutc.
  2:{ unfold Zone.in_clock_ranges. simpl.
      rewrite !andb_true_iff, !Z.leb_le. lia. }
  2:{ simpl. lia. }
  pose proof (US_Eastern_offsets dt) as Hoff.
  unfold Zone.offset_ok in Hoff.
  rewrite !andb_true_iff, Z.ltb_lt, Z.leb_le, Z.eqb_eq in Hoff.
  destruct Hoff as [[Hoff1 Hoff2] Hoff3].
  set (off := Pytz.utcoffset (Zone.in_effect dt)) in *.
  rewrite new_timedelta_seconds.
  rewrite add_eq; [|simpl; lia|simpl; lia|simpl|reflexivity].
  2:{ apply Z.mod_pos_bound. lia. }
  pose proof (ymd2ord_bounds y m d ltac:(done) Hm Hd) as Hord.
  pose proof (ymd2ord_after_first y m d ltac:(lia) Hm Hd Hfirst) as Hord2.
  unfold toordinal. simpl.
  set (total := hh * 3600 + mm * 60 + ss + off mod 86400).
  assert (Hdays : ymd2ord y m d - 1 <= ymd2ord y m d + off / 86400
                                        + total / 86400 <= ymd2ord y m d).
  { unfold total. Z.div_mod_to_equations. lia. }
  destruct (Z.ltb_spec 0 (ymd2ord y m d + off / 86400 + total / 86400));
    [|lia].
  destruct (Z.leb_spec (ymd2ord y m d + off / 86400 + total / 86400)
              MAXORDINAL); [|lia].
  simpl. destruct (ord2ymd _) as [[y' m'] d']. rewrite bind_Ok. simpl.
  unfold strftime_est, Zone.est_display, Zone.local_minute. simpl.
  fold off. unfold total.
  destruct (shifted_clock hh mm ss off Hhh Hmm Hss Hoff3) as [-> ->].
  reflexivity.
Qed.

End convert.

Section convert_rejects.

Lemma convert_rejects (s : string) :
  ¬ Lang.matches Lang.iso_pattern s →
  ∃ msg, MLBAPI.convert_utc_to_est (PStr s) = raise ValueError msg.
Proof.
  intros Hno.
  destruct (strptime_rejects s "%Y-%m-%dT%H:%M:%SZ" Lang.iso_pattern
              eq_refl Hno) as [msg Hmsg].
  exists msg. unfold MLBAPI.convert_utc_to_est. by rewrite Hmsg.
Qed.

Lemma convert_label (s t : string) :
  MLBAPI.convert_utc_to_est (PStr s) = Ok t →
  ∃ h mi, t = "EST " +:+ fmt2 h +:+ ":" +:+ fmt2 mi.
Proof.
  unfold MLBAPI.convert_utc_to_est.
  destruct (Strptime.strptime s _) as [utc_time|]; [|done].
  rewrite bind_Ok.
  destruct (MLBAPI.astimezone_from_utc utc_time _) as [est_time|]; [|done].
  rewrite bind_Ok. intros [= <-].
  by exists (Datetime.hour est_time.1), (Datetime.minute est_time.1).
Qed.

End convert_rejects.

(** ** The properties of the specification *)

(** C1.  When two or more events match the home team of a game, letter
    case apart, the record of the game carries the [id] of the last of
    them in the order of the event list: here the event at position [j]
    matches, an earlier one at [j0] matches as well, and none after [j]
    does. *)
Theorem last_match_wins cfg w data games events i game home j0 e0 j e :
  Spec.schedule_games data = Some games →
  forallb Spec.valid_game games = true →
  MLBAPI.fetch_events cfg w = Ok (PList events) →
  forallb Spec.is_odds_event events = true →
  games !! i = Some game → Spec.game_home game = Some home →
  events !! j0 = Some e0 → Spec.home_matches home e0 = true → (j0 < j)%nat →
  events !! j = Some e → Spec.home_matches home e = true →
  forallb (λ e', negb (Spec.home_matches home e')) (drop (S j) events) = true →
  ∃ records r id,
    MLBAPI.process_game_data cfg w data = Ok records
    ∧ records !! i = Some r
    ∧ Spec.event_id e = Some id ∧ r !! "id" = Some id.
Proof.
  intros Hdata Hvalid Hfetch Hev Hi Hhome _ _ _ Hj Hm Hafter.
  destruct (process_game_data_spec cfg w data games events)
    as (records & Hrun & Hrec); [done.. | by apply odds_events_ok |].
  destruct (Forall2_lookup_l _ _ _ _ _ Hrec Hi) as (r & Hr & Hof).
  assert (Hid : is_Some (Spec.event_id e)).
  { rewrite forallb_forall in Hev.
    apply list_elem_of_lookup_2, list_elem_of_In, Hev in Hj.
    unfold Spec.is_odds_event in Hj.
    destruct (Spec.event_home e); [|done].
    by destruct (Spec.event_id e). }
  destruct Hid as [id Hid]. exists records, r, id.
  repeat split; try done.
  rewrite (is_record_of_home _ _ _ _ Hof Hhome).
  rewrite (last_match_after _ _ _ _ Hj Hm Hafter). by simpl.
Qed.

Lemma last_match_wins_witness :
  ∃ records r id,
    MLBAPI.process_game_data Sample.cfg Sample.run
      (Sample.schedule Sample.games) = Ok records
    ∧ records !! 1%nat = Some r
    ∧ Spec.event_id Sample.ev_yankees_2 = Some id ∧ r !! "id" = Some id.
Proof.
  apply (last_match_wins Sample.cfg Sample.run (Sample.schedule Sample.games)
           Sample.games Sample.events 1%nat Sample.yankees "New York Yankees"
           0%nat Sample.ev_yankees_1 2%nat Sample.ev_yankees_2);
    first [ lia | reflexivity ].
Defined.

(** C5.  On a valid schedule response with N games, when no event of the
    list matches the home team of a game, the run builds N records and
    none of them holds the key [id]. *)
Theorem no_match_no_id cfg w data games events :
  Spec.schedule_games data = Some games →
  forallb Spec.valid_game games = true →
  MLBAPI.fetch_events cfg w = Ok (PList events) →
  forallb Spec.has_home_team events = true →
  Spec.no_match games events = true →
  ∃ records,
    MLBAPI.process_game_data cfg w data = Ok records
    ∧ length records = length games
    ∧ ∀ r : game_record, r ∈ records → r !! "id" = None.
Proof.
  intros Hdata Hvalid Hfetch Hev Hno.
  destruct (process_game_data_spec cfg w data games events)
    as (records & Hrun & Hrec); [done.. | by apply no_match_events_ok |].
  exists records. split; [done|]. split; [by rewrite (Forall2_length _ _ _ Hrec)|].
  intros r [i Hi]%list_elem_of_lookup.
  destruct (Forall2_lookup_r _ _ _ _ _ Hrec Hi) as (game & Hgame & Hof).
  destruct Hof as (g & t & Hg & Ht & ->).
  rewrite expected_record_id.
  destruct (Spec.last_match (Spec.home_name g) events) as [e|] eqn:Hl; [|done].
  apply last_match_elem in Hl as [Hin Hm].
  unfold Spec.no_match in Hno. rewrite forallb_forall in Hno.
  apply list_elem_of_lookup_2, list_elem_of_In, Hno in Hgame.
  rewrite forallb_forall in Hgame.
  apply list_elem_of_In, Hgame in Hin.
  unfold Spec.matches_game, Spec.game_home in Hin. rewrite Hg in Hin.
  simpl in Hin. by rewrite Hm in Hin.
Qed.

Lemma no_match_no_id_witness :
  ∃ records,
    MLBAPI.process_game_data Sample.cfg
      (Sample.world_of (Sample.schedule Sample.games)
         (PList [Sample.ev_dodgers; PDict {[ "home_team" := PStr "Boston Red Sox" ]}]))
      (Sample.schedule Sample.games) = Ok records
    ∧ length records = 3%nat
    ∧ ∀ r : game_record, r ∈ records → r !! "id" = None.
Proof.
  apply (no_match_no_id Sample.cfg
           (Sample.world_of (Sample.schedule Sample.games)
              (PList [Sample.ev_dodgers;
                      PDict {[ "home_team" := PStr "Boston Red Sox" ]}]))
           (Sample.schedule Sample.games) Sample.games
           [Sample.ev_dodgers; PDict {[ "home_team" := PStr "Boston Red Sox" ]}]);
    reflexivity.
Defined.

(** C6.  Two games of one run whose home teams are equal up to case get
    the same [id]: the [id] of the last event of the list that matches
    their home team when an event matches it, and no [id] only when no
    event does. *)
Theorem same_home_same_id cfg w data games events i1 i2 game1 game2 home1 home2 :
  Spec.schedule_games data = Some games →
  forallb Spec.valid_game games = true →
  MLBAPI.fetch_events cfg w = Ok (PList events) →
  forallb Spec.is_odds_event events = true →
  games !! i1 = Some game1 → games !! i2 = Some game2 →
  Spec.game_home game1 = Some home1 → Spec.game_home game2 = Some home2 →
  lower_str home1 = lower_str home2 →
  ∃ records (r1 r2 : game_record),
    MLBAPI.process_game_data cfg w data = Ok records
    ∧ records !! i1 = Some r1 ∧ records !! i2 = Some r2
    ∧ r1 !! "id" = r2 !! "id"
    ∧ (∀ e, Spec.last_match home1 events = Some e →
         ∃ id, Spec.event_id e = Some id
               ∧ r1 !! "id" = Some id ∧ r2 !! "id" = Some id)
    ∧ (existsb (Spec.home_matches home1) events = true →
       is_Some (r1 !! "id") ∧ is_Some (r2 !! "id"))
    ∧ (existsb (Spec.home_matches home1) events = false →
       r1 !! "id" = None ∧ r2 !! "id" = None).
Proof.
  intros Hdata Hvalid Hfetch Hev H1 H2 Hh1 Hh2 Hlower.
  destruct (process_game_data_spec cfg w data games events)
    as (records & Hrun & Hrec); [done.. | by apply odds_events_ok |].
  destruct (Forall2_lookup_l _ _ _ _ _ Hrec H1) as (r1 & Hr1 & Hof1).
  destruct (Forall2_lookup_l _ _ _ _ _ Hrec H2) as (r2 & Hr2 & Hof2).
  exists records, r1, r2.
  pose proof (is_record_of_home _ _ _ _ Hof1 Hh1) as Hid1.
  pose proof (is_record_of_home _ _ _ _ Hof2 Hh2) as Hid2.
  rewrite <- (last_match_lower _ _ _ Hlower) in Hid2.
  pose proof (last_match_exists home1 events) as Hex.
  split; [done|]. split; [done|]. split; [done|].
  split; [congruence|].
  destruct (Spec.last_match home1 events) as [e|] eqn:Hlast.
  - destruct (last_match_elem _ _ _ Hlast) as [Hin _].
    rewrite forallb_forall in Hev.
    specialize (Hev e (proj1 (list_elem_of_In _ _) Hin)).
    unfold Spec.is_odds_event in Hev.
    destruct (Spec.event_home e); [|done].
    simpl in Hid1, Hid2.
    destruct (Spec.event_id e) as [id|] eqn:Hid; [|done].
    assert (Hyes : existsb (Spec.home_matches home1) events = true)
      by (apply Hex; by eexists).
    split; [|split].
    + intros e' [= <-]. by exists id.
    + intros _. rewrite Hid1, Hid2. by split; eexists.
    + intros Hno. congruence.
  - simpl in Hid1, Hid2. split; [done|]. split; [|done].
    intros Hyes. apply Hex in Hyes. by destruct Hyes.
Qed.

Lemma same_home_same_id_witness :
  ∃ records (r1 r2 : game_record),
    MLBAPI.process_game_data Sample.cfg Sample.run
      (Sample.schedule Sample.games) = Ok records
    ∧ records !! 1%nat = Some r1 ∧ records !! 2%nat = Some r2
    ∧ r1 !! "id" = Some (PStr "e2") ∧ r2 !! "id" = Some (PStr "e2").
Proof.
  destruct (same_home_same_id Sample.cfg Sample.run
              (Sample.schedule Sample.games) Sample.games Sample.events
              1%nat 2%nat Sample.yankees Sample.yankees_late
              "New York Yankees" "New York Yankees")
    as (records & r1 & r2 & Hrun & H1 & H2 & _ & Hlast & _); try reflexivity.
  destruct (Hlast Sample.ev_yankees_2 eq_refl) as (id & Hid & Hr1 & Hr2).
  assert (Hid2 : Spec.event_id Sample.ev_yankees_2 = Some (PStr "e2"))
    by reflexivity.
  rewrite Hid2 in Hid. injection Hid as <-.
  exists records, r1, r2.
  exact (conj Hrun (conj H1 (conj H2 (conj Hr1 Hr2)))).
Defined.

(** C7.  The records come in the order of the games of the first date
    entry: the record at position [i] holds the fields of the game at
    position [i], and there are as many records as games. *)
Theorem records_in_schedule_order cfg w data games events :
  Spec.schedule_games data = Some games →
  forallb Spec.valid_game games = true →
  MLBAPI.fetch_events cfg w = Ok (PList events) →
  forallb Spec.is_odds_event events = true →
  ∃ records,
    MLBAPI.process_game_data cfg w data = Ok records
    ∧ length records = length games
    ∧ ∀ i game, games !! i = Some game →
        ∃ (r : game_record) g,
          records !! i = Some r ∧ Spec.game_view game = Some g
          ∧ r !! "date" = Some (PStr (Spec.gameDate g))
          ∧ r !! "time" = PStr <$> Spec.game_time g
          ∧ r !! "away_team" = Some (Spec.away_name g)
          ∧ r !! "home_team" = Some (PStr (Spec.home_name g))
          ∧ r !! "venue" = Some (Spec.venue_name g).
Proof.
  intros Hdata Hvalid Hfetch Hev.
  destruct (process_game_data_spec cfg w data games events)
    as (records & Hrun & Hrec); [done.. | by apply odds_events_ok |].
  exists records. split; [done|]. split; [by rewrite (Forall2_length _ _ _ Hrec)|].
  intros i game Hi.
  destruct (Forall2_lookup_l _ _ _ _ _ Hrec Hi) as (r & Hr & Hof).
  destruct Hof as (g & t & Hg & Ht & ->).
  exists (Spec.expected_record events g t), g.
  rewrite Ht, !expected_record_fields by done. by repeat split.
Qed.

Lemma records_in_schedule_order_witness :
  ∃ records,
    MLBAPI.process_game_data Sample.cfg Sample.run
      (Sample.schedule Sample.games) = Ok records
    ∧ length records = 3%nat
    ∧ ∀ i game, Sample.games !! i = Some game →
        ∃ (r : game_record) g,
          records !! i = Some r ∧ Spec.game_view game = Some g
          ∧ r !! "date" = Some (PStr (Spec.gameDate g))
          ∧ r !! "time" = PStr <$> Spec.game_time g
          ∧ r !! "away_team" = Some (Spec.away_name g)
          ∧ r !! "home_team" = Some (PStr (Spec.home_name g))
          ∧ r !! "venue" = Some (Spec.venue_name g).
Proof.
  apply (records_in_schedule_order Sample.cfg Sample.run
           (Sample.schedule Sample.games) Sample.games Sample.events);
    reflexivity.
Defined.

(** C9.  Whatever the events, and however many of them match a game, the
    run returns as many records as the first date entry has games. *)
Theorem one_record_per_game cfg w data games events :
  Spec.schedule_games data = Some games →
  forallb Spec.valid_game games = true →
  MLBAPI.fetch_events cfg w = Ok (PList events) →
  forallb Spec.is_odds_event events = true →
  ∃ records,
    MLBAPI.process_game_data cfg w data = Ok records
    ∧ length records = length games.
Proof.
  intros Hdata Hvalid Hfetch Hev.
  destruct (process_game_data_spec cfg w data games events)
    as (records & Hrun & Hrec); [done.. | by apply odds_events_ok |].
  exists records. split; [done|]. by rewrite (Forall2_length _ _ _ Hrec).
Qed.

Lemma one_record_per_game_witness :
  ∃ records,
    MLBAPI.process_game_data Sample.cfg Sample.run
      (Sample.schedule Sample.games) = Ok records
    ∧ length records = 3%nat.
Proof.
  apply (one_record_per_game Sample.cfg Sample.run
           (Sample.schedule Sample.games) Sample.games Sample.events);
    reflexivity.
Defined.

(** C10.  The outcome of a run depends on the events through their
    [home_team] and [id] only: two runs on one response whose event lists
    agree on these two fields, event by event, have the same outcome,
    records and errors alike. *)
Theorem events_other_fields_ignored cfg1 cfg2 w1 w2 data events1 events2 :
  MLBAPI.fetch_events cfg1 w1 = Ok (PList events1) →
  MLBAPI.fetch_events cfg2 w2 = Ok (PList events2) →
  Forall2 Spec.events_agree events1 events2 →
  MLBAPI.process_game_data cfg1 w1 data = MLBAPI.process_game_data cfg2 w2 data.
Proof.
  intros H1 H2 Hagree. unfold MLBAPI.process_game_data.
  destruct (MLBAPI.first_date_games data) as [games|]; [|done].
  rewrite !bind_Ok, H1, H2, !bind_Ok.
  destruct (iter games) as [game_list|]; [|done].
  rewrite !bind_Ok. by apply build_all_agree.
Qed.

Lemma events_other_fields_ignored_witness :
  MLBAPI.process_game_data Sample.cfg Sample.run (Sample.schedule Sample.games)
  = MLBAPI.process_game_data Sample.cfg Sample.run_other
      (Sample.schedule Sample.games).
Proof.
  apply (events_other_fields_ignored Sample.cfg Sample.cfg Sample.run
           Sample.run_other (Sample.schedule Sample.games)
           Sample.events Sample.events_other);
    [reflexivity | reflexivity |].
  repeat constructor; eexists _, _; repeat split; reflexivity.
Defined.

(** C2 as the code has it.  On a response whose [dates] is the empty
    list, or is missing, the run raises [IndexError], the out-of-range
    fault of the index [[0]], before it asks for the events; [main] then
    reports it, on a stream that takes the line, and ends. *)
Theorem empty_dates_IndexError cfg w (dm : gmap string pyval) :
  default (PList []) (dm !! "dates") = PList [] →
  MLBAPI.process_game_data cfg w (PDict dm)
  = raise IndexError "list index out of range"
  ∧ ∀ tr,
      delete_from_s3 w MLBAPI.BUCKET_NAME "mlb_schedule.json" = Ok tt →
      MLBAPI.get_schedule w 1 = Ok (PDict dm) →
      stdout_write w "An error occurred: list index out of range" = Ok tt →
      main cfg w tr
      = ((tr ++ [Deleted MLBAPI.BUCKET_NAME "mlb_schedule.json";
                 Printed "An error occurred: list index out of range"])%list,
         Ok tt).
Proof.
  intros Hdates.
  assert (Hrun : MLBAPI.process_game_data cfg w (PDict dm)
                 = raise IndexError "list index out of range").
  { unfold MLBAPI.process_game_data, MLBAPI.first_date_games. simpl get.
    by rewrite bind_Ok, Hdates. }
  split; [done|]. intros tr Hdel Hsched Hout.
  unfold main, try_except_Exception, main_try, seq, perform, pure.
  rewrite Hdel, Hsched, Hrun. simpl.
  unfold main_except, print, perform.
  change (stdout_write w _)
    with (stdout_write w "An error occurred: list index out of range").
  rewrite Hout. by rewrite <- app_assoc.
Qed.

Lemma empty_dates_IndexError_witness :
  MLBAPI.process_game_data Sample.cfg
    (Sample.world_of Sample.no_dates (PList Sample.events)) Sample.no_dates
  = raise IndexError "list index out of range"
  ∧ ∀ tr,
      delete_from_s3 (Sample.world_of Sample.no_dates (PList Sample.events))
        MLBAPI.BUCKET_NAME "mlb_schedule.json" = Ok tt →
      MLBAPI.get_schedule (Sample.world_of Sample.no_dates (PList Sample.events)) 1
      = Ok Sample.no_dates →
      stdout_write (Sample.world_of Sample.no_dates (PList Sample.events))
        "An error occurred: list index out of range" = Ok tt →
      main Sample.cfg (Sample.world_of Sample.no_dates (PList Sample.events)) tr
      = ((tr ++ [Deleted MLBAPI.BUCKET_NAME "mlb_schedule.json";
                 Printed "An error occurred: list index out of range"])%list,
         Ok tt).
Proof.
  apply (empty_dates_IndexError Sample.cfg
           (Sample.world_of Sample.no_dates (PList Sample.events))
           {[ "dates" := PList [] ]}).
  reflexivity.
Defined.

(** C2 as stated fails: on a response with [dates: []] the exception is
    an [IndexError], which is none of the error kinds of the
    specification. *)
Lemma empty_dates_not_classified :
  ∃ e,
    MLBAPI.process_game_data Sample.cfg
      (Sample.world_of Sample.no_dates (PList Sample.events)) Sample.no_dates
    = Raise e
    ∧ exn_cls e = IndexError ∧ Spec.classified (exn_cls e) = false.
Proof. by eexists. Qed.

(** C8 as the code has it.  [main] catches every exception of class
    [Exception] that its [try] block raises, and the stages raise no
    other when the outside raises no other; it prints the message after
    the words "An error occurred:", and when that line is printed it
    returns as it does after a run without error.  On a stream that
    takes every line nothing is raised to the caller. *)
Theorem main_catches_every_Exception cfg w tr :
  (∀ tr', main_try cfg w tr = (tr', Ok tt) → main cfg w tr = (tr', Ok tt))
  ∧ (∀ tr' e, main_try cfg w tr = (tr', Raise e) →
       is_Exception (exn_cls e) = true →
       stdout_write w ("An error occurred: " +:+ exn_str e) = Ok tt →
       main cfg w tr
       = ((tr' ++ [Printed ("An error occurred: " +:+ exn_str e)])%list, Ok tt))
  ∧ (Spec.outside_raises_Exception w →
     (∀ tr' e, main_try cfg w tr = (tr', Raise e) →
        is_Exception (exn_cls e) = true)
     ∧ ((∀ line, stdout_write w line = Ok tt) → (main cfg w tr).2 = Ok tt)).
Proof.
  unfold main, try_except_Exception, main_except, print, perform.
  destruct (main_try cfg w tr) as [tr' [[]|e]] eqn:Htry.
  - split; [by intros ? [= <-]|]. split; [by intros ? ? [= ]|].
    intros Hw. split; [by intros ? ? [= ]|done].
  - split; [by intros ? [= ]|]. split.
    + intros ? ? [= <- <-] -> Hout. by rewrite Hout.
    + intros Hw. pose proof (main_try_exc w Hw cfg tr tr' e Htry) as Hexc.
      split; [by intros ? ? [= <- <-]|].
      intros Hout. by rewrite Hexc, Hout.
Qed.

Lemma main_catches_every_Exception_witness :
  (main_try Sample.cfg Sample.run_upload_refused []).2
  = raise (ExceptionSub "S3UploadFailedError") "Access Denied"
  ∧ main Sample.cfg Sample.run_upload_refused []
    = (((main_try Sample.cfg Sample.run_upload_refused []).1
        ++ [Printed "An error occurred: Access Denied"])%list, Ok tt)
  ∧ (main Sample.cfg Sample.run_upload_refused []).2 = Ok tt.
Proof.
  destruct (main_catches_every_Exception Sample.cfg Sample.run_upload_refused [])
    as (_ & Hcaught & Hall).
  assert (Hraised : (main_try Sample.cfg Sample.run_upload_refused []).2
                    = raise (ExceptionSub "S3UploadFailedError") "Access Denied")
    by reflexivity.
  split; [exact Hraised|]. split.
  - apply (Hcaught (main_try Sample.cfg Sample.run_upload_refused []).1
             (mk_exn (ExceptionSub "S3UploadFailedError") "Access Denied")).
    + exact (eq_trans (surjective_pairing _) (f_equal (pair _) Hraised)).
    + reflexivity.
    + reflexivity.
  - apply Hall; [|intros line; reflexivity].
    split.
    + intros url params. simpl. destruct params; exact I.
    + intros url params r Hr. simpl in Hr.
      destruct params; injection Hr as <-; exact I.
    + intros bucket key. exact I.
    + intros filename bucket key. reflexivity.
    + intros filename data. exact I.
    + intros line. exact I.
Defined.

(** C8 as stated fails: [main] catches the [ValueError] of a game time
    that ends in a letter outside ASCII, but the stream cannot take the
    line of the handler, and the [UnicodeEncodeError] of [print] is
    raised to the caller of [main].  Every exception the outside raises
    in this run is of class [Exception]. *)
Lemma handler_print_raises :
  Spec.outside_raises_Exception Sample.run_unprintable
  ∧ MLBAPI.process_game_data Sample.cfg Sample.run_unprintable
      (Sample.schedule [Sample.yankees_bad_text])
    = raise ValueError
        ("unconverted data remains: " +:+ String (ascii_of_nat 233) "")
  ∧ ∃ e, main Sample.cfg Sample.run_unprintable []
         = ([Deleted MLBAPI.BUCKET_NAME "mlb_schedule.json"], Raise e)
         ∧ exn_cls e = ExceptionSub "UnicodeEncodeError"
         ∧ (main Sample.cfg Sample.run_unprintable []).2 ≠ Ok tt.
Proof.
  split; [|split].
  - split.
    + intros url params. simpl. destruct params; exact I.
    + intros url params r Hr. simpl in Hr.
      destruct params; injection Hr as <-; exact I.
    + intros bucket key. exact I.
    + intros filename bucket key. exact I.
    + intros filename data. exact I.
    + intros line. unfold Sample.run_unprintable, stdout_write.
      unfold Sample.ascii_stdout.
      by destruct (Sample.first_non_ascii line 0) as [[[? ?] ?]|].
  - reflexivity.
  - assert (Hmain : main Sample.cfg Sample.run_unprintable []
                    = ([Deleted MLBAPI.BUCKET_NAME "mlb_schedule.json"],
                       raise (ExceptionSub "UnicodeEncodeError")
                         "'ascii' codec can't encode character '\xe9' in position 45: ordinal not in range(128)"))
      by reflexivity.
    rewrite Hmain. eexists. split; [reflexivity|].
    split; [reflexivity|discriminate].
Qed.

(** C4.  At every reading of the clock, from the year 1000 to the day
    before the last of the year 9999, [get_utc_start_and_end] returns the
    pair (start, end) in which start is midnight UTC of the day of the
    reading and end is 26 hours later, two o'clock of the next day, both
    written [YYYY-MM-DDTHH:MM:SSZ]; at 2024-01-01T00:00:00Z the pair is
    ("2024-01-01T00:00:00Z", "2024-01-02T02:00:00Z"). *)
Theorem utc_day_window :
  (∀ w,
     Datetime.valid_datetime (clock_utc w) →
     1000 <= Datetime.year (clock_utc w) →
     (Datetime.year (clock_utc w), Datetime.month (clock_utc w),
      Datetime.day (clock_utc w)) ≠ (9999, 12, 31) →
     MLBAPI.get_utc_start_and_end w
     = Ok (Cal.iso_z (Cal.day_start (clock_utc w)),
           Cal.iso_z (Cal.window_end (clock_utc w)))
     ∧ Datetime.valid_datetime (Cal.window_end (clock_utc w))
     ∧ Cal.instant (Cal.window_end (clock_utc w))
       = Cal.instant (Cal.day_start (clock_utc w)) + 26 * 3600)
  ∧ (∀ w,
       clock_utc w = Datetime.mk_datetime 2024 1 1 0 0 0 0 →
       MLBAPI.get_utc_start_and_end w
       = Ok ("2024-01-01T00:00:00Z", "2024-01-02T02:00:00Z")).
Proof.
  split; [|intros w Hw; unfold MLBAPI.get_utc_start_and_end; by rewrite Hw].
  intros w. destruct (clock_utc w) as [y m d hh mm ss us] eqn:Hnow.
  unfold Datetime.valid_datetime, Datetime.MINYEAR, Datetime.MAXYEAR. simpl.
  intros (Hy & Hm & Hd & _) Hy1000 Hlast.
  pose proof (ymd2ord_next_day y m d Hm Hd) as Hnext.
  pose proof (ymd2ord_bounds y m d Hy Hm Hd) as Hord.
  unfold Cal.window_end, Cal.day_start. simpl.
  destruct (Cal.next_day y m d) as [[y' m'] d'] eqn:Hnd.
  destruct Hnext as (Hord' & Hm' & Hd').
  assert (Hy' : 1000 <= y' <= 9999).
  { unfold Cal.next_day in Hnd.
    destruct (Z.ltb_spec d (Datetime.days_in_month y m));
      [injection Hnd as <- <- <-; lia|].
    destruct (Z.ltb_spec m 12); [injection Hnd as <- <- <-; lia|].
    injection Hnd as <- <- <-.
    assert (m = 12) as -> by lia.
    unfold Datetime.days_in_month in *. simpl in *.
    assert (y ≠ 9999) by (intros ->; apply Hlast; repeat f_equal; lia).
    lia. }
  pose proof (ymd2ord_bounds y' m' d') as Hbound'.
  unfold Datetime.MINYEAR, Datetime.MAXYEAR in Hbound'.
  split; [|split].
  - unfold MLBAPI.get_utc_start_and_end. rewrite Hnow.
    change (Datetime.new_timedelta 1 2 0 0 0)
      with (Datetime.mk_timedelta 1 7200 0).
    rewrite add_eq by (simpl; first [lia | reflexivity]).
    unfold Datetime.replace_midnight, Datetime.toordinal. simpl.
    change (7200 / 86400) with 0. rewrite Z.add_0_r, <- Hord'.
    destruct (Z.ltb_spec 0 (Datetime.ymd2ord y' m' d')); [|lia].
    destruct (Z.leb_spec (Datetime.ymd2ord y' m' d') Datetime.MAXORDINAL);
      [|lia].
    simpl. rewrite ord2ymd_ymd2ord by done. rewrite bind_Ok.
    rewrite !strftime_iso_z_eq by (simpl; lia). reflexivity.
  - simpl. repeat split; lia.
  - unfold Cal.instant, Datetime.toordinal. simpl. lia.
Qed.

Lemma utc_day_window_witness :
  MLBAPI.get_utc_start_and_end Sample.run_new_year
  = Ok ("2024-01-01T00:00:00Z", "2024-01-02T02:00:00Z").
Proof.
  refine (eq_trans (proj1 (proj1 utc_day_window Sample.run_new_year _ _ _)) _).
  - repeat split; apply Z.leb_le; reflexivity.
  - apply Z.leb_le. reflexivity.
  - discriminate.
  - reflexivity.
Defined.

(** C3 as the code has it.  [convert_utc_to_est] reads every timestamp of
    the strict form [YYYY-MM-DDTHH:MM:SSZ] that names a date and a time
    that exist (the first day of the year 1 apart), takes it as UTC and
    returns the word EST and the hour and minute of the wall clock of
    US/Eastern at that time, by the table of transitions of the zone,
    daylight saving included; the word is EST whatever the zone is
    called at that time.  A string outside the pattern [strptime] builds
    for the format is a [ValueError]: so is every string longer than 20
    characters and every string with a point or a plus sign, as the
    variants with a fraction of a second or an offset are.  The pattern
    is wider than the strict form: one-digit fields are read as well.
    And ["2024-07-04T23:10:00Z"] gives ["EST 19:10"], in a zone then
    called EDT. *)
Theorem convert_utc_to_est_spec :
  (∀ y m d hh mm ss,
     Datetime.valid_datetime (Datetime.mk_datetime y m d hh mm ss 0) →
     (y, m, d) ≠ (1, 1, 1) →
     MLBAPI.convert_utc_to_est
       (PStr (Cal.iso_z (Datetime.mk_datetime y m d hh mm ss 0)))
     = Ok (Zone.est_display (Datetime.mk_datetime y m d hh mm ss 0)))
  ∧ (∀ s, ¬ Lang.matches Lang.iso_pattern s →
          ∃ msg, MLBAPI.convert_utc_to_est (PStr s) = raise ValueError msg)
  ∧ (∀ s, (20 < String.length s)%nat ∨ Lang.holds "." s = true
          ∨ Lang.holds "+" s = true →
          ∃ msg, MLBAPI.convert_utc_to_est (PStr s) = raise ValueError msg)
  ∧ (∀ s t, MLBAPI.convert_utc_to_est (PStr s) = Ok t →
            ∃ h mi, t = "EST " +:+ fmt2 h +:+ ":" +:+ fmt2 mi)
  ∧ MLBAPI.convert_utc_to_est (PStr "2024-7-4T3:5:7Z") = Ok "EST 23:05"
  ∧ MLBAPI.convert_utc_to_est (PStr "2024-07-04T23:10:00Z") = Ok "EST 19:10"
  ∧ Pytz.tzname (Zone.in_effect (Datetime.mk_datetime 2024 7 4 23 10 0 0))
    = "EDT".
Proof.
  split; [exact convert_utc_to_est_strict|].
  split; [exact convert_rejects|].
  split.
  { intros s Hs. apply convert_rejects. intros Hm.
    destruct Hs as [Hlen|[Hpoint|Hplus]].
    - apply matches_max_length in Hm.
      change (Lang.max_length Lang.iso_pattern) with 20%nat in Hm. lia.
    - by apply (matches_alphabet _ _ _ Hm) in Hpoint.
    - by apply (matches_alphabet _ _ _ Hm) in Hplus. }
  split; [exact convert_label|].
  repeat split; vm_compute; reflexivity.
Qed.

Lemma convert_utc_to_est_spec_witness :
  MLBAPI.convert_utc_to_est (PStr "2024-01-15T03:30:00Z") = Ok "EST 22:30".
Proof.
  refine (eq_trans (proj1 convert_utc_to_est_spec 2024 1 15 3 30 0 _ _) _).
  - repeat split; apply Z.leb_le; reflexivity.
  - discriminate.
  - vm_compute. reflexivity.
Defined.

(** C3 as stated fails: a timestamp that is not of the strict form, with
    one-digit month and day and small letters, is read all the same. *)
Lemma lenient_timestamp_accepted :
  Lang.is_strict "2024-7-4t23:10:00z" = false
  ∧ MLBAPI.convert_utc_to_est (PStr "2024-7-4t23:10:00z") = Ok "EST 19:10".
Proof. split; vm_compute; reflexivity. Qed.

(** ** Further properties of the job *)

Section process_edges.

Implicit Types (events games : list pyval) (game : pyval) (home : string).

Lemma match_events_app events1 events2 :
  ∀ game_info : game_record,
    MLBAPI.match_events (events1 ++ events2)%list game_info
    = (game_info' ← MLBAPI.match_events events1 game_info;
       MLBAPI.match_events events2 game_info').
Proof.
  induction events1 as [|e events1 IH]; intros game_info; simpl; [done|].
  destruct (MLBAPI.match_event game_info e); [|done].
  rewrite !bind_Ok. apply IH.
Qed.

Lemma existsb_matches_game game g events :
  Spec.game_view game = Some g →
  existsb (Spec.matches_game game) events
  = existsb (Spec.home_matches (Spec.home_name g)) events.
Proof.
  intros Hg. induction events as [|e events IH]; simpl; [done|].
  rewrite IH. unfold Spec.matches_game, Spec.game_home. by rewrite Hg.
Qed.

End process_edges.

(** X4.  When the first date entry holds no [games] (or an empty list),
    the run still asks for the events and then returns no record: the
    outcome is the empty list, or the exception of the odds request. *)
Theorem no_games_no_records cfg w (dm first : gmap string pyval) rest :
  dm !! "dates" = Some (PList (PDict first :: rest)) →
  default (PList []) (first !! "games") = PList [] →
  MLBAPI.process_game_data cfg w (PDict dm)
  = match MLBAPI.fetch_events cfg w with
    | Ok _ => Ok []
    | Raise e => Raise e
    end.
Proof.
  intros Hdates Hgames.
  assert (Hfirst : MLBAPI.first_date_games (PDict dm) = Ok (PList [])).
  { unfold MLBAPI.first_date_games. simpl. rewrite Hdates. simpl.
    by rewrite Hgames. }
  unfold MLBAPI.process_game_data. rewrite Hfirst, bind_Ok.
  by destruct (MLBAPI.fetch_events cfg w).
Qed.

Lemma no_games_no_records_witness :
  MLBAPI.process_game_data Sample.cfg Sample.run Sample.schedule_no_games
  = match MLBAPI.fetch_events Sample.cfg Sample.run with
    | Ok _ => Ok []
    | Raise e => Raise e
    end.
Proof.
  apply (no_games_no_records Sample.cfg Sample.run
           {[ "dates" := PList [PDict {[ "date" := PStr "2024-07-04" ]}] ]}
           {[ "date" := PStr "2024-07-04" ]} []); reflexivity.
Defined.

(** X5.  The run keeps no part of its work when a game fails: the
    exception of the first game that cannot be built is the outcome,
    whatever the games before it gave and whatever comes after. *)
Theorem first_bad_game cfg w data games events i game e :
  Spec.schedule_games data = Some games →
  MLBAPI.fetch_events cfg w = Ok events →
  games !! i = Some game →
  forallb (λ g, is_ok (MLBAPI.build_game_info events g)) (take i games) = true →
  MLBAPI.build_game_info events game = Raise e →
  MLBAPI.process_game_data cfg w data = Raise e.
Proof.
  intros Hdata Hfetch Hi Hbefore Hbad.
  unfold MLBAPI.process_game_data.
  rewrite (schedule_games_first _ _ Hdata), bind_Ok, Hfetch, bind_Ok.
  simpl iter. rewrite bind_Ok. clear Hdata.
  revert i Hi Hbefore. induction games as [|g games IH]; intros i Hi Hbefore;
    [done|].
  destruct i as [|i]; simpl in *.
  - injection Hi as ->. by rewrite Hbad.
  - apply andb_true_iff in Hbefore as [Hg Hrest].
    destruct (MLBAPI.build_game_info events g); [|done].
    rewrite bind_Ok, (IH i Hi Hrest). done.
Qed.

Lemma first_bad_game_witness :
  MLBAPI.process_game_data Sample.cfg
    (Sample.world_of
       (Sample.schedule [Sample.cubs; Sample.game_no_venue; Sample.yankees])
       (PList Sample.events))
    (Sample.schedule [Sample.cubs; Sample.game_no_venue; Sample.yankees])
  = raise KeyError "'venue'".
Proof.
  apply (first_bad_game Sample.cfg
           (Sample.world_of
              (Sample.schedule [Sample.cubs; Sample.game_no_venue; Sample.yankees])
              (PList Sample.events))
           (Sample.schedule [Sample.cubs; Sample.game_no_venue; Sample.yankees])
           [Sample.cubs; Sample.game_no_venue; Sample.yankees]
           (PList Sample.events) 1%nat Sample.game_no_venue); reflexivity.
Defined.

(** X6.  A game is read key by key, [gameDate] first: a game object
    without [gameDate] is a [KeyError] that names the key, and a game
    that is no object at all is a [TypeError], whatever the events. *)
Theorem game_missing_key events game :
  (∀ m : gmap string pyval, game = PDict m → m !! "gameDate" = None →
     MLBAPI.build_game_info events game = raise KeyError "'gameDate'")
  ∧ ((∀ m : gmap string pyval, game ≠ PDict m) →
     ∃ msg, MLBAPI.build_game_info events game = raise TypeError msg).
Proof.
  split.
  - intros m -> Hm. unfold MLBAPI.build_game_info. simpl. by rewrite Hm.
  - intros Hno. unfold MLBAPI.build_game_info.
    destruct game; try (by eexists). by destruct (Hno m).
Qed.

Lemma game_missing_key_witness :
  MLBAPI.build_game_info (PList Sample.events)
    (PDict {[ "venue" := PDict {[ "name" := PStr "Fenway Park" ]} ]})
  = raise KeyError "'gameDate'".
Proof.
  apply (proj1 (game_missing_key (PList Sample.events)
                  (PDict {[ "venue" := PDict {[ "name" := PStr "Fenway Park" ]} ]}))
           {[ "venue" := PDict {[ "name" := PStr "Fenway Park" ]} ]});
    reflexivity.
Defined.

(** X7.  A record holds the five keys [date], [time], [away_team],
    [home_team], [venue], and the key [id] exactly when an event matches
    its game; it never holds another key. *)
Theorem record_keys cfg w data games events :
  Spec.schedule_games data = Some games →
  forallb Spec.valid_game games = true →
  MLBAPI.fetch_events cfg w = Ok (PList events) →
  forallb Spec.is_odds_event events = true →
  ∃ records,
    MLBAPI.process_game_data cfg w data = Ok records
    ∧ ∀ i game (r : game_record),
        games !! i = Some game → records !! i = Some r →
        dom r = ({["date"; "time"; "away_team"; "home_team"; "venue"]}
                 ∪ (if existsb (Spec.matches_game game) events
                    then {["id"]} else ∅) : gset string).
Proof.
  intros Hdata Hvalid Hfetch Hev.
  destruct (process_game_data_spec cfg w data games events)
    as (records & Hrun & Hrec); [done.. | by apply odds_events_ok |].
  exists records. split; [done|]. intros i game r Hi Hr.
  destruct (Forall2_lookup_lr _ _ _ _ _ _ Hrec Hi Hr) as (g & t & Hg & Ht & ->).
  rewrite (existsb_matches_game game g events Hg).
  pose proof (last_match_exists (Spec.home_name g) events) as Hex.
  unfold Spec.expected_record.
  destruct (Spec.last_match (Spec.home_name g) events) as [e|] eqn:Hl.
  - assert (Hsome : existsb (Spec.home_matches (Spec.home_name g)) events = true)
      by (apply Hex; by eexists).
    rewrite Hsome. simpl.
    apply last_match_elem in Hl as [Hin _].
    rewrite forallb_forall in Hev. apply list_elem_of_In, Hev in Hin.
    unfold Spec.is_odds_event in Hin.
    destruct (Spec.event_home e); [|done].
    destruct (Spec.event_id e) as [id|]; [|done].
    rewrite dom_insert_L. simpl. rewrite !dom_insert_L, dom_empty_L.
    set_solver.
  - destruct (existsb _ events) eqn:Hsome.
    { by destruct (proj2 Hex eq_refl) as [? ?]. }
    simpl. rewrite !dom_insert_L, dom_empty_L. set_solver.
Qed.

Lemma record_keys_witness :
  ∃ records,
    MLBAPI.process_game_data Sample.cfg Sample.run
      (Sample.schedule Sample.games) = Ok records
    ∧ ∀ i game (r : game_record),
        Sample.games !! i = Some game → records !! i = Some r →
        dom r = ({["date"; "time"; "away_team"; "home_team"; "venue"]}
                 ∪ (if existsb (Spec.matches_game game) Sample.events
                    then {["id"]} else ∅) : gset string).
Proof.
  apply (record_keys Sample.cfg Sample.run (Sample.schedule Sample.games)
           Sample.games Sample.events); reflexivity.
Defined.

(** X8.  When one event only matches the home team of a game, the
    record of the game carries the [id] of that event. *)
Theorem single_match_id cfg w data games events i game home j e :
  Spec.schedule_games data = Some games →
  forallb Spec.valid_game games = true →
  MLBAPI.fetch_events cfg w = Ok (PList events) →
  forallb Spec.is_odds_event events = true →
  games !! i = Some game → Spec.game_home game = Some home →
  events !! j = Some e → Spec.home_matches home e = true →
  forallb (λ e', negb (Spec.home_matches home e')) (take j events) = true →
  forallb (λ e', negb (Spec.home_matches home e')) (drop (S j) events) = true →
  ∃ records (r : game_record) id,
    MLBAPI.process_game_data cfg w data = Ok records
    ∧ records !! i = Some r
    ∧ Spec.event_id e = Some id ∧ r !! "id" = Some id.
Proof.
  intros Hdata Hvalid Hfetch Hev Hi Hhome Hj Hm _ Hafter.
  destruct (process_game_data_spec cfg w data games events)
    as (records & Hrun & Hrec); [done.. | by apply odds_events_ok |].
  destruct (Forall2_lookup_l _ _ _ _ _ Hrec Hi) as (r & Hr & Hof).
  assert (Hid : is_Some (Spec.event_id e)).
  { rewrite forallb_forall in Hev.
    apply list_elem_of_lookup_2, list_elem_of_In, Hev in Hj.
    unfold Spec.is_odds_event in Hj.
    destruct (Spec.event_home e); [|done].
    by destruct (Spec.event_id e). }
  destruct Hid as [id Hid]. exists records, r, id.
  repeat split; try done.
  rewrite (is_record_of_home _ _ _ _ Hof Hhome).
  rewrite (last_match_after _ _ _ _ Hj Hm Hafter). by simpl.
Qed.

Lemma single_match_id_witness :
  ∃ records (r : game_record) id,
    MLBAPI.process_game_data Sample.cfg
      (Sample.world_of (Sample.schedule Sample.games)
         (PList [Sample.ev_dodgers; Sample.ev_yankees_1]))
      (Sample.schedule Sample.games) = Ok records
    ∧ records !! 1%nat = Some r
    ∧ Spec.event_id Sample.ev_yankees_1 = Some id ∧ r !! "id" = Some id.
Proof.
  apply (single_match_id Sample.cfg
           (Sample.world_of (Sample.schedule Sample.games)
              (PList [Sample.ev_dodgers; Sample.ev_yankees_1]))
           (Sample.schedule Sample.games) Sample.games
           [Sample.ev_dodgers; Sample.ev_yankees_1] 1%nat Sample.yankees
           "New York Yankees" 1%nat Sample.ev_yankees_1); reflexivity.
Defined.

(** X9.  An event without [id] is harmless until it matches: the first
    event that matches a game and holds no [id] ends the run with a
    [KeyError] that names the key. *)
Theorem matching_event_without_id cfg w data games events game g t j e :
  Spec.schedule_games data = Some (game :: games) →
  Spec.game_view game = Some g → Spec.game_time g = Some t →
  MLBAPI.fetch_events cfg w = Ok (PList events) →
  events !! j = Some e →
  forallb (Spec.event_ok_for (Spec.home_name g)) (take j events) = true →
  Spec.home_matches (Spec.home_name g) e = true →
  Spec.event_id e = None →
  MLBAPI.process_game_data cfg w data = raise KeyError "'id'".
Proof.
  intros Hdata Hg Ht Hfetch Hj Hbefore Hm Hid.
  unfold MLBAPI.process_game_data.
  rewrite (schedule_games_first _ _ Hdata), bind_Ok, Hfetch, bind_Ok.
  simpl iter. rewrite bind_Ok. simpl MLBAPI.build_all.
  assert (Hbuild :
    MLBAPI.build_game_info (PList events) game = raise KeyError "'id'");
    [|by rewrite Hbuild].
  destruct (game_view_inv _ _ Hg) as (Hd & Ha & Hh & Hv).
  apply game_time_inv in Ht.
  unfold MLBAPI.build_game_info.
  rewrite Hd, !bind_Ok, Ht, bind_Ok, Ha, bind_Ok, Hh, bind_Ok, Hv, bind_Ok.
  simpl iter. rewrite bind_Ok, game_info_fields, bind_Ok.
  rewrite <- (take_drop_middle events j e Hj), match_events_app.
  rewrite (match_events_spec (Spec.home_name g)); [|done..].
  rewrite bind_Ok. cbn [MLBAPI.match_events].
  set (game_info := match _ ≫= Spec.event_id with Some _ => _ | None => _ end).
  assert (Hhome : game_info !! "home_team" = Some (PStr (Spec.home_name g))).
  { unfold game_info. destruct (_ ≫= Spec.event_id);
      [by rewrite lookup_insert_ne|done]. }
  assert (Hbad : MLBAPI.match_event game_info e = raise KeyError "'id'");
    [|by rewrite Hbad].
  unfold Spec.home_matches in Hm. unfold MLBAPI.match_event.
  destruct (Spec.event_home e) as [s|] eqn:Hs; [|done].
  rewrite (event_home_getitem _ _ Hs), bind_Ok.
  cbn [getitem]. rewrite Hhome. cbn. rewrite Hm.
  destruct e as [| | | | | |m]; try done. simpl in Hid. cbn. by rewrite Hid.
Qed.

Lemma matching_event_without_id_witness :
  MLBAPI.process_game_data Sample.cfg
    (Sample.world_of (Sample.schedule [Sample.yankees; Sample.cubs])
       (PList [Sample.ev_dodgers; Sample.ev_yankees_no_id; Sample.ev_yankees_2]))
    (Sample.schedule [Sample.yankees; Sample.cubs])
  = raise KeyError "'id'".
Proof.
  apply (matching_event_without_id Sample.cfg
           (Sample.world_of (Sample.schedule [Sample.yankees; Sample.cubs])
              (PList [Sample.ev_dodgers; Sample.ev_yankees_no_id;
                      Sample.ev_yankees_2]))
           (Sample.schedule [Sample.yankees; Sample.cubs])
           [Sample.cubs]
           [Sample.ev_dodgers; Sample.ev_yankees_no_id; Sample.ev_yankees_2]
           Sample.yankees
           (Spec.mk_schedule_game "2024-07-04T17:05:00Z" (PStr "Cincinnati Reds")
              "New York Yankees" (PStr "Yankee Stadium"))
           "EST 13:05" 1%nat Sample.ev_yankees_no_id); reflexivity.
Defined.

(** What the handler of [main] makes of an exception of the [try]
    block. *)
Lemma handler_reported (w : world) (done : list action) (e : exn) :
  Spec.reported w done e
    (if is_Exception (exn_cls e) then main_except w e done
     else (done, Raise e)).
Proof.
  unfold Spec.reported, main_except, print, perform.
  destruct (is_Exception (exn_cls e)); [|by right; right].
  destruct (stdout_write w _) as [[]|e'] eqn:Hout; [by left|].
  right; left. split; [done|]. by exists e'.
Qed.

(** X10.  The runs of [main], by what they did to the outside: the old
    file is deleted first, the new one is uploaded only after it was
    saved, and the line of success is printed only after the upload.  A
    run that fails after the deletion leaves the store without the
    file.  A failure of class [Exception] is caught and its line
    printed, after which the run ends as after a success; when the
    handler cannot print the line, or the exception is of another class,
    the run ends with an exception raised to the caller. *)
Theorem main_traces cfg w :
  (∃ e, delete_from_s3 w MLBAPI.BUCKET_NAME "mlb_schedule.json" = Raise e
        ∧ Spec.reported w [] e (main cfg w []))
  ∨ (∃ e,
       (MLBAPI.get_schedule w 1 = Raise e
        ∨ (∃ data, MLBAPI.get_schedule w 1 = Ok data
             ∧ (MLBAPI.process_game_data cfg w data = Raise e
                ∨ ∃ games, MLBAPI.process_game_data cfg w data = Ok games
                     ∧ file_write w "/tmp/mlb_schedule.json" games = Raise e)))
       ∧ Spec.reported w [Deleted MLBAPI.BUCKET_NAME "mlb_schedule.json"] e
           (main cfg w []))
  ∨ (∃ data games e,
       MLBAPI.get_schedule w 1 = Ok data
       ∧ MLBAPI.process_game_data cfg w data = Ok games
       ∧ upload_to_s3 w "/tmp/mlb_schedule.json" MLBAPI.BUCKET_NAME
           "mlb_schedule.json" = Raise e
       ∧ Spec.reported w
           [Deleted MLBAPI.BUCKET_NAME "mlb_schedule.json";
            Saved "/tmp/mlb_schedule.json" games] e (main cfg w []))
  ∨ (∃ data games e,
       MLBAPI.get_schedule w 1 = Ok data
       ∧ MLBAPI.process_game_data cfg w data = Ok games
       ∧ stdout_write w "Schedule fetched and saved successfully." = Raise e
       ∧ Spec.reported w
           [Deleted MLBAPI.BUCKET_NAME "mlb_schedule.json";
            Saved "/tmp/mlb_schedule.json" games;
            Uploaded "/tmp/mlb_schedule.json" MLBAPI.BUCKET_NAME
              "mlb_schedule.json"] e (main cfg w []))
  ∨ (∃ data games,
       MLBAPI.get_schedule w 1 = Ok data
       ∧ MLBAPI.process_game_data cfg w data = Ok games
       ∧ main cfg w []
         = ([Deleted MLBAPI.BUCKET_NAME "mlb_schedule.json";
             Saved "/tmp/mlb_schedule.json" games;
             Uploaded "/tmp/mlb_schedule.json" MLBAPI.BUCKET_NAME
               "mlb_schedule.json";
             Printed "Schedule fetched and saved successfully."], Ok tt)).
Proof.
  unfold main, try_except_Exception, main_try, save_schedule, seq, perform,
    pure, print.
  destruct (delete_from_s3 w _ _) as [[]|e]; cbv beta iota.
  2:{ left. exists e. split; [done|]. apply handler_reported. }
  destruct (MLBAPI.get_schedule w 1) as [data|e]; cbv beta iota.
  2:{ right; left. exists e. split; [by left|]. apply handler_reported. }
  destruct (MLBAPI.process_game_data cfg w data) as [games|e] eqn:Hrun;
    cbv beta iota.
  2:{ right; left. exists e. split; [|apply handler_reported].
      right. exists data. split; [done | by left]. }
  destruct (file_write w _ games) as [[]|e] eqn:Hwrite; cbv beta iota.
  2:{ right; left. exists e. split; [|apply handler_reported].
      right. exists data. split; [done|]. right. exists games. by split. }
  destruct (upload_to_s3 w _ _ _) as [[]|e]; cbv beta iota.
  2:{ right; right; left. exists data, games, e.
      repeat (split; [done|]). apply handler_reported. }
  destruct (stdout_write w _) as [[]|e]; cbv beta iota.
  2:{ right; right; right; left. exists data, games, e.
      repeat (split; [done|]). apply handler_reported. }
  right; right; right; right. by exists data, games.
Qed.

(** *** The two requests *)

Section requests.

Import Datetime.

(** Two o'clock of the next day is 26 hours after midnight. *)
Lemma window_end_add (now : datetime) :
  valid_datetime now →
  (year now, month now, day now) ≠ (9999, 12, 31) →
  add (replace_midnight now) (new_timedelta 1 2 0 0 0)
  = Ok (Cal.window_end now)
  ∧ valid_datetime (Cal.window_end now)
  ∧ year now <= year (Cal.window_end now).
Proof.
  destruct now as [y m d hh mm ss us].
  unfold valid_datetime, MINYEAR, MAXYEAR. simpl.
  intros (Hy & Hm & Hd & _) Hlast.
  pose proof (ymd2ord_next_day y m d Hm Hd) as Hnext.
  pose proof (ymd2ord_bounds y m d Hy Hm Hd) as Hord.
  unfold Cal.window_end. simpl.
  destruct (Cal.next_day y m d) as [[y' m'] d'] eqn:Hnd.
  destruct Hnext as (Hord' & Hm' & Hd').
  assert (Hy' : y <= y' <= 9999).
  { unfold Cal.next_day in Hnd.
    destruct (Z.ltb_spec d (days_in_month y m));
      [injection Hnd as <- <- <-; lia|].
    destruct (Z.ltb_spec m 12); [injection Hnd as <- <- <-; lia|].
    injection Hnd as <- <- <-.
    assert (m = 12) as -> by lia.
    unfold days_in_month in *. simpl in *.
    assert (y ≠ 9999) by (intros ->; apply Hlast; repeat f_equal; lia).
    lia. }
  pose proof (ymd2ord_bounds y' m' d') as Hbound'.
  unfold MINYEAR, MAXYEAR in Hbound'.
  split; [|simpl; repeat split; lia].
  change (new_timedelta 1 2 0 0 0) with (mk_timedelta 1 7200 0).
  rewrite add_eq by (simpl; first [lia | reflexivity]).
  unfold replace_midnight, toordinal. simpl.
  change (7200 / 86400) with 0. rewrite Z.add_0_r, <- Hord'.
  destruct (Z.ltb_spec 0 (ymd2ord y' m' d')); [|lia].
  destruct (Z.leb_spec (ymd2ord y' m' d') MAXORDINAL); [|lia].
  simpl. by rewrite ord2ymd_ymd2ord.
Qed.

Lemma utc_window (w : world) :
  valid_datetime (clock_utc w) → 1000 <= year (clock_utc w) →
  (year (clock_utc w), month (clock_utc w), day (clock_utc w))
  ≠ (9999, 12, 31) →
  MLBAPI.get_utc_start_and_end w
  = Ok (Cal.iso_z (Cal.day_start (clock_utc w)),
        Cal.iso_z (Cal.window_end (clock_utc w))).
Proof.
  intros Hvalid Hy Hlast.
  destruct (window_end_add _ Hvalid Hlast) as (Hadd & Hend & Hyear).
  unfold MLBAPI.get_utc_start_and_end. rewrite Hadd, bind_Ok.
  destruct Hvalid as ([_ Hmax] & _). unfold MAXYEAR in Hmax.
  destruct Hend as ([_ Hmax'] & _). unfold MAXYEAR in Hmax'.
  rewrite !strftime_iso_z_eq; [done|lia|].
  unfold replace_midnight. simpl. lia.
Qed.

End requests.

(** X1.  [fetch_events] asks the odds service for the events that start
    in the window of the day: from midnight UTC of the day of the clock
    to two o'clock of the next day, with the key of the configuration.
    It returns the body of the answer when the status is 200, and raises
    [Exception] with the status and the text for every other status,
    without reading the body. *)
Theorem fetch_events_status cfg w r :
  Datetime.valid_datetime (clock_utc w) →
  1000 <= Datetime.year (clock_utc w) →
  (Datetime.year (clock_utc w), Datetime.month (clock_utc w),
   Datetime.day (clock_utc w)) ≠ (9999, 12, 31) →
  http_get w
    ("https://api.the-odds-api.com/v4/sports/" +:+ SPORT cfg +:+ "/events")
    [("apiKey", API_KEY cfg);
     ("commenceTimeFrom", Cal.iso_z (Cal.day_start (clock_utc w)));
     ("commenceTimeTo", Cal.iso_z (Cal.window_end (clock_utc w)));
     ("dateFormat", "iso")] = Ok r →
  (Http.status_code r = 200 → MLBAPI.fetch_events cfg w = Http.json r)
  ∧ (Http.status_code r ≠ 200 →
     MLBAPI.fetch_events cfg w
     = raise Exception ("Failed to fetch odds: "
                        +:+ fmt_int (Http.status_code r) +:+ ", "
                        +:+ Http.text r)).
Proof.
  intros Hvalid Hy Hlast Hget. unfold MLBAPI.fetch_events.
  rewrite (utc_window w Hvalid Hy Hlast), bind_Ok, Hget, bind_Ok.
  split; intros Hstatus.
  - by rewrite Hstatus.
  - by destruct (Z.eqb_spec (Http.status_code r) 200).
Qed.

Lemma fetch_events_status_witness :
  MLBAPI.fetch_events Sample.cfg Sample.run_odds_refused
  = raise Exception "Failed to fetch odds: 429, {'message': 'quota'}".
Proof.
  refine (proj2 (fetch_events_status Sample.cfg Sample.run_odds_refused
                   Sample.quota_exceeded _ _ _ _) _).
  - repeat split; apply Z.leb_le; reflexivity.
  - apply Z.leb_le. reflexivity.
  - discriminate.
  - reflexivity.
  - discriminate.
Defined.

(** *** The date of the schedule request *)

Section est_date.

Import Datetime.

Lemma ymd2ord_prev_day (y m d : Z) :
  1 <= m <= 12 → 1 <= d <= days_in_month y m →
  let '(y', m', d') := Cal.prev_day y m d in
  ymd2ord y' m' d' = ymd2ord y m d - 1
  ∧ y - 1 <= y' <= y ∧ 1 <= m' <= 12 ∧ 1 <= d' <= days_in_month y' m'.
Proof.
  intros Hm Hd. unfold Cal.prev_day.
  destruct (Z.ltb_spec 1 d).
  { unfold ymd2ord. lia. }
  assert (d = 1) as -> by lia.
  destruct (Z.ltb_spec 1 m).
  - unfold ymd2ord, days_before_month, days_in_month.
    assert (Hcases : m = 2 ∨ m = 3 ∨ m = 4 ∨ m = 5 ∨ m = 6 ∨ m = 7
                     ∨ m = 8 ∨ m = 9 ∨ m = 10 ∨ m = 11 ∨ m = 12) by lia.
    destruct Hcases as [->|[->|[->|[->|[->|[->|[->|[->|[->|[->| ->]]]]]]]]]];
      destruct (is_leap y); simpl; lia.
  - assert (m = 1) as -> by lia.
    pose proof (days_before_next_year (y - 1)) as Hnext.
    replace (y - 1 + 1) with y in Hnext by lia.
    unfold ymd2ord, days_before_month, days_in_month. simpl.
    destruct (is_leap (y - 1)); simpl; lia.
Qed.

(** The date of a time shifted to the wall clock of US/Eastern. *)
Lemma fromutc_date (dt : datetime) :
  valid_datetime dt → (year dt, month dt, day dt) ≠ (1, 1, 1) →
  ∃ local,
    Pytz.fromutc Pytz.US_Eastern dt = Ok (local, Zone.in_effect dt)
    ∧ (year local, month local, day local) = Zone.local_date dt.
Proof.
  destruct dt as [y m d hh mm ss us]. intros Hvalid Hfirst.
  set (dt := mk_datetime y m d hh mm ss us) in *.
  unfold valid_datetime, MINYEAR, MAXYEAR in Hvalid. simpl in Hvalid, Hfirst.
  destruct Hvalid as (Hy & Hm & Hd & Hhh & Hmm & Hss & Hus).
  pose proof (days_before_month_bounds y m d Hm Hd) as _.
  assert (Hd31 : d <= 31).
  { unfold days_in_month in Hd.
    destruct ((m =? 2) && is_leap y); [lia|].
    assert (Hcases : m = 1 ∨ m = 2 ∨ m = 3 ∨ m = 4 ∨ m = 5 ∨ m = 6 ∨ m = 7
                     ∨ m = 8 ∨ m = 9 ∨ m = 10 ∨ m = 11 ∨ m = 12) by lia.
    destruct Hcases as [->|[->|[->|[->|[->|[->|[->|[->|[->|[->|[->| ->]]]]]]]]]]];
      simpl in Hd; lia. }
  rewrite US_Eastern_fromutc.
  2:{ unfold Zone.in_clock_ranges. simpl.
      rewrite !andb_true_iff, !Z.leb_le. lia. }
  2:{ simpl. lia. }
  pose proof (US_Eastern_offsets dt) as Hoff.
  unfold Zone.offset_ok in Hoff.
  rewrite !andb_true_iff, Z.ltb_lt, Z.leb_le, Z.eqb_eq in Hoff.
  destruct Hoff as [[Hoff1 Hoff2] Hoff3].
  unfold Zone.local_date. simpl year. simpl month. simpl day.
  simpl hour. simpl minute. simpl second.
  set (off := Pytz.utcoffset (Zone.in_effect dt)) in *.
  rewrite new_timedelta_seconds.
  rewrite add_eq; [|simpl; lia|simpl; lia|simpl|reflexivity].
  2:{ apply Z.mod_pos_bound. lia. }
  pose proof (ymd2ord_bounds y m d ltac:(done) Hm Hd) as Hord.
  pose proof (ymd2ord_after_first y m d ltac:(lia) Hm Hd Hfirst) as Hord2.
  pose proof (ymd2ord_prev_day y m d Hm Hd) as Hprev.
  unfold toordinal. simpl.
  set (total := hh * 3600 + mm * 60 + ss + off mod 86400).
  destruct (Z.ltb_spec (hh * 3600 + mm * 60 + ss + off) 0) as [Hneg|Hpos].
  - assert (ymd2ord y m d + off / 86400 + total / 86400 = ymd2ord y m d - 1)
      as -> by (unfold total; Z.div_mod_to_equations; lia).
    destruct (Z.ltb_spec 0 (ymd2ord y m d - 1)); [|lia].
    destruct (Z.leb_spec (ymd2ord y m d - 1) MAXORDINAL); [|lia].
    destruct (Cal.prev_day y m d) as [[y' m'] d'].
    destruct Hprev as (<- & Hy' & Hm' & Hd').
    simpl. rewrite ord2ymd_ymd2ord by done. rewrite bind_Ok.
    by eexists.
  - assert (ymd2ord y m d + off / 86400 + total / 86400 = ymd2ord y m d)
      as -> by (unfold total; Z.div_mod_to_equations; lia).
    destruct (Z.ltb_spec 0 (ymd2ord y m d)); [|lia].
    destruct (Z.leb_spec (ymd2ord y m d) MAXORDINAL); [|lia].
    simpl. rewrite ord2ymd_ymd2ord by done. rewrite bind_Ok.
    by eexists.
Qed.

Lemma local_date_year (dt : datetime) :
  valid_datetime dt →
  year dt - 1 <= (Zone.local_date dt).1.1 <= year dt.
Proof.
  destruct dt as [y m d hh mm ss us].
  unfold valid_datetime. simpl. intros (_ & Hm & Hd & _).
  unfold Zone.local_date. simpl.
  destruct (_ <? 0); [|simpl; lia].
  pose proof (ymd2ord_prev_day y m d Hm Hd) as Hprev.
  destruct (Cal.prev_day y m d) as [[y' m'] d']. simpl. lia.
Qed.

Lemma est_date (w : world) :
  valid_datetime (clock_est w) → 1001 <= year (clock_est w) →
  MLBAPI.get_current_est_date w
  = Ok (Cal.date_text (Zone.local_date (clock_est w))).
Proof.
  intros Hvalid Hy.
  destruct (fromutc_date (clock_est w) Hvalid) as (local & Hlocal & Hdate).
  { intros [= Hy1 _ _]. lia. }
  pose proof (local_date_year _ Hvalid) as Hyear.
  unfold MLBAPI.get_current_est_date. rewrite Hlocal, bind_Ok.
  rewrite <- Hdate in Hyear |- *. simpl in Hyear |- *.
  unfold strftime_date. rewrite fmt_year_pad4; [done|].
  destruct Hvalid as ([_ Hmax] & _). unfold MAXYEAR in Hmax. lia.
Qed.

End est_date.

(** X2.  The date of the schedule request is the date of the wall clock
    in US/Eastern: the UTC date of the clock, or the day before while the
    UTC time of day is less than the distance of the zone from UTC (four
    hours in summer, five in winter). *)
Theorem est_date_of_clock (w : world) :
  Datetime.valid_datetime (clock_est w) →
  1001 <= Datetime.year (clock_est w) →
  let now := clock_est w in
  let secs := Datetime.hour now * 3600 + Datetime.minute now * 60
              + Datetime.second now in
  MLBAPI.get_current_est_date w
  = Ok (Cal.date_text
          (if secs <? - Pytz.utcoffset (Zone.in_effect now)
           then Cal.prev_day (Datetime.year now) (Datetime.month now)
                  (Datetime.day now)
           else (Datetime.year now, Datetime.month now, Datetime.day now)))
  ∧ -86400 < Pytz.utcoffset (Zone.in_effect now) <= 0.
Proof.
  intros Hvalid Hy now secs. split.
  - rewrite (est_date w Hvalid Hy). unfold Zone.local_date. fold now secs.
    destruct (Z.ltb_spec (secs + Pytz.utcoffset (Zone.in_effect now)) 0),
      (Z.ltb_spec secs (- Pytz.utcoffset (Zone.in_effect now)));
      first [reflexivity | lia].
  - pose proof (US_Eastern_offsets now) as Hoff.
    unfold Zone.offset_ok in Hoff.
    rewrite !andb_true_iff, Z.ltb_lt, Z.leb_le in Hoff. lia.
Qed.

Lemma est_date_of_clock_witness :
  MLBAPI.get_current_est_date Sample.run_after_midnight = Ok "2024-07-04".
Proof.
  refine (proj1 (est_date_of_clock Sample.run_after_midnight _ _)).
  - repeat split; apply Z.leb_le; reflexivity.
  - apply Z.leb_le. reflexivity.
Defined.

(** X3.  [get_schedule] asks the schedule service for one day, the date
    of US/Eastern as both [startDate] and [endDate], with no parameters;
    [BASE_URL] ends in a slash and the path starts with one, so the
    address holds two slashes after [v1].
    A status from 400 to 599 raises [HTTPError] and the body is not read;
    every other status, 200 or not, returns the body. *)
Theorem get_schedule_request (w : world) (sport_id : Z) (r : Http.response) :
  Datetime.valid_datetime (clock_est w) →
  1001 <= Datetime.year (clock_est w) →
  let today := Cal.date_text (Zone.local_date (clock_est w)) in
  http_get w
    ("https://statsapi.mlb.com/api/v1//schedule/games/?sportId="
     +:+ fmt_int sport_id +:+ "&startDate=" +:+ today
     +:+ "&endDate=" +:+ today) [] = Ok r →
  (400 <= Http.status_code r < 600 →
   ∃ msg, MLBAPI.get_schedule w sport_id
          = raise (ExceptionSub "HTTPError") msg)
  ∧ (¬ 400 <= Http.status_code r < 600 →
     MLBAPI.get_schedule w sport_id = Http.json r).
Proof.
  intros Hvalid Hy today Hget. unfold MLBAPI.get_schedule.
  rewrite (est_date w Hvalid Hy), bind_Ok. fold today.
  change MLBAPI.BASE_URL with "https://statsapi.mlb.com/api/v1/".
  change ("https://statsapi.mlb.com/api/v1/" +:+ "/schedule/games/?sportId="
          +:+ fmt_int sport_id +:+ "&startDate=" +:+ today
          +:+ "&endDate=" +:+ today)
    with ("https://statsapi.mlb.com/api/v1//schedule/games/?sportId="
          +:+ fmt_int sport_id +:+ "&startDate=" +:+ today
          +:+ "&endDate=" +:+ today).
  rewrite Hget, bind_Ok. unfold Http.raise_for_status.
  split; intros Hstatus.
  - destruct (Z.leb_spec 400 (Http.status_code r)); [|lia].
    destruct (Z.ltb_spec (Http.status_code r) 500); simpl; [by eexists|].
    destruct (Z.leb_spec 500 (Http.status_code r)); [|lia].
    destruct (Z.ltb_spec (Http.status_code r) 600); [|lia].
    by eexists.
  - destruct (Z.leb_spec 400 (Http.status_code r)),
      (Z.ltb_spec (Http.status_code r) 500); simpl; try lia;
      destruct (Z.leb_spec 500 (Http.status_code r)),
        (Z.ltb_spec (Http.status_code r) 600); simpl; try lia;
      reflexivity.
Qed.

Lemma get_schedule_request_witness :
  ∃ msg, MLBAPI.get_schedule Sample.run_schedule_down 1
         = raise (ExceptionSub "HTTPError") msg.
Proof.
  refine (proj1 (get_schedule_request Sample.run_schedule_down 1
                   (Http.mk_response 503 "Service Unavailable" "" (Ok PNone))
                   _ _ _) _).
  - repeat split; apply Z.leb_le; reflexivity.
  - apply Z.leb_le. reflexivity.
  - reflexivity.
  - simpl. lia.
Defined.

(** *** Daylight time *)

Section daylight.

Import Datetime Pytz.

(** The entry in effect between two rows that follow each other. *)
Lemma scan_at (times : list datetime) (infos : list ttinfo) (x : datetime)
    (current : ttinfo) (i : nat) (t : datetime) (inf : ttinfo) :
  forallb Zone.in_clock_ranges times = true →
  Zone.sorted_times times = true →
  length times = length infos →
  Zone.in_clock_ranges x = true →
  times !! i = Some t → infos !! i = Some inf →
  Zone.key t <= Zone.key x →
  (∀ t', times !! S i = Some t' → Zone.key x < Zone.key t') →
  Zone.scan times infos x current = inf.
Proof.
  intros Hranges Hsorted Hlen Hx Hi Hinf Hle Hnext.
  destruct (prefix_le_spec times x Hranges Hx) as (Hp1 & Hp2 & Hp3).
  pose proof (scan_prefix_le times x infos current Hlen) as Hscan.
  assert (Zone.prefix_le times x = S i) as Hp.
  { destruct (Nat.lt_trichotomy (Zone.prefix_le times x) (S i))
      as [Hlt|[->|Hgt]]; [exfalso|done|exfalso].
    - destruct (lookup_lt_is_Some_2 times (Zone.prefix_le times x))
        as [t' Ht']; [apply lookup_lt_Some in Hi; lia|].
      specialize (Hp3 t' Ht').
      destruct (decide (Zone.prefix_le times x = i)) as [E|].
      + rewrite E in Ht'. simplify_eq. lia.
      + pose proof (sorted_lookup times Hranges Hsorted
                      (Zone.prefix_le times x) i t' t ltac:(lia) Ht' Hi).
        lia.
    - destruct (lookup_lt_is_Some_2 times (S i)) as [t' Ht']; [lia|].
      specialize (Hp2 (S i) t' Hgt Ht'). specialize (Hnext t' Ht'). lia. }
  rewrite Hp in Hscan. simpl in Hscan. rewrite Hinf in Hscan. congruence.
Qed.

Lemma key_year (a b : datetime) :
  Zone.in_clock_ranges a = true → Zone.in_clock_ranges b = true →
  year a < year b → Zone.key a < Zone.key b.
Proof.
  unfold Zone.in_clock_ranges. rewrite !andb_true_iff, !Z.leb_le.
  unfold Zone.key. lia.
Qed.

Lemma summer_in_ranges (y : Z) :
  Zone.in_clock_ranges (Zone.summer_start y) = true
  ∧ Zone.in_clock_ranges (Zone.summer_end y) = true.
Proof.
  unfold Zone.in_clock_ranges, Zone.summer_start, Zone.summer_end,
    Zone.nth_sunday. simpl.
  pose proof (Z.mod_pos_bound (- ymd2ord y 3 1) 7 ltac:(lia)).
  pose proof (Z.mod_pos_bound (- ymd2ord y 11 1) 7 ltac:(lia)).
  rewrite !andb_true_iff, !Z.leb_le. lia.
Qed.

Lemma eastern_table_ok :
  forallb Zone.in_clock_ranges (tail (utc_transition_times US_Eastern)) = true
  ∧ Zone.sorted_times (tail (utc_transition_times US_Eastern)) = true
  ∧ length (tail (utc_transition_times US_Eastern))
    = length (tail (transition_info US_Eastern)).
Proof. repeat split; vm_compute; reflexivity. Qed.

(** From 2007 to 2037 the offset is four hours in the daylight time of
    the year and five hours outside. *)
Lemma in_effect_rule (x : datetime) :
  Zone.in_clock_ranges x = true → 2007 <= year x <= 2037 →
  utcoffset (Zone.in_effect x)
  = if Zone.daylight x then -14400 else -18000.
Proof.
  intros Hx Hy.
  assert (Hrows : forallb Zone.rows_of_year (seqZ 2007 31) = true)
    by (vm_compute; reflexivity).
  apply (forallb_seqZ _ _ _ (year x)) in Hrows; [|lia].
  destruct eastern_table_ok as (Hranges & Hsorted & Hlen).
  unfold Zone.rows_of_year in Hrows. cbv zeta in Hrows.
  unfold Zone.daylight, Zone.in_effect.
  set (times := tail (utc_transition_times US_Eastern)) in *.
  set (infos := tail (transition_info US_Eastern)) in *.
  clearbody times infos.
  set (i := Z.to_nat (173 + 2 * (year x - 2007))) in *. clearbody i.
  destruct (times !! i) as [t0|] eqn:Ht0; [|discriminate].
  destruct (times !! S i) as [t1|] eqn:Ht1; [|discriminate].
  destruct (times !! S (S i)) as [t2|] eqn:Ht2; [|discriminate].
  destruct (infos !! i) as [i0|] eqn:Hi0; [|discriminate].
  destruct (infos !! S i) as [i1|] eqn:Hi1; [|discriminate].
  destruct (infos !! S (S i)) as [i2|] eqn:Hi2; [|discriminate].
  rewrite !andb_true_iff, !Z.eqb_eq, Z.ltb_lt in Hrows.
  destruct Hrows as ((((((Hyear0 & Hk1) & Hk2) & Ho0) & Ho1) & Ho2) & Hlast).
  destruct (summer_in_ranges (year x)) as [Hstart Hend].
  pose proof (times_in_ranges times Hranges _ _ Ht0) as Hr0.
  pose proof (lt_key x (Zone.summer_start (year x)) Hx Hstart) as Hlt1.
  pose proof (lt_key x (Zone.summer_end (year x)) Hx Hend) as Hlt2.
  set (start := Zone.summer_start (year x)) in *.
  set (stop := Zone.summer_end (year x)) in *.
  clearbody start stop.
  destruct (lt x start) eqn:E1; cbn [negb andb].
  - rewrite <- Ho0. f_equal.
    apply (scan_at times infos x _ i t0 i0 Hranges Hsorted Hlen Hx Ht0 Hi0).
    + pose proof (key_year t0 x Hr0 Hx Hyear0). lia.
    + intros t' Ht'. rewrite Ht1 in Ht'. injection Ht' as <-.
      rewrite Hk1. by apply Hlt1.
  - assert (Zone.key start <= Zone.key x) as Hge1.
    { destruct (Z.lt_ge_cases (Zone.key x) (Zone.key start)) as [Hlt|]; [|lia].
      apply Hlt1 in Hlt. congruence. }
    destruct (lt x stop) eqn:E2.
    + rewrite <- Ho1. f_equal.
      apply (scan_at times infos x _ (S i) t1 i1 Hranges Hsorted Hlen Hx
               Ht1 Hi1); [lia|].
      intros t' Ht'. rewrite Ht2 in Ht'. injection Ht' as <-.
      rewrite Hk2. by apply Hlt2.
    + assert (Zone.key stop <= Zone.key x) as Hge2.
      { destruct (Z.lt_ge_cases (Zone.key x) (Zone.key stop)) as [Hlt|];
          [|lia].
        apply Hlt2 in Hlt. congruence. }
      rewrite <- Ho2. f_equal.
      apply (scan_at times infos x _ (S (S i)) t2 i2 Hranges Hsorted Hlen Hx
               Ht2 Hi2); [lia|].
      intros t' Ht'. rewrite Ht' in Hlast. apply Z.ltb_lt in Hlast.
      apply key_year; [exact Hx| |exact Hlast].
      exact (times_in_ranges times Hranges (S (S (S i))) t' Ht').
Qed.

(** After the last row of the table the offset is five hours. *)
Lemma in_effect_after_table (x : datetime) :
  Zone.in_clock_ranges x = true → 2038 <= year x →
  utcoffset (Zone.in_effect x) = -18000.
Proof.
  intros Hx Hy. destruct eastern_table_ok as (Hranges & Hsorted & Hlen).
  unfold Zone.in_effect.
  assert (Ht : tail (utc_transition_times US_Eastern) !! 235%nat
               = Some (mk_datetime 2037 11 1 6 0 0 0))
    by (vm_compute; reflexivity).
  assert (Hi : tail (transition_info US_Eastern) !! 235%nat
               = Some (mk_ttinfo (-18000) "EST"))
    by (vm_compute; reflexivity).
  assert (Hnone : tail (utc_transition_times US_Eastern) !! 236%nat = None)
    by (vm_compute; reflexivity).
  set (times := tail (utc_transition_times US_Eastern)) in *.
  set (infos := tail (transition_info US_Eastern)) in *.
  clearbody times infos.
  rewrite (scan_at times infos x _ 235 _ _ Hranges Hsorted Hlen Hx Ht Hi).
  - reflexivity.
  - apply Z.lt_le_incl, key_year; [reflexivity|exact Hx|].
    cbn [year]. lia.
  - intros t' Ht'. rewrite Hnone in Ht'. discriminate.
Qed.

(** The hour and the minute of a time shifted by whole hours. *)
Lemma local_minute_hours (hh mm shift : Z) :
  0 <= hh <= 23 → 0 <= mm <= 59 →
  let local := (hh * 60 + mm + (- (shift * 3600)) / 60) mod 1440 in
  local / 60 = (hh - shift) mod 24 ∧ local mod 60 = mm.
Proof. intros Hhh Hmm. cbv zeta. split; Z.div_mod_to_equations; lia. Qed.

Lemma valid_in_clock_ranges (dt : datetime) :
  valid_datetime dt → Zone.in_clock_ranges dt = true.
Proof.
  destruct dt as [y m d hh mm ss us].
  unfold valid_datetime, Zone.in_clock_ranges. simpl.
  intros (Hy & Hm & Hd & Hhh & Hmm & Hss & Hus).
  assert (Hd31 : d <= 31).
  { unfold days_in_month in Hd.
    destruct ((m =? 2) && is_leap y); [lia|].
    assert (Hcases : m = 1 ∨ m = 2 ∨ m = 3 ∨ m = 4 ∨ m = 5 ∨ m = 6 ∨ m = 7
                     ∨ m = 8 ∨ m = 9 ∨ m = 10 ∨ m = 11 ∨ m = 12) by lia.
    destruct Hcases as [->|[->|[->|[->|[->|[->|[->|[->|[->|[->|[->| ->]]]]]]]]]]];
      simpl in Hd; lia. }
  rewrite !andb_true_iff, !Z.leb_le. lia.
Qed.

(** The display of a time whose offset is a number of whole hours. *)
Lemma convert_hours (dt : datetime) (shift : Z) :
  valid_datetime dt → microsecond dt = 0 → 1 < year dt →
  utcoffset (Zone.in_effect dt) = - (shift * 3600) →
  MLBAPI.convert_utc_to_est (PStr (Cal.iso_z dt))
  = Ok ("EST " +:+ fmt2 ((hour dt - shift) mod 24) +:+ ":"
        +:+ fmt2 (minute dt)).
Proof.
  destruct dt as [y m d hh mm ss us]. cbn [microsecond year hour minute].
  intros Hvalid -> Hy Hoff.
  rewrite convert_utc_to_est_strict; [|exact Hvalid|intros [= -> _ _]; lia].
  unfold Zone.est_display, Zone.local_minute. rewrite Hoff.
  cbn [hour minute].
  destruct Hvalid as (_ & _ & _ & Hhh & Hmm & _).
  cbn [hour minute] in Hhh, Hmm.
  pose proof (local_minute_hours hh mm shift Hhh Hmm) as Hlocal.
  cbv zeta in Hlocal. destruct Hlocal as [-> ->]. reflexivity.
Qed.

End daylight.

(** X11.  The word EST is printed the whole year, but the hour follows
    daylight time: from 2007 to 2037 a strict timestamp is displayed four
    hours behind UTC from 07:00 UTC of the second Sunday of March up to
    06:00 UTC of the first Sunday of November, and five hours behind UTC
    outside; the minute is the one of the timestamp. *)
Theorem daylight_hours (y m d hh mm ss : Z) :
  let dt := Datetime.mk_datetime y m d hh mm ss 0 in
  Datetime.valid_datetime dt → 2007 <= y <= 2037 →
  MLBAPI.convert_utc_to_est (PStr (Cal.iso_z dt))
  = Ok ("EST " +:+ fmt2 ((hh - (if Zone.daylight dt then 4 else 5)) mod 24)
        +:+ ":" +:+ fmt2 mm).
Proof.
  intros dt Hvalid Hy.
  apply (convert_hours dt (if Zone.daylight dt then 4 else 5) Hvalid);
    [reflexivity|simpl; lia|].
  rewrite in_effect_rule; [|by apply valid_in_clock_ranges|simpl; lia].
  by destruct (Zone.daylight dt).
Qed.

Lemma daylight_hours_witness :
  MLBAPI.convert_utc_to_est (PStr "2024-03-10T06:59:59Z") = Ok "EST 01:59"
  ∧ MLBAPI.convert_utc_to_est (PStr "2024-03-10T07:00:00Z") = Ok "EST 03:00".
Proof.
  split.
  - refine (daylight_hours 2024 3 10 6 59 59 _ _).
    + repeat split; apply Z.leb_le; reflexivity.
    + split; apply Z.leb_le; reflexivity.
  - refine (daylight_hours 2024 3 10 7 0 0 _ _).
    + repeat split; apply Z.leb_le; reflexivity.
    + split; apply Z.leb_le; reflexivity.
Defined.

(** X12.  The table of the zone ends in 2037: from 2038 on a strict
    timestamp is displayed five hours behind UTC the whole year, in
    summer as in winter. *)
Theorem no_daylight_after_2037 (y m d hh mm ss : Z) :
  let dt := Datetime.mk_datetime y m d hh mm ss 0 in
  Datetime.valid_datetime dt → 2038 <= y →
  MLBAPI.convert_utc_to_est (PStr (Cal.iso_z dt))
  = Ok ("EST " +:+ fmt2 ((hh - 5) mod 24) +:+ ":" +:+ fmt2 mm).
Proof.
  intros dt Hvalid Hy.
  apply (convert_hours dt 5 Hvalid); [reflexivity|simpl; lia|].
  apply in_effect_after_table; [by apply valid_in_clock_ranges|simpl; lia].
Qed.

Lemma no_daylight_after_2037_witness :
  MLBAPI.convert_utc_to_est (PStr "2040-07-04T23:10:00Z") = Ok "EST 18:10".
Proof.
  refine (no_daylight_after_2037 2040 7 4 23 10 0 _ _).
  - repeat split; apply Z.leb_le; reflexivity.
  - apply Z.leb_le. reflexivity.
Defined.

(** X13.  The two requests of a run need not be for the same day.  With
    both readings of the clock on the UTC day [(y, m, d)], the odds
    window starts at midnight UTC of that day and ends at two o'clock of
    the next, while the schedule is asked for the day before as long as
    the UTC time of day is less than the distance of US/Eastern from UTC,
    and for [(y, m, d)] after that. *)
Theorem schedule_day_and_window (w : world) (y m d : Z) :
  Datetime.valid_datetime (clock_est w) →
  Datetime.valid_datetime (clock_utc w) →
  (Datetime.year (clock_est w), Datetime.month (clock_est w),
   Datetime.day (clock_est w)) = (y, m, d) →
  (Datetime.year (clock_utc w), Datetime.month (clock_utc w),
   Datetime.day (clock_utc w)) = (y, m, d) →
  1001 <= y → (y, m, d) ≠ (9999, 12, 31) →
  let now := clock_est w in
  let secs := Datetime.hour now * 3600 + Datetime.minute now * 60
              + Datetime.second now in
  MLBAPI.get_utc_start_and_end w
  = Ok (Cal.date_text (y, m, d) +:+ "T00:00:00Z",
        Cal.date_text (Cal.next_day y m d) +:+ "T02:00:00Z")
  ∧ MLBAPI.get_current_est_date w
    = Ok (Cal.date_text
            (if secs <? - Pytz.utcoffset (Zone.in_effect now)
             then Cal.prev_day y m d else (y, m, d))).
Proof.
  intros Hest Hutc [= Hy1 Hm1 Hd1] [= Hy2 Hm2 Hd2] Hy Hlast. cbv zeta.
  split.
  - rewrite utc_window; [|done|lia|congruence].
    unfold Cal.iso_z, Cal.day_start, Cal.window_end, Cal.date_text.
    rewrite Hy2, Hm2, Hd2. cbn [Datetime.year Datetime.month Datetime.day].
    destruct (Cal.next_day y m d) as [[y' m'] d'].
    cbn [Datetime.year Datetime.month Datetime.day Datetime.hour
         Datetime.minute Datetime.second].
    by rewrite !append_assoc.
  - rewrite (est_date w Hest) by lia. unfold Zone.local_date.
    rewrite Hy1, Hm1, Hd1.
    set (secs := Datetime.hour (clock_est w) * 3600
                 + Datetime.minute (clock_est w) * 60
                 + Datetime.second (clock_est w)).
    set (off := Pytz.utcoffset (Zone.in_effect (clock_est w))).
    destruct (Z.ltb_spec (secs + off) 0), (Z.ltb_spec secs (- off));
      first [reflexivity | lia].
Qed.

Lemma schedule_day_and_window_witness :
  MLBAPI.get_utc_start_and_end Sample.run_after_midnight
  = Ok ("2024-07-05T00:00:00Z", "2024-07-06T02:00:00Z")
  ∧ MLBAPI.get_current_est_date Sample.run_after_midnight = Ok "2024-07-04".
Proof.
  refine (schedule_day_and_window Sample.run_after_midnight 2024 7 5
            _ _ _ _ _ _).
  - repeat split; apply Z.leb_le; reflexivity.
  - repeat split; apply Z.leb_le; reflexivity.
  - reflexivity.
  - reflexivity.
  - apply Z.leb_le. reflexivity.
  - discriminate.
Defined.

(** X14.  Of a schedule response the run reads the key [dates] and, of
    the first date entry, the key [games]: the later date entries and
    every other key of the response and of the entry change nothing. *)
Theorem later_dates_ignored cfg w (dm first : gmap string pyval) rest games :
  dm !! "dates" = Some (PList (PDict first :: rest)) →
  first !! "games" = Some games →
  MLBAPI.process_game_data cfg w (PDict dm)
  = MLBAPI.process_game_data cfg w
      (PDict {[ "dates" := PList [PDict {[ "games" := games ]}] ]}).
Proof.
  intros Hdates Hgames.
  assert (Hleft : MLBAPI.first_date_games (PDict dm) = Ok games).
  { unfold MLBAPI.first_date_games. cbn [get]. rewrite Hdates. simpl.
    by rewrite Hgames. }
  assert (Hright : MLBAPI.first_date_games
                     (PDict {[ "dates" := PList [PDict {[ "games" := games ]}] ]})
                   = Ok games).
  { unfold MLBAPI.first_date_games. cbn [get].
    rewrite lookup_singleton_eq. simpl. by rewrite lookup_singleton_eq. }
  unfold MLBAPI.process_game_data. by rewrite Hleft, Hright.
Qed.

Lemma later_dates_ignored_witness :
  MLBAPI.process_game_data Sample.cfg Sample.run Sample.schedule_two_dates
  = MLBAPI.process_game_data Sample.cfg Sample.run
      (Sample.schedule [Sample.cubs]).
Proof.
  unfold Sample.schedule_two_dates, Sample.schedule.
  apply (later_dates_ignored Sample.cfg Sample.run _
           {[ "games" := PList [Sample.cubs] ]}
           [PDict {[ "games" := PList [Sample.yankees] ]}]
           (PList [Sample.cubs])); reflexivity.
Defined.

(** X15.  The body of the odds answer is taken as it comes.  When it is
    an object and not a list, the loop over it visits its keys, and the
    first game that reaches the loop fails on the first key with a
    [TypeError]; when it is [null], the loop itself fails.  Without a
    game the body is not looked at. *)
Theorem events_not_a_list cfg w data game rest events :
  Spec.schedule_games data = Some (game :: rest) →
  Spec.valid_game game = true →
  MLBAPI.fetch_events cfg w = Ok events →
  (∀ em : gmap string pyval, events = PDict em → em ≠ ∅ →
     MLBAPI.process_game_data cfg w data
     = raise TypeError "string indices must be integers, not 'str'")
  ∧ (events = PNone →
     MLBAPI.process_game_data cfg w data
     = raise TypeError "'NoneType' object is not iterable").
Proof.
  intros Hgames (g & t & Hview & Htime)%valid_game_inv Hfetch.
  apply game_view_inv in Hview as (Hd & Ha & Hh & Hv).
  apply game_time_inv in Htime.
  assert (Hrun : MLBAPI.process_game_data cfg w data
                 = (game_info ← MLBAPI.build_game_info events game;
                    game_info_list ← MLBAPI.build_all events rest;
                    Ok (game_info :: game_info_list))).
  { unfold MLBAPI.process_game_data.
    by rewrite (schedule_games_first _ _ Hgames), bind_Ok, Hfetch, bind_Ok. }
  assert (Hbuild : MLBAPI.build_game_info events game
                   = (event_list ← iter events;
                      MLBAPI.match_events event_list
                        (<["venue" := Spec.venue_name g]>
                           (<["home_team" := PStr (Spec.home_name g)]>
                              (<["away_team" := Spec.away_name g]>
                                 (<["time" := PStr t]>
                                    (<["date" := PStr (Spec.gameDate g)]>
                                       ∅))))))).
  { unfold MLBAPI.build_game_info.
    by rewrite Hd, !bind_Ok, Htime, bind_Ok, Ha, bind_Ok, Hh, bind_Ok, Hv,
         bind_Ok. }
  rewrite Hrun, Hbuild. split.
  - intros em -> Hem. cbn [iter].
    destruct (map_to_list em) as [|[k v] l] eqn:Hl.
    { by apply map_to_list_empty_iff in Hl. }
    reflexivity.
  - intros ->. reflexivity.
Qed.

Lemma events_not_a_list_witness :
  MLBAPI.process_game_data Sample.cfg Sample.run_odds_object
    (Sample.schedule Sample.games)
  = raise TypeError "string indices must be integers, not 'str'".
Proof.
  refine (proj1 (events_not_a_list Sample.cfg Sample.run_odds_object
                   (Sample.schedule Sample.games) Sample.cubs
                   [Sample.yankees; Sample.yankees_late] Sample.odds_object
                   _ _ _) {[ "message" := PStr "Unknown sport" ]} _ _).
  - reflexivity.
  - reflexivity.
  - reflexivity.
  - reflexivity.
  - apply insert_non_empty.
Defined.
